(** * safeways: the accident predictor [preditor_ofc.py], its loader
    [interface.py] and the prediction helper of [data_generator.py].

    The development embeds the Python code shallowly:
    - text is [string] (the UTF-8 bytes of the Python [str]; substring tests
      on UTF-8 bytes and on code points agree);
    - a pandas cell is a [cell]: a number, a text, a timestamp or NaN/None/NaT;
    - a DataFrame is a row count and an ordered association list of columns;
    - [self.encoders] and the file system are [gmap]s keyed by text; an
      object of the training JSON is a [gmap] from its keys to a text or
      [null];
    - a method of [AccidentPredictor] is a computation in a state-and-exception
      monad over the predictor record: an exception keeps the state reached
      when it was raised;
    - pandas' parsers, the holiday calendar, numpy's transcendental functions,
      LightGBM and scikit-learn's metrics are fields of the class
      [Bibliotecas]; every theorem holds for every instance. *)

From Stdlib Require Import QArith Qround Qabs Lqa DecimalString Ascii.
From stdpp Require Import gmap strings list sorting.

Local Open Scope string_scope.
Local Open Scope Z_scope.

(** ** Text *)

(** Python's [k in cond] on two [str]: [k] occurs in [cond] as a substring. *)
Fixpoint contem (k cond : string) : bool :=
  String.prefix k cond ||
  match cond with
  | EmptyString => false
  | String _ resto => contem k resto
  end.

(** [any(k in cond for k in ks)] *)
Definition contem_algum (ks : list string) (cond : string) : bool :=
  existsb (fun k => contem k cond) ks.

(** ** Weather normalizer *)

Module Preditor.

(** [AccidentPredictor._simplificar_clima], preditor_ofc.py lines 30-41. *)
Definition _simplificar_clima (cond : string) : string :=
  if contem_algum ["Chuva"; "Garoa"] cond then "Chuva"
  else if contem "Nublado" cond then "Nublado"
  else if contem_algum ["Céu Claro"; "Sol"; "Bom"] cond then "Bom"
  else if contem "Vento" cond then "Vento"
  else if contem_algum ["Nevoeiro"; "Neblina"] cond then "Nevoeiro/Neblina"
  else "Outro".

End Preditor.

Module Gerador.

(** [_simplificar_clima] of data_generator.py, lines 42-53. *)
Definition _simplificar_clima (cond : string) : string :=
  if contem_algum ["Chuva"; "Garoa"] cond then "Chuva"
  else if contem "Nublado" cond then "Nublado"
  else if contem_algum ["Céu Claro"; "Sol"] cond then "Bom"
  else if contem "Vento" cond then "Vento"
  else if contem_algum ["Nevoeiro"; "Neblina"] cond then "Nevoeiro/Neblina"
  else "Outro".

End Gerador.

(** The six classes the normalizer can return. *)
Definition classes_clima : list string :=
  ["Chuva"; "Nublado"; "Bom"; "Vento"; "Nevoeiro/Neblina"; "Outro"].

(** ** Values, exceptions and the method monad *)

(** A [pandas.Timestamp] at midnight, as the date parser produces them. *)
Record timestamp := Timestamp { year : Z; month : Z; day : Z }.

Global Instance timestamp_eq_dec : EqDecision timestamp.
Proof. solve_decision. Defined.

(** Chronological order of timestamps. *)
Definition ts_le (a b : timestamp) : Prop :=
  (year a < year b ∨ (year a = year b ∧
    (month a < month b ∨ (month a = month b ∧ day a ≤ day b))))%Z.

Global Instance ts_le_dec : RelDecision ts_le.
Proof. intros a b. unfold ts_le. apply _. Defined.

(** One cell of a DataFrame.  [CNaN] stands for NaN, None and NaT. *)
Inductive cell :=
| CNum (q : Q)
| CStr (s : string)
| CData (d : timestamp)
| CNaN.

Definition czero : cell := CNum 0.
Definition cnum_Z (z : Z) : cell := CNum (inject_Z z).

Inductive exn :=
| RuntimeError (msg : string)
| KeyError (chave : string)
| TypeError
| ValueError
| AttributeError
| FileNotFoundError
| OverflowError
| ErroBiblioteca.

(** A method body: it reads and writes the object [S] and either returns or
    raises; the state at the raise is kept. *)
Definition M (S A : Type) : Type := S → (exn + A) * S.

Definition ret {S A} (a : A) : M S A := λ s, (inr a, s).
Definition raise {S A} (e : exn) : M S A := λ s, (inl e, s).
Definition bind {S A B} (c : M S A) (k : A → M S B) : M S B :=
  λ s, match c s with
       | (inr a, s') => k a s'
       | (inl e, s') => (inl e, s')
       end.
Definition lift {S A} (r : exn + A) : M S A :=
  match r with inr a => ret a | inl e => raise e end.
Definition gets {S A} (f : S → A) : M S A := λ s, (inr (f s), s).
Definition modify {S} (f : S → S) : M S unit := λ s, (inr tt, f s).

Notation "'do' x <- c ; k" := (bind c (λ x, k))
  (at level 10, x pattern, c at level 100, k at level 200).
Notation "'do_' c ; k" := (bind c (λ _, k))
  (at level 10, c at level 100, k at level 200).

(** The same for code that touches no object. *)
Definition bindE {A B} (r : exn + A) (k : A → exn + B) : exn + B :=
  match r with inr a => k a | inl e => inl e end.

Notation "'try' x <- r ; k" := (bindE r (λ x, k))
  (at level 10, x pattern, r at level 100, k at level 200).

Fixpoint mapE {A B} (f : A → exn + B) (l : list A) : exn + list B :=
  match l with
  | [] => inr []
  | a :: l' => try b <- f a; try bs <- mapE f l'; inr (b :: bs)
  end.

(** ** DataFrames *)

Abbreviation column := (list cell).

Record DataFrame := { nlinhas : nat; colunas : list (string * column) }.

Fixpoint assoc_get {A} (n : string) (l : list (string * A)) : option A :=
  match l with
  | [] => None
  | (m, a) :: l' => if String.eqb m n then Some a else assoc_get n l'
  end.

(** Assignment [d[n] = a]: in place when the key exists, appended otherwise. *)
Fixpoint assoc_set {A} (n : string) (a : A) (l : list (string * A)) : list (string * A) :=
  match l with
  | [] => [(n, a)]
  | (m, b) :: l' => if String.eqb m n then (m, a) :: l' else (m, b) :: assoc_set n a l'
  end.

Definition get_col (n : string) (df : DataFrame) : option column :=
  assoc_get n (colunas df).

(** [df[n]]: KeyError when the column does not exist. *)
Definition col (n : string) (df : DataFrame) : exn + column :=
  match get_col n df with Some c => inr c | None => inl (KeyError n) end.

(** [df[n] = c] *)
Definition set_col (n : string) (c : column) (df : DataFrame) : DataFrame :=
  {| nlinhas := nlinhas df; colunas := assoc_set n c (colunas df) |}.

(** [df[n] = v] for a scalar [v], broadcast over the rows. *)
Definition set_const (n : string) (v : cell) (df : DataFrame) : DataFrame :=
  set_col n (replicate (nlinhas df) v) df.

(** [df[names]]: the listed columns in the listed order. *)
Definition select (names : list string) (df : DataFrame) : exn + DataFrame :=
  try cs <- mapE (λ n, try c <- col n df; inr (n, c)) names;
  inr {| nlinhas := nlinhas df; colunas := cs |}.

Definition columns (df : DataFrame) : list string := fst <$> colunas df.

(** [df.fillna(0)] *)
Definition fillna0_cell (c : cell) : cell :=
  match c with CNaN => czero | _ => c end.

Definition fillna0 (df : DataFrame) : DataFrame :=
  {| nlinhas := nlinhas df;
     colunas := (λ p : string * column, (p.1, fillna0_cell <$> p.2)) <$> colunas df |}.

(** [X.iloc[:k]] and [X.iloc[k:]] *)
Definition iloc_ate (k : nat) (df : DataFrame) : DataFrame :=
  {| nlinhas := Nat.min k (nlinhas df);
     colunas := (λ p : string * column, (p.1, take k p.2)) <$> colunas df |}.

Definition iloc_desde (k : nat) (df : DataFrame) : DataFrame :=
  {| nlinhas := (nlinhas df - k)%nat;
     colunas := (λ p : string * column, (p.1, drop k p.2)) <$> colunas df |}.

(** ** Label encoders *)

(** [sklearn.preprocessing.LabelEncoder]: [classes_] is the sorted array of
    the distinct fitted labels. *)
Record LabelEncoder := { classes_ : list string }.

(** [np.unique] on text. *)
Definition np_unique (vals : list string) : list string :=
  merge_sort String.le (remove_dups vals).

Definition fit (vals : list string) : LabelEncoder :=
  {| classes_ := np_unique vals |}.

Fixpoint indice (x : string) (cs : list string) : option nat :=
  match cs with
  | [] => None
  | c :: cs' => if decide (c = x) then Some 0%nat else S <$> indice x cs'
  end.

(** [enc.transform([x])[0]]: the position of the label; ValueError on a label
    that was not fitted. *)
Definition transform (enc : LabelEncoder) (x : cell) : exn + Z :=
  match x with
  | CStr s => match indice s (classes_ enc) with
              | Some i => inr (Z.of_nat i)
              | None => inl ValueError
              end
  | _ => inl ValueError
  end.

(** [x in enc.classes_] *)
Definition em_classes (enc : LabelEncoder) (x : cell) : bool :=
  match x with
  | CStr s => bool_decide (s ∈ classes_ enc)
  | _ => false
  end.

(** The lambda of preditor_ofc.py line 97:
    [enc.transform([x])[0] if x in enc.classes_ else -1]. *)
Definition codificar_valor (enc : LabelEncoder) (x : cell) : exn + Z :=
  if em_classes enc x then transform enc x else inr (-1).

(** The labels of a text column.  [fit_transform] sorts the labels, so a
    column that mixes text with the 0 that [fillna] puts for a missing value
    makes it raise TypeError.  An encoder of this embedding holds text
    classes: a column of numbers only or of dates only, which scikit-learn
    fits as well, is treated like a mixed one, and the statements on
    [prever] ask for text where that matters. *)
Definition textos (c : column) : exn + list string :=
  mapE (λ x, match x with CStr s => inr s | _ => inl TypeError end) c.

(** ** Shifted and rolling series *)

(** [s.shift(k)]: every value moves [k] rows down, NaN enters at the top. *)
Definition shift (k : nat) (s : column) : column :=
  take (length s) (replicate k CNaN ++ s).

(** Rolling statistics need a numeric series: numbers and NaN only. *)
Definition numerica (s : column) : exn + list (option Q) :=
  mapE (λ c, match c with
             | CNum q => inr (Some q)
             | CNaN => inr None
             | _ => inl TypeError
             end) s.

(** The window of [s.rolling(w)] that ends at row [i]: rows [i-w+1 .. i]. *)
Definition janela {A} (w i : nat) (s : list A) : list A :=
  take (i + 1 - (i + 1 - w)) (drop (i + 1 - w) s).

(** The observations of a window are its values that are not NaN. *)
Definition observacoes (win : list (option Q)) : list Q := omap id win.

(** [s.rolling(w, min_periods=1).agg()]: one statistic per row. *)
Definition rolling (w : nat) (agg : list Q → cell) (s : list (option Q)) : column :=
  (λ i, agg (observacoes (janela w i s))) <$> seq 0 (length s).

Definition Qsum (xs : list Q) : Q := foldr Qplus 0%Q xs.

Definition Qmean (xs : list Q) : Q :=
  (Qsum xs / inject_Z (Z.of_nat (length xs)))%Q.

(** Sample variance (ddof = 1). *)
Definition Qvar (xs : list Q) : Q :=
  let m := Qmean xs in
  (Qsum ((λ x, (x - m) * (x - m)) <$> xs)
     / inject_Z (Z.of_nat (length xs) - 1))%Q.

(** [.mean()] with [min_periods=1]: NaN on a window without observations. *)
Definition media (xs : list Q) : cell :=
  match xs with [] => CNaN | _ => CNum (Qmean xs) end.

(** ** Rounding and the chronological split *)

(** [np.round]: to the nearest integer, halves to the even neighbour. *)
Definition np_round (q : Q) : Z :=
  let f := Qfloor q in
  match (q - inject_Z f ?= 1 # 2)%Q with
  | Lt => f
  | Gt => f + 1
  | Eq => if Z.even f then f else f + 1
  end.

(** [np.clip(np.round(r), 0, None)] on one value: a float that holds an
    integer. *)
Definition arredonda_clip (r : Q) : Z := Z.max 0 (np_round r).

(** [.astype(int)] on a float that holds the integer [z]: the int64 of that
    value, and the least int64 when [z] does not fit in 64 bits (what the
    conversion gives on x86-64). *)
Definition astype_int (z : Z) : Z :=
  if (- 2 ^ 63 <=? z) && (z <? 2 ^ 63) then z else - 2 ^ 63.

(** The sum of an int64 column is an int64: it wraps around. *)
Definition int64 (z : Z) : Z := (z + 2 ^ 63) mod 2 ^ 64 - 2 ^ 63.

(** The double nearest to [0.7] is [mantissa_07 / 2^53]. *)
Definition mantissa_07 : Z := 6305039478318694.

(** Rounding of a non-negative integer to 53 significant bits, ties to even:
    the IEEE-754 rounding of an exact product of two doubles. *)
Definition arredonda53 (a : Z) : Z :=
  let bits := Z.log2 a + 1 in
  if bits <=? 53 then a
  else
    let sh := bits - 53 in
    let m := Z.shiftr a sh in
    let resto := a - Z.shiftl m sh in
    let meio := Z.shiftl 1 (sh - 1) in
    let m' := if resto <? meio then m
              else if meio <? resto then m + 1
              else if Z.even m then m else m + 1 in
    Z.shiftl m' sh.

(** [int(len(X) * 0.7)] in double precision. *)
Definition split_index (n : nat) : nat :=
  Z.to_nat (Z.shiftr (arredonda53 (Z.of_nat n * mantissa_07)) 53).

(** ** JSON objects *)

(** One object of the training JSON: its keys, each with a text or [null]. *)
Abbreviation objeto := (gmap string (option string)).

(** ** External libraries *)

Class Bibliotecas := {
  (** [pd.to_datetime(c, format="%d/%m/%Y", errors="coerce")] on one cell;
      [None] is NaT. *)
  to_datetime_dmY : cell → option timestamp;
  (** [pd.to_datetime(c, format="%H:%M:%S", errors="coerce").dt.hour] *)
  to_datetime_hora : string → option Z;
  (** [.dt.dayofweek], [.dt.dayofyear], [.dt.isocalendar().week] *)
  dayofweek : timestamp → Z;
  dayofyear : timestamp → Z;
  isoweek : timestamp → Z;
  (** [x in holidays.Brazil()] *)
  holidays_br : timestamp → bool;
  (** [np.sin(2 * np.pi * x)], [np.cos(2 * np.pi * x)], [np.sqrt(x)] *)
  sin_2pi : Q → Q;
  cos_2pi : Q → Q;
  np_sqrt : Q → Q;
  (** [lightgbm.LGBMRegressor]: its state, the constructor call
      [LGBMRegressor(random_state=42)], [fit] and [predict].  [predict]
      returns one raw value per row of its argument. *)
  regressor : Type;
  LGBMRegressor : regressor;
  lgbm_fit : regressor → DataFrame → column → exn + regressor;
  lgbm_predict : regressor → DataFrame → exn + list Q;
  lgbm_predict_shape m X ys :
    lgbm_predict m X = inr ys → length ys = nlinhas X;
  (** [sklearn.metrics.r2_score], [mean_squared_error] *)
  r2_score : column → list Q → exn + cell;
  mean_squared_error : column → list Q → exn + Q;
}.

Section Pipeline.

Context `{B : Bibliotecas}.

(** [.std()] with [min_periods=1]: NaN with fewer than two observations. *)
Definition desvio (xs : list Q) : cell :=
  if (length xs <? 2)%nat then CNaN else CNum (np_sqrt (Qvar xs)).

(** ** The predictor object *)

Record predictor := {
  modelo : regressor;
  encoders : gmap string LabelEncoder;
  feature_names : list string;
  treinado : bool;
  best_params : list (string * cell);
  r2_score_train : option cell;
  rmse_score_train : option cell;
  r2_score_test : option cell;
  rmse_score_test : option cell;
  historical_df : option DataFrame;
}.

(** [AccidentPredictor.__init__] *)
Definition __init__ : predictor :=
  {| modelo := LGBMRegressor; encoders := ∅; feature_names := [];
     treinado := false; best_params := [];
     r2_score_train := None; rmse_score_train := None;
     r2_score_test := None; rmse_score_test := None;
     historical_df := None |}.

Definition set_modelo (m : regressor) (p : predictor) : predictor :=
  {| modelo := m; encoders := encoders p; feature_names := feature_names p;
     treinado := treinado p; best_params := best_params p;
     r2_score_train := r2_score_train p; rmse_score_train := rmse_score_train p;
     r2_score_test := r2_score_test p; rmse_score_test := rmse_score_test p;
     historical_df := historical_df p |}.

Definition set_encoder (c : string) (enc : LabelEncoder) (p : predictor) : predictor :=
  {| modelo := modelo p; encoders := <[c := enc]> (encoders p);
     feature_names := feature_names p;
     treinado := treinado p; best_params := best_params p;
     r2_score_train := r2_score_train p; rmse_score_train := rmse_score_train p;
     r2_score_test := r2_score_test p; rmse_score_test := rmse_score_test p;
     historical_df := historical_df p |}.

Definition set_feature_names (ns : list string) (p : predictor) : predictor :=
  {| modelo := modelo p; encoders := encoders p; feature_names := ns;
     treinado := treinado p; best_params := best_params p;
     r2_score_train := r2_score_train p; rmse_score_train := rmse_score_train p;
     r2_score_test := r2_score_test p; rmse_score_test := rmse_score_test p;
     historical_df := historical_df p |}.

Definition set_historical_df (h : DataFrame) (p : predictor) : predictor :=
  {| modelo := modelo p; encoders := encoders p; feature_names := feature_names p;
     treinado := treinado p; best_params := best_params p;
     r2_score_train := r2_score_train p; rmse_score_train := rmse_score_train p;
     r2_score_test := r2_score_test p; rmse_score_test := rmse_score_test p;
     historical_df := Some h |}.

Definition set_r2_train (c : cell) (p : predictor) : predictor :=
  {| modelo := modelo p; encoders := encoders p; feature_names := feature_names p;
     treinado := treinado p; best_params := best_params p;
     r2_score_train := Some c; rmse_score_train := rmse_score_train p;
     r2_score_test := r2_score_test p; rmse_score_test := rmse_score_test p;
     historical_df := historical_df p |}.

Definition set_rmse_train (c : cell) (p : predictor) : predictor :=
  {| modelo := modelo p; encoders := encoders p; feature_names := feature_names p;
     treinado := treinado p; best_params := best_params p;
     r2_score_train := r2_score_train p; rmse_score_train := Some c;
     r2_score_test := r2_score_test p; rmse_score_test := rmse_score_test p;
     historical_df := historical_df p |}.

Definition set_r2_test (c : cell) (p : predictor) : predictor :=
  {| modelo := modelo p; encoders := encoders p; feature_names := feature_names p;
     treinado := treinado p; best_params := best_params p;
     r2_score_train := r2_score_train p; rmse_score_train := rmse_score_train p;
     r2_score_test := Some c; rmse_score_test := rmse_score_test p;
     historical_df := historical_df p |}.

Definition set_rmse_test (c : cell) (p : predictor) : predictor :=
  {| modelo := modelo p; encoders := encoders p; feature_names := feature_names p;
     treinado := treinado p; best_params := best_params p;
     r2_score_train := r2_score_train p; rmse_score_train := rmse_score_train p;
     r2_score_test := r2_score_test p; rmse_score_test := Some c;
     historical_df := historical_df p |}.

Definition set_treinado (b : bool) (p : predictor) : predictor :=
  {| modelo := modelo p; encoders := encoders p; feature_names := feature_names p;
     treinado := b; best_params := best_params p;
     r2_score_train := r2_score_train p; rmse_score_train := rmse_score_train p;
     r2_score_test := r2_score_test p; rmse_score_test := rmse_score_test p;
     historical_df := historical_df p |}.

(** ** Daily aggregation: [_processar_dados] *)

(** One row of the frame read from the training JSON; [None] is NaN, the
    cell of a missing or null field. *)
Record registro := {
  data_inversa : option string;
  horario : option string;
  uf : option string;
  municipio : option string;
  tipo_acidente : option string;
  condicao_metereologica : option string;
}.

Definition celula (o : option string) : cell := from_option CStr CNaN o.

(** A row that survives lines 44-48: parsed date and hour, normalized weather. *)
Record linha := {
  l_data : timestamp;
  l_data_inversa : option string;
  l_uf : string;
  l_municipio : string;
  l_tipo_acidente : string;
  l_condicao : string;
  l_hora : Z;
}.

(** Lines 44-48 on one record; [None] when the row is filtered or dropped. *)
Definition preparar (r : registro) : option linha :=
  d ← to_datetime_dmY (celula (data_inversa r));
  if decide (2019 ≤ year d) then
    h ← horario r;
    u ← uf r;
    m ← municipio r;
    t ← tipo_acidente r;
    c ← condicao_metereologica r;
    hora ← to_datetime_hora h;
    Some {| l_data := d; l_data_inversa := data_inversa r;
            l_uf := u; l_municipio := m; l_tipo_acidente := t;
            l_condicao := Preditor._simplificar_clima c; l_hora := hora |}
  else None.

(** Number of occurrences of [v]. *)
Definition contagem (v : string) (xs : list string) : nat :=
  length (filter (λ x, x = v) xs).

(** [Series.mode()]: the most frequent values, sorted. *)
Definition moda (xs : list string) : list string :=
  let maximo := max_list ((λ v, contagem v xs) <$> xs) in
  np_unique (filter (λ v, contagem v xs = maximo) xs).

(** [x.mode()[0]] *)
Definition moda0 (xs : list string) : exn + string :=
  match moda xs with
  | m :: _ => inr m
  | [] => inl (KeyError "0")
  end.

(** One row of [agg] (lines 50-57). *)
Record agregado := {
  a_data : timestamp;
  a_acidentes : Z;
  a_uf : string;
  a_municipio : string;
  a_tipo_acidente : string;
  a_condicao_metereologica : string;
  a_hora_media : cell;
}.

(** The keys of [groupby("data")], ascending. *)
Definition chaves (ls : list linha) : list timestamp :=
  merge_sort ts_le (remove_dups (l_data <$> ls)).

(** The rows of one day, in record order. *)
Definition grupo (d : timestamp) (ls : list linha) : list linha :=
  filter (λ l, l_data l = d) ls.

Definition agregar_grupo (d : timestamp) (g : list linha) : exn + agregado :=
  try u <- moda0 (l_uf <$> g);
  try m <- moda0 (l_municipio <$> g);
  try t <- moda0 (l_tipo_acidente <$> g);
  try c <- moda0 (l_condicao <$> g);
  inr {| a_data := d;
         a_acidentes := Z.of_nat (length (filter (λ l, is_Some (l_data_inversa l)) g));
         a_uf := u; a_municipio := m; a_tipo_acidente := t;
         a_condicao_metereologica := c;
         a_hora_media := media ((λ l, inject_Z (l_hora l)) <$> g) |}.

(** Lines 44-57. *)
Definition agregar (dados : list registro) : exn + list agregado :=
  let ls := omap preparar dados in
  mapE (λ d, agregar_grupo d (grupo d ls)) (chaves ls).

(** One row of the daily series. *)
Record dia := {
  d_data : timestamp;
  d_acidentes : Z;
  d_uf : string;
  d_municipio : string;
  d_tipo_acidente : string;
  d_hora_media : cell;
  d_clima : string;
}.

(** Lines 59-60 on one row. *)
Definition finalizar (a : agregado) : dia :=
  {| d_data := a_data a; d_acidentes := a_acidentes a; d_uf := a_uf a;
     d_municipio := a_municipio a; d_tipo_acidente := a_tipo_acidente a;
     d_hora_media := a_hora_media a;
     d_clima := Preditor._simplificar_clima (a_condicao_metereologica a) |}.

Definition dia_le (a b : dia) : Prop := ts_le (d_data a) (d_data b).

Global Instance dia_le_dec : RelDecision dia_le.
Proof. intros a b. unfold dia_le. apply _. Defined.

(** [dados] are the rows of a frame that has the six columns read by lines
    44-48; the KeyError of a frame that lacks one of them is
    [colunas_exigidas], below. *)
Definition _processar_dados (dados : list registro) : exn + list dia :=
  try agg <- agregar dados;
  inr (merge_sort dia_le (finalizar <$> agg)).

(** The daily series as the DataFrame [_processar_dados] returns. *)
Definition frame_de (serie : list dia) : DataFrame :=
  {| nlinhas := length serie;
     colunas :=
       [ ("data", CData ∘ d_data <$> serie);
         ("acidentes", cnum_Z ∘ d_acidentes <$> serie);
         ("uf", CStr ∘ d_uf <$> serie);
         ("municipio", CStr ∘ d_municipio <$> serie);
         ("tipo_acidente", CStr ∘ d_tipo_acidente <$> serie);
         ("hora_media", d_hora_media <$> serie);
         ("clima", CStr ∘ d_clima <$> serie) ] |}.

(** ** Feature construction: [_criar_features] *)

(** [f"{prefixo}{k}"] *)
Definition nome (prefixo : string) (k : nat) : string :=
  prefixo +:+ NilZero.string_of_uint (Nat.to_uint k).

Definition lags : list nat := [1; 2; 7; 14]%nat.
Definition janelas : list nat := [7; 14; 28]%nat.
Definition categoricas : list string := ["uf"; "municipio"; "tipo_acidente"; "clima"].

(** The [.dt] accessors and [.astype(int)] of lines 64-68 need real dates. *)
Definition datas_validas (c : column) : exn + list timestamp :=
  mapE (λ x, match x with
             | CData d => inr d
             | CNaN => inl ValueError
             | _ => inl AttributeError
             end) c.

(** Lines 70-71 on a frame without rows: [apply] on the empty datetime
    column returns an empty datetime column instead of integers, and its
    product with "fim_semana" is a TypeError. *)
Definition com_linhas (ds : list timestamp) : exn + unit :=
  match ds with [] => inl TypeError | _ => inr () end.

Definition bool_Z (b : bool) : Z := if b then 1 else 0.

(** Lines 64-76. *)
Definition calendario (ds : list timestamp) (df : DataFrame) : DataFrame :=
  let dia_semana := dayofweek <$> ds in
  let dia_ano := dayofyear <$> ds in
  let fim_semana := (λ d, bool_Z (5 <=? d)) <$> dia_semana in
  let feriado := (λ d, bool_Z (holidays_br d)) <$> ds in
  let df := set_col "ano" (cnum_Z ∘ year <$> ds) df in
  let df := set_col "mes" (cnum_Z ∘ month <$> ds) df in
  let df := set_col "dia_semana" (cnum_Z <$> dia_semana) df in
  let df := set_col "dia_ano" (cnum_Z <$> dia_ano) df in
  let df := set_col "semana" (cnum_Z ∘ isoweek <$> ds) df in
  let df := set_col "fim_semana" (cnum_Z <$> fim_semana) df in
  let df := set_col "feriado" (cnum_Z <$> feriado) df in
  let df := set_col "feriado_fim_semana"
              (cnum_Z <$> zip_with Z.mul feriado fim_semana) df in
  let df := set_col "dia_semana_sin"
              ((λ d, CNum (sin_2pi (inject_Z d / 7))) <$> dia_semana) df in
  let df := set_col "dia_semana_cos"
              ((λ d, CNum (cos_2pi (inject_Z d / 7))) <$> dia_semana) df in
  let df := set_col "dia_ano_sin"
              ((λ d, CNum (sin_2pi (inject_Z d / (1461 # 4)))) <$> dia_ano) df in
  set_col "dia_ano_cos"
              ((λ d, CNum (cos_2pi (inject_Z d / (1461 # 4)))) <$> dia_ano) df.

(** Lines 78-89. *)
Definition historico (df : DataFrame) : exn + DataFrame :=
  match get_col "acidentes" df with
  | Some ac =>
      let df := foldl (λ df k, set_col (nome "lag_" k) (shift k ac) df) df lags in
      try s1 <- numerica (shift 1 ac);
      inr (foldl (λ df w,
                    set_col (nome "std_" w) (rolling w desvio s1)
                      (set_col (nome "media_" w) (rolling w media s1) df))
                 df janelas)
  | None =>
      let df := foldl (λ df k, set_const (nome "lag_" k) czero df) df lags in
      inr (foldl (λ df w,
                    set_const (nome "std_" w) czero
                      (set_const (nome "media_" w) czero df))
                 df janelas)
  end.

(** One turn of the loop of lines 93-103. *)
Definition codificar_coluna (df : DataFrame) (c : string) : M predictor DataFrame :=
  match get_col c df with
  | Some vals =>
      do encs <- gets encoders;
      match encs !! c with
      | Some enc =>
          do cods <- lift (mapE (codificar_valor enc) vals);
          ret (set_col (c +:+ "_enc") (cnum_Z <$> cods) df)
      | None =>
          do txt <- lift (textos vals);
          let enc := fit txt in
          do cods <- lift (mapE (transform enc) vals);
          do_ modify (set_encoder c enc);
          ret (set_col (c +:+ "_enc") (cnum_Z <$> cods) df)
      end
  | None => ret (set_const (c +:+ "_enc") czero df)
  end.

Fixpoint foldM {S A X} (f : A → X → M S A) (a : A) (l : list X) : M S A :=
  match l with
  | [] => ret a
  | x :: l' => do a' <- f a x; foldM f a' l'
  end.

(** Lines 105-112. *)
Definition features : list string :=
  [ "ano"; "mes"; "dia_semana"; "dia_ano"; "semana"; "fim_semana";
    "dia_semana_sin"; "dia_semana_cos"; "dia_ano_sin"; "dia_ano_cos";
    "hora_media"; "feriado"; "feriado_fim_semana" ]
  ++ (nome "lag_" <$> lags)
  ++ (nome "media_" <$> janelas)
  ++ (nome "std_" <$> janelas)
  ++ ((λ c, c +:+ "_enc") <$> categoricas).

Definition _criar_features (df : DataFrame) : M predictor (DataFrame * option column) :=
  do datas <- lift (col "data" df);
  do ds <- lift (datas_validas datas);
  do_ lift (com_linhas ds);
  let df := calendario ds df in
  do df <- lift (historico df);
  let df := fillna0 df in
  do df <- foldM codificar_coluna df categoricas;
  do X <- lift (select features df);
  ret (X, get_col "acidentes" df).

(** ** Persistence *)

(** The dict pickled by [salvar_modelo] and read by [load_model]: one field
    per key the code reads or writes, [None] when the key is absent.  A
    metric or the history can be present with the value [None]. *)
Record blob := {
  b_modelo : option regressor;
  b_model : option regressor;
  b_encoders : option (gmap string LabelEncoder);
  b_features : option (list string);
  b_feature_names : option (list string);
  b_params : option (list (string * cell));
  b_best_params : option (list (string * cell));
  b_r2_train : option (option cell);
  b_rmse_train : option (option cell);
  b_r2_test : option (option cell);
  b_rmse_test : option (option cell);
  b_r2 : option (option cell);
  b_rmse : option (option cell);
  b_historical_df : option (option DataFrame);
}.

(** A file: a JSON list of objects (the records of the dataset), a pickled
    dict, or a file that neither [json.load] nor [pickle.load] can read. *)
Inductive arquivo :=
| AJson (dados : list objeto)
| APickle (data : blob)
| AOutro.

(** [d.get(k, default)] *)
Definition dict_get {A} (v : option A) (padrao : A) : A := default padrao v.

(** ** [treinar], [salvar_modelo], [prever] *)

(** [np.clip(np.round(r), 0, None)]: the evaluation keeps floats. *)
Definition pos_processa (r : list Q) : list Q :=
  (λ x, inject_Z (arredonda_clip x)) <$> r.

(** Lines 124-142 of [treinar]: the split, the fit and the evaluation. *)
Definition ajustar_e_avaliar (X : DataFrame) (y : option column) : M predictor unit :=
  do_ modify (set_feature_names (columns X));
  let split := split_index (nlinhas X) in
  let X_train := iloc_ate split X in
  let X_test := iloc_desde split X in
  do y <- lift (match y with Some y => inr y | None => inl AttributeError end);
  let y_train := take split y in
  let y_test := drop split y in
  do m <- gets modelo;
  do m' <- lift (lgbm_fit m X_train y_train);
  do_ modify (set_modelo m');
  do r_train <- lift (lgbm_predict m' X_train);
  let y_pred_train := pos_processa r_train in
  do r_test <- lift (lgbm_predict m' X_test);
  let y_pred_test := pos_processa r_test in
  do r2tr <- lift (r2_score y_train y_pred_train);
  do_ modify (set_r2_train r2tr);
  do msetr <- lift (mean_squared_error y_train y_pred_train);
  do_ modify (set_rmse_train (CNum (np_sqrt msetr)));
  do r2te <- lift (r2_score y_test y_pred_test);
  do_ modify (set_r2_test r2te);
  do msete <- lift (mean_squared_error y_test y_pred_test);
  do_ modify (set_rmse_test (CNum (np_sqrt msete)));
  modify (set_treinado true).

(** [json.load] of the training file. *)
Definition ler_json (fs : gmap string arquivo) (arquivo_json : string) : exn + list objeto :=
  match fs !! arquivo_json with
  | Some (AJson d) => inr d
  | Some _ => inl ValueError
  | None => inl FileNotFoundError
  end.

(** [pd.DataFrame(json.load(f))] on a list of objects has a column for every
    key of some object, and no other. *)
Definition tem_coluna (k : string) (js : list objeto) : bool :=
  existsb (λ o : objeto, bool_decide (is_Some (o !! k))) js.

(** The row of one object: NaN where the key is missing or null. *)
Definition linha_de (o : objeto) : registro :=
  {| data_inversa := o !! "data_inversa" ≫= id;
     horario := o !! "horario" ≫= id;
     uf := o !! "uf" ≫= id;
     municipio := o !! "municipio" ≫= id;
     tipo_acidente := o !! "tipo_acidente" ≫= id;
     condicao_metereologica := o !! "condicao_metereologica" ≫= id |}.

(** Python's [repr] of a list of plain texts, as a KeyError shows it. *)
Definition repr_lista (ks : list string) : string :=
  "[" +:+ String.concat ", " ((λ k, "'" +:+ k +:+ "'") <$> ks) +:+ "]".

(** The column lookups of lines 44-45, which come before every other effect
    of [_processar_dados]: [df["data_inversa"]], then the [subset] of
    [dropna], whose missing labels are raised together.  With the six
    columns there, the rows of the frame are returned. *)
Definition colunas_exigidas (js : list objeto) : exn + list registro :=
  if tem_coluna "data_inversa" js then
    match filter (λ k, tem_coluna k js = false)
            ["horario"; "uf"; "municipio"; "tipo_acidente";
             "condicao_metereologica"] with
    | [] => inr (linha_de <$> js)
    | faltam => inl (KeyError (repr_lista faltam))
    end
  else inl (KeyError "data_inversa").

Definition treinar (fs : gmap string arquivo) (arquivo_json : string) : M predictor unit :=
  do js <- lift (ler_json fs arquivo_json);
  do dados <- lift (colunas_exigidas js);
  do serie <- lift (_processar_dados dados);
  let df := frame_de serie in
  do_ modify (set_historical_df df);
  do (X, y) <- _criar_features df;
  ajustar_e_avaliar X y.

(** The dict of lines 152-161. *)
Definition blob_de (p : predictor) : blob :=
  {| b_modelo := Some (modelo p); b_model := None;
     b_encoders := Some (encoders p);
     b_features := Some (feature_names p); b_feature_names := None;
     b_params := None; b_best_params := None;
     b_r2_train := Some (r2_score_train p);
     b_rmse_train := Some (rmse_score_train p);
     b_r2_test := Some (r2_score_test p);
     b_rmse_test := Some (rmse_score_test p);
     b_r2 := None; b_rmse := None;
     b_historical_df := Some (historical_df p) |}.

(** [salvar_modelo]: the state is the predictor and the file system. *)
Definition salvar_modelo (nome_arq : string) : M (predictor * gmap string arquivo) unit :=
  do t <- gets (λ s, treinado s.1);
  if negb t then raise (RuntimeError "Treine o modelo antes de salvar.")
  else modify (λ s, (s.1, <[nome_arq := APickle (blob_de s.1)]> s.2)).

(** [df[c].apply(self._simplificar_clima)] on one cell: [k in cond] needs a
    [str]. *)
Definition aplicar_simplificar (c : cell) : exn + cell :=
  match c with
  | CStr s => inr (CStr (Preditor._simplificar_clima s))
  | _ => inl TypeError
  end.

Definition to_datetime (c : cell) : cell :=
  from_option CData CNaN (to_datetime_dmY c).

(** Lines 172-183 of [prever]: the matrix [X_predict] given to the regressor. *)
Definition prever_features (df_input : DataFrame) : M predictor DataFrame :=
  let df := df_input in
  do di <- lift (col "data_inversa" df);
  let df := set_col "data" (to_datetime <$> di) df in
  do cm <- lift (col "condicao_metereologica" df);
  do clima <- lift (mapE aplicar_simplificar cm);
  let df := set_col "clima" clima df in
  do (X_input, _) <- _criar_features df;
  do nomes <- gets feature_names;
  lift (select nomes X_input).

Definition prever (df_input : DataFrame) : M predictor (list Z) :=
  do t <- gets treinado;
  if negb t then raise (RuntimeError "O modelo não foi treinado.")
  else
    do X_predict <- prever_features df_input;
    do m <- gets modelo;
    do resultado <- lift (lgbm_predict m X_predict);
    ret (astype_int ∘ arredonda_clip <$> resultado).

(** ** [load_model] of interface.py *)

(** [None] is the [return None] of both [except] branches; the messages go
    to the page. *)
Definition load_model (fs : gmap string arquivo) (pickle_path : string) : option predictor :=
  match fs !! pickle_path with
  | None => None
  | Some (APickle data) =>
      let predictor := __init__ in
      Some {| modelo := dict_get (b_modelo data)
                          (dict_get (b_model data) (modelo predictor));
              encoders := dict_get (b_encoders data) ∅;
              feature_names := dict_get (b_features data)
                                 (dict_get (b_feature_names data) []);
              treinado := true;
              best_params := dict_get (b_params data)
                               (dict_get (b_best_params data) []);
              r2_score_train := r2_score_train predictor;
              rmse_score_train := rmse_score_train predictor;
              r2_score_test := dict_get (b_r2_test data)
                                 (dict_get (b_r2 data) None);
              rmse_score_test := dict_get (b_rmse_test data)
                                   (dict_get (b_rmse data) None);
              historical_df := dict_get (b_historical_df data) None |}
  | Some _ => None
  end.

End Pipeline.

(** ** Vocabulary of the statements *)

(** [v] is one of the most frequent values of [xs]. *)
Definition mais_frequente (v : string) (xs : list string) : Prop :=
  v ∈ xs ∧ ∀ x, x ∈ xs → (contagem x xs ≤ contagem v xs)%nat.

(** The first value, in the order of [xs], among the most frequent ones. *)
Definition primeira_moda (xs : list string) : option string :=
  let maximo := max_list ((λ v, contagem v xs) <$> xs) in
  head (filter (λ v, contagem v xs = maximo) xs).

(** [valor] is the least, in the order of text, of the most frequent values
    of the field [campo] in the group [g]. *)
Definition menor_moda (campo : linha → string) (valor : string) (g : list linha) : Prop :=
  mais_frequente valor (campo <$> g) ∧
  ∀ v, mais_frequente v (campo <$> g) → String.le valor v.

(** Several assignments in a row. *)
Definition set_cols (ncs : list (string * column)) (df : DataFrame) : DataFrame :=
  foldl (λ df nc, set_col nc.1 nc.2 df) df ncs.

Definition nomes_calendario : list string :=
  [ "ano"; "mes"; "dia_semana"; "dia_ano"; "semana"; "fim_semana"; "feriado";
    "feriado_fim_semana"; "dia_semana_sin"; "dia_semana_cos"; "dia_ano_sin";
    "dia_ano_cos" ].

Definition nomes_historico : list string :=
  (nome "lag_" <$> lags) ++ (janelas ≫= λ w, [nome "media_" w; nome "std_" w]).

Definition nomes_enc : list string := (λ c, c +:+ "_enc") <$> categoricas.

Ltac decide_nomes := by (apply (bool_decide_unpack _); vm_compute).



(** The counts of the series, as the numbers the statistics are taken of. *)
Definition contagens (serie : list dia) : list Q :=
  (λ d, inject_Z (d_acidentes d)) <$> serie.

Section Vocabulario.

Context `{B : Bibliotecas}.


(** The columns written by lines 80-83. *)
Definition colunas_historico (ac : column) (s1 : list (option Q)) : list (string * column) :=
  ((λ k, (nome "lag_" k, shift k ac)) <$> lags)
  ++ (janelas ≫= λ w, [ (nome "media_" w, rolling w media s1);
                        (nome "std_" w, rolling w desvio s1) ]).

(** The columns written by lines 85-89. *)
Definition colunas_zero (n : nat) : list (string * column) :=
  (λ nm, (nm, replicate n czero)) <$> nomes_historico.

(** [p'] differs from [p] at most in the encoder registry. *)
Definition so_encoders (p p' : predictor) : Prop :=
  modelo p' = modelo p ∧ feature_names p' = feature_names p ∧
  treinado p' = treinado p ∧ best_params p' = best_params p ∧
  r2_score_train p' = r2_score_train p ∧
  rmse_score_train p' = rmse_score_train p ∧
  r2_score_test p' = r2_score_test p ∧
  rmse_score_test p' = rmse_score_test p ∧
  historical_df p' = historical_df p.

(** The outcome of the encoding loop for the field [c]: from the frame [df]
    and the predictor [p] before the loop to [df'] and [p'] after it. *)
Definition resultado_enc (df : DataFrame) (p : predictor) (c : string)
    (df' : DataFrame) (p' : predictor) : Prop :=
  match get_col c df with
  | None =>
      get_col (c +:+ "_enc") df' = Some (replicate (nlinhas df) czero) ∧
      encoders p' !! c = encoders p !! c
  | Some vals =>
      match encoders p !! c with
      | Some enc =>
          encoders p' !! c = Some enc ∧
          ∃ cods, mapE (codificar_valor enc) vals = inr cods ∧
                  get_col (c +:+ "_enc") df' = Some (cnum_Z <$> cods)
      | None =>
          ∃ txt cods, vals = CStr <$> txt ∧
            encoders p' !! c = Some (fit txt) ∧
            mapE (transform (fit txt)) vals = inr cods ∧
            get_col (c +:+ "_enc") df' = Some (cnum_Z <$> cods)
      end
  end.

(** The frame before the encoding loop: calendar, history, [fillna(0)]. *)
Definition antes_de_codificar (ds : list timestamp) (ncs : list (string * column))
    (df : DataFrame) : DataFrame :=
  fillna0 (set_cols ncs (calendario ds df)).

(** The values of a categorical field over all the rows of the series. *)
Definition valores (c : string) (serie : list dia) : list string :=
  match get_col c (frame_de serie) with
  | Some vals => omap (λ x, match x with CStr s => Some s | _ => None end) vals
  | None => []
  end.

(** The frame [prever] gives to [_criar_features]. *)
Definition frame_de_previsao (di clima : column) (df : DataFrame) : DataFrame :=
  set_col "clima" clima (set_col "data" (to_datetime <$> di) df).

(** A predictor that has completed neither a training nor a load: a new
    object, or one on which every call of [treinar] so far has raised. *)
Inductive sem_treino : predictor → Prop :=
| sem_treino_novo : sem_treino __init__
| sem_treino_falha fs arq p e p' :
    sem_treino p → treinar fs arq p = (inl e, p') → sem_treino p'.

End Vocabulario.

(** ** A concrete instance of the libraries, for the examples

    Dates and hours are parsed digit by digit, the calendar arithmetic is the
    proleptic Gregorian one, the holiday calendar lists the fixed national
    holidays, the regressor predicts the mean training label.  The
    transcendental functions are coarse stand-ins: no example depends on
    their values. *)
Module Exemplo.

Definition digito (a : ascii) : option Z :=
  let n := Z.of_N (Ascii.N_of_ascii a) in
  if (48 <=? n) && (n <=? 57) then Some (n - 48) else None.

Fixpoint numero_aux (acc : Z) (s : string) : option Z :=
  match s with
  | EmptyString => Some acc
  | String a s' => d ← digito a; numero_aux (10 * acc + d) s'
  end.

Definition numero (s : string) : option Z :=
  match s with EmptyString => None | _ => numero_aux 0 s end.

Fixpoint separar (sep : ascii) (s : string) : list string :=
  match s with
  | EmptyString => [EmptyString]
  | String a s' =>
      if decide (a = sep) then EmptyString :: separar sep s'
      else match separar sep s' with
           | p :: ps => String a p :: ps
           | [] => [String a EmptyString]
           end
  end.

Definition bissexto (y : Z) : bool :=
  ((y mod 4 =? 0) && negb (y mod 100 =? 0)) || (y mod 400 =? 0).

Definition dias_no_mes (y m : Z) : Z :=
  if m =? 2 then (if bissexto y then 29 else 28)
  else if (m =? 4) || (m =? 6) || (m =? 9) || (m =? 11) then 30 else 31.

Definition entre (lo hi : nat) (s : string) : bool :=
  (lo <=? String.length s)%nat && (String.length s <=? hi)%nat.

Definition parse_dmY (c : cell) : option timestamp :=
  match c with
  | CStr s =>
      match separar "/" s with
      | [sd; sm; sy] =>
          d ← numero sd; m ← numero sm; y ← numero sy;
          if entre 1 2 sd && entre 1 2 sm && entre 4 4 sy
             && (1 <=? m) && (m <=? 12) && (1 <=? d) && (d <=? dias_no_mes y m)
          then Some (Timestamp y m d) else None
      | _ => None
      end
  | _ => None
  end.

Definition parse_hora (s : string) : option Z :=
  match separar ":" s with
  | [sh; sm; ss] =>
      h ← numero sh; m ← numero sm; x ← numero ss;
      if entre 1 2 sh && entre 1 2 sm && entre 1 2 ss
         && (h <=? 23) && (m <=? 59) && (x <=? 61)
      then Some h else None
  | _ => None
  end.

Definition dia_do_ano (t : timestamp) : Z :=
  foldr Z.add (day t) (dias_no_mes (year t) <$> seqZ 1 (month t - 1)).

(** Days since 1970-01-01. *)
Definition dias_desde_epoca (t : timestamp) : Z :=
  let y := if month t <=? 2 then year t - 1 else year t in
  let era := y / 400 in
  let yoe := y - era * 400 in
  let mp := if 2 <? month t then month t - 3 else month t + 9 in
  let doy := (153 * mp + 2) / 5 + day t - 1 in
  let doe := yoe * 365 + yoe / 4 - yoe / 100 + doy in
  era * 146097 + doe - 719468.

(** Monday is 0. *)
Definition dia_da_semana (t : timestamp) : Z := (dias_desde_epoca t + 3) mod 7.

Definition semanas_no_ano (y : Z) : Z :=
  let p := λ y, (y + y / 4 - y / 100 + y / 400) mod 7 in
  if (p y =? 4) || (p (y - 1) =? 3) then 53 else 52.

Definition semana_iso (t : timestamp) : Z :=
  let w := (dia_do_ano t - (dia_da_semana t + 1) + 10) / 7 in
  if w <? 1 then semanas_no_ano (year t - 1)
  else if semanas_no_ano (year t) <? w then 1 else w.

Definition feriado_fixo (t : timestamp) : bool :=
  bool_decide ((month t, day t) ∈
    [(1, 1); (4, 21); (5, 1); (9, 7); (10, 12); (11, 2); (11, 15); (12, 25)]).

(** Square root truncated to six decimals. *)
Definition raiz (q : Q) : Q :=
  Z.sqrt (Qnum q * 1000000000000 / Z.pos (Qden q)) # 1000000.

Definition numeros (c : column) : list Q :=
  omap (λ x, match x with CNum q => Some q | _ => None end) c.

Definition ajustar (_ : option Q) (X : DataFrame) (y : column) : exn + option Q :=
  if decide (nlinhas X = 0%nat) then inl ValueError
  else inr (Some (Qred (Qmean (numeros y)))).

Definition predizer (m : option Q) (X : DataFrame) : exn + list Q :=
  match m with
  | Some v => inr (replicate (nlinhas X) v)
  | None => inl ErroBiblioteca
  end.

Definition erro_quadratico (y : column) (p : list Q) : exn + Q :=
  match y with
  | [] => inl ValueError
  | _ => inr (Qred (Qmean (zip_with (λ a b, (a - b) * (a - b))%Q (numeros y) p)))
  end.

Definition r2 (y : column) (p : list Q) : exn + cell :=
  match y with
  | [] => inl ValueError
  | [_] => inr CNaN
  | _ =>
      let ys := numeros y in
      let m := Qmean ys in
      let res := Qsum (zip_with (λ a b, (a - b) * (a - b))%Q ys p) in
      let tot := Qsum ((λ a, (a - m) * (a - m))%Q <$> ys) in
      inr (CNum (Qred (if Qeq_bool tot 0 then (if Qeq_bool res 0 then 1 else 0)
                       else 1 - res / tot)))
  end.

Definition predizer_shape m X ys :
  predizer m X = inr ys → length ys = nlinhas X.
Proof.
  destruct m as [v|]; simpl; [|discriminate].
  intros [= <-]. apply length_replicate.
Qed.

Global Instance bib : Bibliotecas := {|
  to_datetime_dmY := parse_dmY;
  to_datetime_hora := parse_hora;
  dayofweek := dia_da_semana;
  dayofyear := dia_do_ano;
  isoweek := semana_iso;
  holidays_br := feriado_fixo;
  sin_2pi := λ _, 0%Q;
  cos_2pi := λ _, 1%Q;
  np_sqrt := raiz;
  regressor := option Q;
  LGBMRegressor := None;
  lgbm_fit := ajustar;
  lgbm_predict := predizer;
  lgbm_predict_shape := predizer_shape;
  r2_score := r2;
  mean_squared_error := erro_quadratico;
|}.

End Exemplo.

(** ** The data of the closed examples *)

Module Casos.

Import Exemplo.

Definition reg (d h u m t c : string) : registro :=
  {| data_inversa := Some d; horario := Some h; uf := Some u;
     municipio := Some m; tipo_acidente := Some t;
     condicao_metereologica := Some c |}.

(** Three days; the state "BA" occurs on the last day only. *)
Definition dados_treino : list registro :=
  [ reg "02/01/2023" "10:00:00" "PE" "RECIFE" "Colisão traseira" "Chuva leve";
    reg "02/01/2023" "12:00:00" "PE" "RECIFE" "Colisão traseira" "Chuva leve";
    reg "02/01/2023" "14:00:00" "PE" "OLINDA" "Tombamento" "Chuva leve";
    reg "03/01/2023" "08:30:00" "PE" "RECIFE" "Tombamento" "Céu Claro";
    reg "04/01/2023" "23:00:00" "BA" "SALVADOR" "Capotamento" "Nublado" ].

(** The object of a record whose six fields are texts. *)
Definition objeto_de (r : registro) : objeto :=
  {[ "data_inversa" := data_inversa r; "horario" := horario r; "uf" := uf r;
     "municipio" := municipio r; "tipo_acidente" := tipo_acidente r;
     "condicao_metereologica" := condicao_metereologica r ]}.

Definition arquivos : gmap string arquivo :=
  {[ "datatran_consolidado.json" := AJson (objeto_de <$> dados_treino) ]}.

Definition treinado_ex : predictor :=
  (treinar arquivos "datatran_consolidado.json" __init__).2.

(** One prediction row, as the page builds it. *)
Definition entrada : DataFrame :=
  {| nlinhas := 1;
     colunas := [ ("data_inversa", [CStr "05/01/2023"]);
                  ("horario", [CStr "12:00:00"]);
                  ("uf", [CStr "PE"]);
                  ("municipio", [CStr "MACEIO"]);
                  ("tipo_acidente", [CStr "Capotamento"]);
                  ("condicao_metereologica", [CStr "Bom"]);
                  ("hora_media", [cnum_Z 12]) ] |}.


(** Two records of one day whose states tie. *)
Definition dados_empate : list registro :=
  [ reg "02/01/2023" "10:00:00" "SP" "SAO PAULO" "Tombamento" "Sol";
    reg "02/01/2023" "12:00:00" "PE" "RECIFE" "Colisão traseira" "Chuva" ].

(** A pickled dict with the regressor and the feature names, without
    encoders. *)
Definition blob_sem_encoders : blob :=
  {| b_modelo := Some (Some (7 # 2)%Q); b_model := None; b_encoders := None;
     b_features := Some features; b_feature_names := None;
     b_params := None; b_best_params := None;
     b_r2_train := None; b_rmse_train := None;
     b_r2_test := None; b_rmse_test := None; b_r2 := None; b_rmse := None;
     b_historical_df := None |}.

Definition arquivos_parcial : gmap string arquivo :=
  {[ "modelo_acidentes.pkl" := APickle blob_sem_encoders ]}.

(** A training file whose only record is of 2018. *)
Definition arquivos_antigos : gmap string arquivo :=
  {[ "antigos.json" :=
       AJson [objeto_de (reg "31/12/2018" "10:00:00" "PE" "RECIFE"
                           "Tombamento" "Sol")] ]}.

End Casos.

(** ** Vocabulary of the further statements *)

Section VocabularioNucleo.

Context `{B : Bibliotecas}.

(** [p] and [q] agree on what [prever] reads and writes: the regressor, the
    registry, the feature names and the flag. *)
Definition mesmo_nucleo (p q : predictor) : Prop :=
  modelo q = modelo p ∧ encoders q = encoders p ∧
  feature_names q = feature_names p ∧ treinado q = treinado p.

End VocabularioNucleo.


(** ** The data generator of the dashboard: data_generator.py *)

(** What data_generator.py and the page take from pandas, [datetime] and the
    floating-point unit.  A [datetime] is kept as its date: the code reads
    nothing else of it. *)
Class BibliotecasGerador := {
  (** [pd.to_datetime(c, format="%Y-%m-%d", errors="coerce")] on one cell;
      [None] is NaT. *)
  to_datetime_Ymd : cell → option timestamp;
  (** [pd.to_datetime(c, format="%H:%M", errors="coerce").dt.hour] *)
  to_datetime_HM : cell → option Z;
  (** [pd.to_datetime(s)] on a column, without a format: it raises on what it
      cannot parse and returns one date or NaT per row. *)
  to_datetime_auto : column → exn + list (option timestamp);
  to_datetime_auto_shape c ds :
    to_datetime_auto c = inr ds → length ds = length c;
  (** [pd.to_datetime(s, errors="coerce")] on a column, without a format:
      one date or NaT per row; a column of dates is returned as it is. *)
  to_datetime_coerce : column → list (option timestamp);
  to_datetime_coerce_shape c : length (to_datetime_coerce c) = length c;
  to_datetime_coerce_datas ds : to_datetime_coerce (CData <$> ds) = Some <$> ds;
  (** [d - timedelta(days=k)] and [d + pd.Timedelta(days=k)] *)
  menos_dias : timestamp → Z → timestamp;
  mais_dias : timestamp → Z → timestamp;
  (** [d.strftime("%Y-%m-%d")], [d.strftime("%d/%m/%Y")], [d.strftime("%A")] *)
  strftime_Ymd : timestamp → string;
  strftime_dmY : timestamp → string;
  strftime_A : timestamp → string;
  (** Lines 110-120 and 151-153 of data_generator.py, in double precision:
      the latitude and the longitude of the record [i] of a state. *)
  coordenadas : string → nat → cell * cell;
}.

(** A loop whose body can raise. *)
Fixpoint foldE {A X} (f : A → X → exn + A) (a : A) (l : list X) : exn + A :=
  match l with
  | [] => inr a
  | x :: l' => try a' <- f a x; foldE f a' l'
  end.

(** [d[k]] on a dict read from a pickle. *)
Definition item {A} (k : string) (v : option A) : exn + A :=
  match v with Some a => inr a | None => inl (KeyError k) end.

(** [df.rename(columns={a: b})]: the label changes, the column keeps its
    place; a frame that already has a column [b] ends with two of them. *)
Definition rename_coluna (a b : string) (df : DataFrame) : DataFrame :=
  {| nlinhas := nlinhas df;
     colunas := (λ p : string * column,
                   (if String.eqb p.1 a then b else p.1, p.2)) <$> colunas df |}.

(** All the columns of [df] with the label [c]: what [df[c]] selects. *)
Definition rotuladas (c : string) (df : DataFrame) : list column :=
  snd <$> filter (λ p : string * column, p.1 = c) (colunas df).

(** [pd.DataFrame(columns=nomes)]: the labels, no row. *)
Definition DataFrame_vazio (nomes : list string) : DataFrame :=
  {| nlinhas := 0; colunas := (λ n, (n, [])) <$> nomes |}.

(** [X[n] = v] on a frame that has the label [n]: every column of that label
    receives [v]. *)
Definition atribuir (n : string) (v : column) (X : DataFrame) : DataFrame :=
  {| nlinhas := nlinhas X;
     colunas := (λ p : string * column,
                   if String.eqb p.1 n then (p.1, v) else p) <$> colunas X |}.

(** What an assignment of [n] rows does first: a frame without rows takes
    the index of a value that has rows, and the columns it had become NaN. *)
Definition tomar_indice (n : nat) (X : DataFrame) : DataFrame :=
  if (nlinhas X =? 0)%nat && negb (n =? 0)%nat
  then {| nlinhas := n;
          colunas := (λ p : string * column, (p.1, replicate n CNaN)) <$> colunas X |}
  else X.

(** [X[n] = s] for a Series [s]. *)
Definition atribuir_serie (n : string) (s : column) (X : DataFrame) : DataFrame :=
  atribuir n s (tomar_indice (length s) X).

(** [X[n] = df[n]] when [df[n]] is a frame of several columns: the columns
    of [X] with the label [n] receive them one by one. *)
Fixpoint atribuir_varias (n : string) (vs : list column)
    (cols : list (string * column)) : list (string * column) :=
  match cols with
  | [] => []
  | (m, c) :: cols' =>
      if String.eqb m n then
        match vs with
        | v :: vs' => (m, v) :: atribuir_varias n vs' cols'
        | [] => (m, c) :: cols'
        end
      else (m, c) :: atribuir_varias n vs cols'
  end.

Section Gerador.

Context `{B : Bibliotecas} `{G : BibliotecasGerador}.

(** The globals of the module.  [g_carregado] is [model_data] and [modelo]
    when the file was read; without the file [modelo] is [None] and
    [model_data] is unbound. *)
Record modulo := {
  g_carregado : option (blob * regressor);
  g_encoders : gmap string LabelEncoder;
  g_feature_names : list string;
}.

Definition g_modelo (g : modulo) : option regressor := snd <$> g_carregado g.
Definition g_model_data (g : modulo) : option blob := fst <$> g_carregado g.

(** Lines 14-27, run when the module is imported.  Only a missing file is
    caught. *)
Definition importar_gerador (fs : gmap string arquivo) : exn + modulo :=
  match fs !! "modelo_acidentes.pkl" with
  | None =>
      inr {| g_carregado := None; g_encoders := ∅; g_feature_names := [] |}
  | Some (APickle model_data) =>
      try modelo <- item "modelo" (b_modelo model_data);
      try encoders <- item "encoders" (b_encoders model_data);
      try feature_names <- item "features" (b_features model_data);
      inr {| g_carregado := Some (model_data, modelo);
             g_encoders := encoders; g_feature_names := feature_names |}
  | Some _ => inl ErroBiblioteca
  end.

(** [df[c].apply(_simplificar_clima)] on one cell. *)
Definition aplicar_simplificar_gerador (c : cell) : exn + cell :=
  match c with
  | CStr s => inr (CStr (Gerador._simplificar_clima s))
  | _ => inl TypeError
  end.

(** Lines 61-68: the calendar columns, without the cyclic ones. *)
Definition calendario_previsao (ds : list timestamp) (df : DataFrame) : DataFrame :=
  let dia_semana := dayofweek <$> ds in
  let fim_semana := (λ d, bool_Z (5 <=? d)) <$> dia_semana in
  let feriado := (λ d, bool_Z (holidays_br d)) <$> ds in
  let df := set_col "ano" (cnum_Z ∘ year <$> ds) df in
  let df := set_col "mes" (cnum_Z ∘ month <$> ds) df in
  let df := set_col "dia_semana" (cnum_Z <$> dia_semana) df in
  let df := set_col "dia_ano" (cnum_Z ∘ dayofyear <$> ds) df in
  let df := set_col "semana" (cnum_Z ∘ isoweek <$> ds) df in
  let df := set_col "fim_semana" (cnum_Z <$> fim_semana) df in
  let df := set_col "feriado" (cnum_Z <$> feriado) df in
  set_col "feriado_fim_semana" (cnum_Z <$> zip_with Z.mul feriado fim_semana) df.

(** Lines 71-75. *)
Definition sem_historico (df : DataFrame) : DataFrame :=
  let df := foldl (λ df k, set_const (nome "lag_" k) czero df) df lags in
  foldl (λ df w, set_const (nome "std_" w) czero
                   (set_const (nome "media_" w) czero df))
        df janelas.

(** One turn of the loop of lines 79-84: the registry is read, never
    written. *)
Definition codificar_previsao (encoders : gmap string LabelEncoder)
    (df : DataFrame) (c : string) : exn + DataFrame :=
  match get_col c df, encoders !! c with
  | Some vals, Some enc =>
      try cods <- mapE (codificar_valor enc) vals;
      inr (set_col (c +:+ "_enc") (cnum_Z <$> cods) df)
  | _, _ => inr (set_const (c +:+ "_enc") czero df)
  end.

(** One turn of the loop of lines 92-96.  [df[c]] is a Series when one
    column has the label, a frame when several have it; such a frame can only
    be assigned to as many columns of [X]. *)
Definition preencher (df : DataFrame) (X : DataFrame) (c : string) : exn + DataFrame :=
  match rotuladas c df with
  | [] => inr (atribuir c (replicate (nlinhas X) czero) X)
  | [s] => inr (atribuir_serie c s X)
  | vs =>
      if decide (length (rotuladas c X) = length vs)
      then let X := tomar_indice (nlinhas df) X in
           inr {| nlinhas := nlinhas X;
                  colunas := atribuir_varias c vs (colunas X) |}
      else inl ValueError
  end.

Definition _criar_features_para_previsao (g : modulo) (df_input : DataFrame)
    : exn + DataFrame :=
  let df := df_input in
  try datas <- col "data" df;
  let datas := (λ c, from_option CData CNaN (to_datetime_Ymd c)) <$> datas in
  let df := set_col "data" datas df in
  try horarios <- col "horario" df;
  let df := set_col "hora"
              ((λ c, from_option cnum_Z CNaN (to_datetime_HM c)) <$> horarios) df in
  try cm <- col "condicao_metereologica" df;
  try clima <- mapE aplicar_simplificar_gerador cm;
  let df := set_col "condicao_metereologica" clima df in
  try ds <- datas_validas datas;
  try _ <- com_linhas ds;
  let df := calendario_previsao ds df in
  let df := sem_historico df in
  let df := fillna0 df in
  try df <- foldE (codificar_previsao (g_encoders g)) df
              ["uf"; "municipio"; "tipo_acidente"; "condicao_metereologica"];
  let df := rename_coluna "condicao_metereologica_enc" "clima_enc" df in
  foldE (preencher df) (DataFrame_vazio (g_feature_names g)) (g_feature_names g).

End Gerador.

(** ** The selection files *)

(** A JSON file as the code finds it: missing, not JSON, or parsed. *)
Inductive leitura (A : Type) :=
| Ausente
| Invalido
| Lido (a : A).

Arguments Ausente {A}.
Arguments Invalido {A}.
Arguments Lido {A} a.

(** The three selection files.  A file that parses holds what the code
    expects of it: a list of texts, an object of lists of texts, a list of
    texts. *)
Record opcoes := {
  o_uf_options : leitura (list string);
  o_municipios_por_uf : leitura (gmap string (list string));
  o_condicoes : leitura (list string);
}.

(** [with open(...) as f: json.load(f)] *)
Definition json_load {A} (f : leitura A) : exn + A :=
  match f with
  | Ausente => inl FileNotFoundError
  | Invalido => inl ValueError
  | Lido a => inr a
  end.

(** [load_locations] of data_generator.py, lines 29-40. *)
Definition load_locations (o : opcoes)
    : exn + (list string * gmap string (list string) * list string) :=
  try uf_options <- json_load (o_uf_options o);
  try municipios_por_uf <- json_load (o_municipios_por_uf o);
  try condicoes_options <- json_load (o_condicoes o);
  inr (uf_options, municipios_por_uf, condicoes_options).

(** [load_options] of interface.py, lines 41-62: every failure is replaced
    by a default. *)
Definition load_options (o : opcoes)
    : list string * gmap string (list string) * list string :=
  (match json_load (o_uf_options o) with inr u => u | inl _ => [] end,
   match json_load (o_municipios_por_uf o) with inr m => m | inl _ => ∅ end,
   match json_load (o_condicoes o) with
   | inr c => c
   | inl _ => ["Chuva"; "Nublado"; "Bom"; "Vento"; "Nevoeiro/Neblina"; "Outro"]
   end).

(** ** Exceptions of the dashboard and of the page *)

Inductive excecao :=
| Excecao (e : exn)
| ZeroDivisionError
| IndexError.

Definition elevar {A} (r : exn + A) : excecao + A :=
  match r with inr a => inr a | inl e => inl (Excecao e) end.

Definition bindX {A B} (r : excecao + A) (k : A → excecao + B) : excecao + B :=
  match r with inr a => k a | inl e => inl e end.

Notation "'tente' x <- r ; k" := (bindX r (λ x, k))
  (at level 10, x pattern, r at level 100, k at level 200).

Fixpoint mapX {A B} (f : A → excecao + B) (l : list A) : excecao + list B :=
  match l with
  | [] => inr []
  | a :: l' => tente b <- f a; tente bs <- mapX f l'; inr (b :: bs)
  end.

(** [l[i % len(l)]] *)
Definition ciclico {A} (i : nat) (l : list A) : excecao + A :=
  match l with
  | [] => inl ZeroDivisionError
  | x :: _ => inr (nth (i mod length l) l x)
  end.

(** [f"{n:02d}"] *)
Definition dois_digitos (n : nat) : string :=
  let s := NilZero.string_of_uint (Nat.to_uint n) in
  if (String.length s <? 2)%nat then "0" +:+ s else s.

(** [int(x)] on a number: the fraction is dropped. *)
Definition int_de (q : Q) : Z := Z.quot (Qnum q) (Z.pos (Qden q)).

(** [df.empty]: no row or no column. *)
Definition empty (df : DataFrame) : bool :=
  (nlinhas df =? 0)%nat || (length (colunas df) =? 0)%nat.

(** [s[mascara].sum()] on a numeric column. *)
Fixpoint soma_onde (mascara : list bool) (s : column) : exn + Q :=
  match mascara, s with
  | b :: mascara', x :: s' =>
      try q <- match x with CNum q => inr q | _ => inl TypeError end;
      try resto <- soma_onde mascara' s';
      inr (if b then q + resto else resto)%Q
  | _, _ => inr 0%Q
  end.

(** [c == z] and [c > z] on one cell, for an integer [z]. *)
Definition igual_Z (z : Z) (c : cell) : bool :=
  match c with CNum q => Qeq_bool q (inject_Z z) | _ => false end.

Definition maior_Z (z : Z) (c : cell) : bool :=
  match c with CNum q => negb (Qle_bool q (inject_Z z)) | _ => false end.

(** [2 ** e] for an integer exponent. *)
Definition pot2 (e : Z) : Q :=
  if 0 <=? e then inject_Z (2 ^ e) else 1 # Z.to_pos (2 ^ (- e)).

(** The double nearest to a rational, halves to the even mantissa: the
    result of an operation of the floating-point unit whose exact value is
    [q].  [None] is the overflow to infinity. *)
Definition dobro (q : Q) : option Q :=
  if Qeq_bool q 0 then Some 0%Q
  else
    let a := Qabs q in
    let e1 := Z.log2 (Qnum a) - Z.log2 (Z.pos (Qden a)) - 52 in
    let e2 := if Qle_bool (pot2 (e1 + 52)) a then e1 else e1 - 1 in
    let e := Z.max e2 (-1074) in
    let m := np_round (a / pot2 e) in
    let x := Qred (inject_Z m * pot2 e) in
    if Qle_bool (pot2 1024) x then None
    else Some (if Qnum q <? 0 then Qred (- x) else x).

(** [round(v * 100)] on the value of a key of the pickled dict: the product
    is a double, [round] takes it to the nearest integer, halves to even,
    and refuses NaN and infinity. *)
Definition round_100 (v : option cell) : exn + Z :=
  match v with
  | Some (CNum q) =>
      match dobro (q * 100) with
      | Some x => inr (np_round x)
      | None => inl OverflowError
      end
  | Some CNaN => inl ValueError
  | _ => inl TypeError
  end.

(** The dict [get_statistics] returns. *)
Record estatisticas := {
  accidents_this_month : Z;
  model_accuracy : Z;
  predictions_today : Z;
  active_alerts : Z;
}.

Section Painel.

Context `{B : Bibliotecas} `{G : BibliotecasGerador}.

(** One record of the loop of lines 134-167. *)
Record simulado := {
  s_data : timestamp;
  s_hora : nat;
  s_uf : string;
  s_municipio : string;
  s_clima : string;
  s_latitude : cell;
  s_longitude : cell;
}.

Definition simular (uf_options : list string)
    (municipios_por_uf : gmap string (list string))
    (condicoes_options : list string) (today : timestamp) (i : nat)
    : excecao + simulado :=
  let sample_ufs := take 5 uf_options in
  let sample_condicoes := take 3 condicoes_options in
  tente uf <- ciclico i sample_ufs;
  tente municipios <- elevar (item uf (municipios_por_uf !! uf));
  let municipio := match municipios with m :: _ => m | [] => "N/A" end in
  let date_obj := menos_dias today (Z.of_nat (i mod 30)) in
  let hour := ((i * 4) mod 24)%nat in
  tente weather <- ciclico i sample_condicoes;
  let '(lat, lon) := coordenadas uf i in
  inr {| s_data := date_obj; s_hora := hour; s_uf := uf;
         s_municipio := municipio; s_clima := weather;
         s_latitude := lat; s_longitude := lon |}.

(** [pd.DataFrame(data_for_prediction)]: no record, no column. *)
Definition quadro_simulado (rs : list simulado) : DataFrame :=
  match rs with
  | [] => {| nlinhas := 0; colunas := [] |}
  | _ =>
      {| nlinhas := length rs;
         colunas :=
           [ ("data", CStr ∘ strftime_Ymd ∘ s_data <$> rs);
             ("horario", (λ r, CStr (dois_digitos (s_hora r) +:+ ":00")) <$> rs);
             ("uf", CStr ∘ s_uf <$> rs);
             ("municipio", CStr ∘ s_municipio <$> rs);
             ("tipo_acidente", (λ _, CStr "Colisão") <$> rs);
             ("condicao_metereologica", CStr ∘ s_clima <$> rs);
             ("latitude", s_latitude <$> rs);
             ("longitude", s_longitude <$> rs);
             ("dia_semana", CStr ∘ strftime_A ∘ s_data <$> rs);
             ("mes", cnum_Z ∘ month ∘ s_data <$> rs);
             ("ano", cnum_Z ∘ year ∘ s_data <$> rs) ] |}
  end.

(** [df["num_acidentes"] = previsoes] for an array: its length must be the
    number of rows. *)
Definition atribuir_previsoes (previsoes : list Z) (df : DataFrame) : exn + DataFrame :=
  if decide (length previsoes = nlinhas df)
  then inr (set_col "num_acidentes" (cnum_Z <$> previsoes) df)
  else inl ValueError.

(** [generate_accident_data], lines 100-184; [today] is the reading of the
    clock of line 130. *)
Definition generate_accident_data (g : modulo) (o : opcoes) (today : timestamp)
    (num_records : nat) : excecao + DataFrame :=
  match g_modelo g with
  | None => inr {| nlinhas := 0; colunas := [] |}
  | Some modelo =>
      tente (uf_options, municipios_por_uf, condicoes_options) <-
        elevar (load_locations o);
      tente data_for_prediction <-
        mapX (simular uf_options municipios_por_uf condicoes_options today)
             (seq 0 num_records);
      let df_input_for_model := quadro_simulado data_for_prediction in
      tente X_prever <- elevar (_criar_features_para_previsao g df_input_for_model);
      tente brutos <- elevar (lgbm_predict modelo X_prever);
      let previsoes := astype_int ∘ arredonda_clip <$> brutos in
      tente df_result <- elevar (atribuir_previsoes previsoes df_input_for_model);
      tente datas <- elevar (col "data" df_result);
      tente ds <- elevar (to_datetime_auto datas);
      inr (set_col "data" (from_option CData CNaN <$> ds) df_result)
  end.

(** Lines 264-267 of [get_statistics]. *)
Definition precisao (g : modulo) : exn + Z :=
  match g_carregado g with
  | Some (model_data, _) =>
      match b_r2 model_data with
      | Some r2 => round_100 r2
      | None => inr 89
      end
  | None => inr 89
  end.

(** [get_statistics], lines 241-274.  The clock is read once by the
    generator and three times here.  "num_acidentes" is an int64 column, so
    its sums are int64. *)
Definition get_statistics (g : modulo) (o : opcoes)
    (t_gerar t_mes t_ano t_hoje : timestamp) : excecao + estatisticas :=
  tente df <- generate_accident_data g o t_gerar 1000;
  if empty df then
    inr {| accidents_this_month := 0; model_accuracy := 0;
           predictions_today := 0; active_alerts := 0 |}
  else
    let current_month := month t_mes in
    let current_year := year t_ano in
    tente mes <- elevar (col "mes" df);
    tente ano <- elevar (col "ano" df);
    tente num <- elevar (col "num_acidentes" df);
    tente accidents <- elevar (soma_onde
      (zip_with andb (igual_Z current_month <$> mes) (igual_Z current_year <$> ano))
      num);
    let today_str := strftime_Ymd t_hoje in
    tente datas <- elevar (col "data" df);
    tente predictions <- elevar (soma_onde
      ((λ c, match c with
             | CData d => bool_decide (strftime_Ymd d = today_str)
             | _ => false
             end) <$> datas)
      num);
    let alerts := length (filter (λ c, maior_Z 5 c = true) num) in
    tente accuracy <- elevar (precisao g);
    inr {| accidents_this_month := int64 (int_de accidents);
           model_accuracy := accuracy;
           predictions_today := int64 (int_de predictions);
           active_alerts := Z.of_nat alerts |}.

End Painel.

(** ** The page: interface.py *)

(** The latest of a list of dates: [Series.max()], which skips NaT. *)
Definition maximo (ds : list timestamp) : option timestamp :=
  foldr (λ d acc, match acc with
                  | Some a => if decide (ts_le d a) then Some a else Some d
                  | None => Some d
                  end) None ds.

(** A [datetime.time], as [st.time_input] returns it. *)
Record hora_do_dia := { t_hour : nat; t_minute : nat; t_second : nat }.

(** [t.strftime("%H:%M:%S")] *)
Definition strftime_HMS (t : hora_do_dia) : string :=
  dois_digitos (t_hour t) +:+ ":" +:+ dois_digitos (t_minute t) +:+ ":"
  +:+ dois_digitos (t_second t).

Section Pagina.

Context `{B : Bibliotecas} `{G : BibliotecasGerador}.

(** [escolher_data_automatica], lines 67-80; [hoje] is [date.today()]. *)
Definition escolher_data_automatica (pred : predictor) (hoje : timestamp) : string :=
  match historical_df pred with
  | Some hist =>
      match get_col "data" hist with
      | Some datas =>
          if empty hist then strftime_dmY hoje
          else
            let hist_datas := to_datetime_coerce datas in
            match maximo (omap id hist_datas) with
            | Some ultima => strftime_dmY (mais_dias ultima 1)
            | None => strftime_dmY hoje
            end
      | None => strftime_dmY hoje
      end
  | None => strftime_dmY hoje
  end.

(** Lines 132-137: the type of accident the page gives to every
    prediction. *)
Definition tipo_default (pred : predictor) : string :=
  match encoders pred !! "tipo_acidente" with
  | Some enc =>
      match classes_ enc with
      | c :: _ => c
      | [] => "DESCONHECIDO"
      end
  | None => "DESCONHECIDO"
  end.

(** Lines 142-150: the one-row frame built from the selections. *)
Definition df_input (pred : predictor) (hoje : timestamp) (uf municipio : cell)
    (horario_obj : hora_do_dia) (condicao : cell) : DataFrame :=
  {| nlinhas := 1;
     colunas :=
       [ ("data_inversa", [CStr (escolher_data_automatica pred hoje)]);
         ("horario", [CStr (strftime_HMS horario_obj)]);
         ("uf", [uf]);
         ("municipio", [municipio]);
         ("tipo_acidente", [CStr (tipo_default pred)]);
         ("condicao_metereologica", [condicao]);
         ("hora_media", [cnum_Z (Z.of_nat (t_hour horario_obj))]) ] |}.

(** Lines 127-156, run when the button is pressed: the number the page
    shows, or the exception its message reports. *)
Definition prever_acidentes (hoje : timestamp) (uf municipio : cell)
    (horario_obj : hora_do_dia) (condicao : cell) (pred : predictor)
    : (excecao + Z) * predictor :=
  match prever (df_input pred hoje uf municipio horario_obj condicao) pred with
  | (inr resultado_array, pred') =>
      match last resultado_array with
      | Some previsao_val => (inr (Z.max 0 previsao_val), pred')
      | None => (inl IndexError, pred')
      end
  | (inl e, pred') => (inl (Excecao e), pred')
  end.

End Pagina.

(** ** Vocabulary of the statements on the generator *)

(** What [df[c]] is, given the columns that carry the label [c]: nothing, one
    Series, or a frame of several columns. *)
Definition vista_de (vs : list column) : option (option column) :=
  match vs with
  | [] => None
  | [s] => Some (Some s)
  | _ => Some None
  end.

Definition vista (c : string) (df : DataFrame) : option (option column) :=
  vista_de (rotuladas c df).

(** Two frames with as many rows and the same columns, except perhaps for the
    labels listed in [fora]. *)
Definition concordam (fora : list string) (df1 df2 : DataFrame) : Prop :=
  nlinhas df1 = nlinhas df2 ∧ ∀ c, c ∉ fora → get_col c df1 = get_col c df2.

(** A frame as pandas builds them from records: distinct labels, one value
    per row in every column. *)
Definition bem_formado (df : DataFrame) : Prop :=
  NoDup (columns df) ∧
  Forall (λ p : string * column, length p.2 = nlinhas df) (colunas df).

(** The code of one cell under a fitted encoder: its position among the
    classes, -1 for anything that is not one of them. *)
Definition codigo (enc : LabelEncoder) (x : cell) : Z :=
  match x with
  | CStr s => match indice s (classes_ enc) with
              | Some i => Z.of_nat i
              | None => -1
              end
  | _ => -1
  end.

(** The column the loop of lines 79-84 writes for the field [c]. *)
Definition coluna_enc (encoders : gmap string LabelEncoder) (df : DataFrame)
    (c : string) : column :=
  match get_col c df, encoders !! c with
  | Some vals, Some enc => cnum_Z ∘ codigo enc <$> vals
  | _, _ => replicate (nlinhas df) czero
  end.

(** The features the generator never computes. *)
Definition nao_calculadas : list string :=
  ["hora_media"; "dia_semana_sin"; "dia_semana_cos"; "dia_ano_sin"; "dia_ano_cos"].

(** A simulated record without its weather. *)
Definition sem_clima (r : simulado) : timestamp * nat * string * string * cell * cell :=
  (s_data r, s_hora r, s_uf r, s_municipio r, s_latitude r, s_longitude r).

(** The labels lines 57-75 write. *)
Definition nomes_preparadas : list string :=
  ["data"; "hora"; "condicao_metereologica"; "ano"; "mes"; "dia_semana";
   "dia_ano"; "semana"; "fim_semana"; "feriado"; "feriado_fim_semana"]
  ++ nomes_historico.

(** The fields of the loop of lines 79-84. *)
Definition campos_previsao : list string :=
  ["uf"; "municipio"; "tipo_acidente"; "condicao_metereologica"].

Section VocabularioGerador.

Context `{B : Bibliotecas} `{G : BibliotecasGerador}.

(** The calendar columns of lines 61-68, for the parsed dates [ds]. *)
Definition colunas_calendario (ds : list timestamp) : list (string * column) :=
  let dia_semana := dayofweek <$> ds in
  let fim_semana := (λ d, bool_Z (5 <=? d)) <$> dia_semana in
  let feriado := (λ d, bool_Z (holidays_br d)) <$> ds in
  [ ("ano", cnum_Z ∘ year <$> ds);
    ("mes", cnum_Z ∘ month <$> ds);
    ("dia_semana", cnum_Z <$> dia_semana);
    ("dia_ano", cnum_Z ∘ dayofyear <$> ds);
    ("semana", cnum_Z ∘ isoweek <$> ds);
    ("fim_semana", cnum_Z <$> fim_semana);
    ("feriado", cnum_Z <$> feriado);
    ("feriado_fim_semana", cnum_Z <$> zip_with Z.mul feriado fim_semana) ].

(** The columns written by lines 57-75, in the order of the assignments. *)
Definition colunas_preparadas (datas horarios clima : column)
    (ds : list timestamp) (n : nat) : list (string * column) :=
  [ ("data", (λ c, from_option CData CNaN (to_datetime_Ymd c)) <$> datas);
    ("hora", (λ c, from_option cnum_Z CNaN (to_datetime_HM c)) <$> horarios);
    ("condicao_metereologica", clima) ]
  ++ colunas_calendario ds ++ colunas_zero n.

(** The frame before the encoding loop. *)
Definition quadro_preparado (datas horarios clima : column)
    (ds : list timestamp) (df : DataFrame) : DataFrame :=
  fillna0 (set_cols (colunas_preparadas datas horarios clima ds (nlinhas df)) df).

(** The columns written by the encoding loop. *)
Definition colunas_codificadas (encoders : gmap string LabelEncoder)
    (df : DataFrame) : list (string * column) :=
  (λ c, (c +:+ "_enc", coluna_enc encoders df c)) <$> campos_previsao.

(** The frame the matrix is assembled from. *)
Definition quadro_codificado (encoders : gmap string LabelEncoder)
    (df : DataFrame) : DataFrame :=
  rename_coluna "condicao_metereologica_enc" "clima_enc"
    (set_cols (colunas_codificadas encoders df) df).

End VocabularioGerador.

(** ** A concrete instance of the generator's libraries, for the examples

    Dates are parsed digit by digit and moved on the proleptic Gregorian
    calendar; weekdays have their English names.  The coordinates are a
    coarse stand-in: no example depends on their values. *)
Module ExemploGerador.

Import Exemplo.

Definition parse_Ymd (c : cell) : option timestamp :=
  match c with
  | CStr s =>
      match separar "-" s with
      | [sy; sm; sd] =>
          y ← numero sy; m ← numero sm; d ← numero sd;
          if entre 4 4 sy && entre 1 2 sm && entre 1 2 sd
             && (1 <=? m) && (m <=? 12) && (1 <=? d) && (d <=? dias_no_mes y m)
          then Some (Timestamp y m d) else None
      | _ => None
      end
  | CData d => Some d
  | _ => None
  end.

Definition parse_HM (c : cell) : option Z :=
  match c with
  | CStr s =>
      match separar ":" s with
      | [sh; sm] =>
          h ← numero sh; m ← numero sm;
          if entre 1 2 sh && entre 1 2 sm && (h <=? 23) && (m <=? 59)
          then Some h else None
      | _ => None
      end
  | _ => None
  end.

(** The date [z] days after 1970-01-01. *)
Definition data_de_dias (z : Z) : timestamp :=
  let z := z + 719468 in
  let era := z / 146097 in
  let doe := z - era * 146097 in
  let yoe := (doe - doe / 1460 + doe / 36524 - doe / 146096) / 365 in
  let doy := doe - (365 * yoe + yoe / 4 - yoe / 100) in
  let mp := (5 * doy + 2) / 153 in
  let d := doy - (153 * mp + 2) / 5 + 1 in
  let m := if mp <? 10 then mp + 3 else mp - 9 in
  Timestamp (yoe + era * 400 + (if m <=? 2 then 1 else 0)) m d.

Definition texto_Z (z : Z) : string := dois_digitos (Z.to_nat z).

Definition formato_Ymd (t : timestamp) : string :=
  texto_Z (year t) +:+ "-" +:+ texto_Z (month t) +:+ "-" +:+ texto_Z (day t).

Definition formato_dmY (t : timestamp) : string :=
  texto_Z (day t) +:+ "/" +:+ texto_Z (month t) +:+ "/" +:+ texto_Z (year t).

Definition nome_do_dia (t : timestamp) : string :=
  nth (Z.to_nat (dia_da_semana t))
    ["Monday"; "Tuesday"; "Wednesday"; "Thursday"; "Friday"; "Saturday"; "Sunday"]
    "Monday".

Definition auto_celula (c : cell) : exn + option timestamp :=
  match c with
  | CNaN => inr None
  | CData d => inr (Some d)
  | CStr _ => match parse_Ymd c with Some d => inr (Some d) | None => inl ValueError end
  | CNum _ => inl ValueError
  end.

Definition coerce_celula (c : cell) : option timestamp :=
  match c with
  | CData d => Some d
  | CStr _ => parse_Ymd c
  | _ => None
  end.

Lemma auto_shape (c : column) (ds : list (option timestamp)) :
  mapE auto_celula c = inr ds → length ds = length c.
Proof.
  revert ds. induction c as [|x c IH]; intros ds; [by intros [= <-]|].
  cbn [mapE]. destruct (auto_celula x) as [e|d]; [done|]. cbn [bindE].
  destruct (mapE auto_celula c) as [e|ds']; [done|]. cbn [bindE].
  intros [= <-]. cbn [length]. f_equal. by apply IH.
Qed.

Lemma coerce_shape (c : column) : length (coerce_celula <$> c) = length c.
Proof. apply length_fmap. Qed.

Lemma coerce_datas (ds : list timestamp) :
  coerce_celula <$> (CData <$> ds) = Some <$> ds.
Proof. by rewrite <- list_fmap_compose. Qed.

Global Instance bib_gerador : BibliotecasGerador := {|
  to_datetime_Ymd := parse_Ymd;
  to_datetime_HM := parse_HM;
  to_datetime_auto := mapE auto_celula;
  to_datetime_auto_shape := auto_shape;
  to_datetime_coerce := fmap coerce_celula;
  to_datetime_coerce_shape := coerce_shape;
  to_datetime_coerce_datas := coerce_datas;
  menos_dias := λ d k, data_de_dias (dias_desde_epoca d - k);
  mais_dias := λ d k, data_de_dias (dias_desde_epoca d + k);
  strftime_Ymd := formato_Ymd;
  strftime_dmY := formato_dmY;
  strftime_A := nome_do_dia;
  coordenadas := λ _ i, (CNum (Z.of_nat (i mod 10) - 5 # 10),
                         CNum (Z.of_nat (i mod 10) - 5 # 10));
|}.

End ExemploGerador.

(** ** The data of the examples of the generator and of the page *)

Module CasosGerador.

Import Exemplo Casos ExemploGerador.

(** The module as it is after the training of the examples has been saved. *)
Definition modulo_ex : modulo :=
  {| g_carregado := Some (blob_de treinado_ex, modelo treinado_ex);
     g_encoders := encoders treinado_ex;
     g_feature_names := features |}.

(** Two rows for the generator, and the same rows at another hour and under
    another weather. *)
Definition entrada_gerador : DataFrame :=
  {| nlinhas := 2;
     colunas := [ ("data", [CStr "2023-01-05"; CStr "2023-01-06"]);
                  ("horario", [CStr "08:00"; CStr "12:00"]);
                  ("uf", [CStr "PE"; CStr "SP"]);
                  ("municipio", [CStr "RECIFE"; CStr "SAO PAULO"]);
                  ("tipo_acidente", [CStr "Colisão"; CStr "Colisão"]);
                  ("condicao_metereologica", [CStr "Chuva"; CStr "Sol"]) ] |}.

Definition entrada_gerador_noite : DataFrame :=
  set_col "condicao_metereologica" [CStr "Nublado"; CStr "Garoa"]
    (set_col "horario" [CStr "23:00"; CStr "20:00"] entrada_gerador).

Definition opcoes_ex : opcoes :=
  {| o_uf_options := Lido ["PE"; "BA"];
     o_municipios_por_uf :=
       Lido {[ "PE" := ["RECIFE"; "OLINDA"]; "BA" := ["SALVADOR"] ]};
     o_condicoes := Lido ["Chuva"; "Sol"] |}.

Definition opcoes_ex_nublado : opcoes :=
  {| o_uf_options := Lido ["PE"; "BA"];
     o_municipios_por_uf :=
       Lido {[ "PE" := ["RECIFE"; "OLINDA"]; "BA" := ["SALVADOR"] ]};
     o_condicoes := Lido ["Nublado"] |}.

(** Selection files without any state. *)
Definition opcoes_sem_uf : opcoes :=
  {| o_uf_options := Lido [];
     o_municipios_por_uf := Lido ∅;
     o_condicoes := Lido ["Chuva"] |}.

Definition hoje_ex : timestamp := Timestamp 2023 1 10.

Definition meio_dia : hora_do_dia := {| t_hour := 12; t_minute := 0; t_second := 0 |}.

End CasosGerador.
(** * Properties *)

(** ** The weather normalizer *)

Lemma simplificar_clima_classe (cond : string) :
  Preditor._simplificar_clima cond ∈ classes_clima.
Proof.
  unfold Preditor._simplificar_clima, classes_clima.
  repeat case_match; set_solver.
Qed.

Lemma simplificar_clima_ponto_fixo (c : string) :
  c ∈ classes_clima → Preditor._simplificar_clima c = c.
Proof.
  unfold classes_clima. intros Hc.
  repeat (apply elem_of_cons in Hc as [-> | Hc]; [vm_compute; reflexivity |]).
  by apply elem_of_nil in Hc.
Qed.

Example clima_chuva_leve : Preditor._simplificar_clima "Chuva leve" = "Chuva".
Proof. reflexivity. Qed.

Example clima_ceu_claro : Preditor._simplificar_clima "Céu Claro" = "Bom".
Proof. reflexivity. Qed.

(** The two copies of the normalizer agree on every text in which the keyword
    "Bom" does not decide the class. *)
Lemma simplificar_clima_copias (cond : string) :
  contem "Bom" cond = false →
  Gerador._simplificar_clima cond = Preditor._simplificar_clima cond.
Proof.
  intros Hb.
  unfold Gerador._simplificar_clima, Preditor._simplificar_clima, contem_algum.
  cbn [existsb]. rewrite Hb. reflexivity.
Qed.

(** C8.  The normalizer of preditor_ofc.py (used by training and by [prever])
    and the copy in data_generator.py (used on the generator's prediction
    inputs) differ on the text "Bom": the first keeps the class "Bom", the
    copy has no "Bom" keyword and answers "Outro". *)
Theorem simplificar_clima_diverge :
  Preditor._simplificar_clima "Bom" = "Bom" ∧
  Gerador._simplificar_clima "Bom" = "Outro" ∧
  Preditor._simplificar_clima "Bom" ≠ Gerador._simplificar_clima "Bom".
Proof. split; [reflexivity |]. split; [reflexivity |]. vm_compute. discriminate. Qed.

(** ** Sorting, modes and the daily aggregation *)

Lemma elem_of_np_unique (x : string) (l : list string) :
  x ∈ np_unique l ↔ x ∈ l.
Proof.
  unfold np_unique. rewrite merge_sort_Permutation. apply elem_of_remove_dups.
Qed.

Lemma np_unique_sorted (l : list string) : StronglySorted String.le (np_unique l).
Proof. apply StronglySorted_merge_sort; apply _. Qed.

Lemma np_unique_NoDup (l : list string) : NoDup (np_unique l).
Proof.
  unfold np_unique. rewrite merge_sort_Permutation. apply NoDup_remove_dups.
Qed.

(** The first element of a sorted array is its least element. *)
Lemma np_unique_head (m : string) (r l : list string) :
  np_unique l = m :: r → m ∈ l ∧ ∀ v, v ∈ l → String.le m v.
Proof.
  intros Hu. split.
  - apply elem_of_np_unique. rewrite Hu. apply elem_of_cons. by left.
  - intros v Hv. apply elem_of_np_unique in Hv. rewrite Hu in Hv.
    pose proof (np_unique_sorted l) as Hs. rewrite Hu in Hs.
    apply elem_of_cons in Hv as [-> | Hv]; [reflexivity |].
    apply StronglySorted_inv in Hs as [_ Hall].
    rewrite Forall_forall in Hall. by apply Hall.
Qed.

Lemma contagem_max (xs : list string) (v : string) :
  v ∈ xs →
  contagem v xs = max_list ((λ v, contagem v xs) <$> xs) ↔ mais_frequente v xs.
Proof.
  intros Hv. set (cs := (λ v, contagem v xs) <$> xs).
  assert (Hle : ∀ x, x ∈ xs → (contagem x xs ≤ max_list cs)%nat).
  { intros x Hx. apply max_list_elem_of_le.
    apply (list_elem_of_fmap_2 (λ v, contagem v xs)), Hx. }
  split.
  - intros Heq. split; [done |]. intros x Hx. rewrite Heq. by apply Hle.
  - intros [_ Hmax]. apply Nat.le_antisymm; [by apply Hle |].
    assert (Hne : cs ≠ []).
    { unfold cs. destruct xs; [by apply elem_of_nil in Hv | discriminate]. }
    apply max_list_elem_of in Hne.
    apply list_elem_of_fmap in Hne as (x & -> & Hx). by apply Hmax.
Qed.

Lemma elem_of_moda (v : string) (xs : list string) :
  v ∈ moda xs ↔ mais_frequente v xs.
Proof.
  unfold moda. rewrite elem_of_np_unique, list_elem_of_filter. split.
  - intros [Hc Hv]. by apply contagem_max.
  - intros Hm. split; [apply contagem_max; [apply Hm | done] | apply Hm].
Qed.

Lemma moda_nao_vazia (xs : list string) : xs ≠ [] → moda xs ≠ [].
Proof.
  intros Hne Hnil.
  set (cs := (λ v, contagem v xs) <$> xs).
  assert (Hcs : cs ≠ []) by (unfold cs; destruct xs; [done | discriminate]).
  apply max_list_elem_of in Hcs.
  apply list_elem_of_fmap in Hcs as (x & Hx & Hin).
  assert (Hm : x ∈ moda xs).
  { unfold moda. apply elem_of_np_unique, list_elem_of_filter. by split. }
  rewrite Hnil in Hm. by apply elem_of_nil in Hm.
Qed.

(** [x.mode()[0]] is the least of the most frequent values. *)
Lemma moda0_menor (m : string) (xs : list string) :
  moda0 xs = inr m →
  mais_frequente m xs ∧ ∀ v, mais_frequente v xs → String.le m v.
Proof.
  unfold moda0. destruct (moda xs) as [|m' r] eqn:Hmoda; [discriminate |].
  intros [= ->]. split.
  - apply elem_of_moda. rewrite Hmoda. apply elem_of_cons. by left.
  - intros v Hv. apply elem_of_moda in Hv. rewrite Hmoda in Hv.
    pose proof (np_unique_sorted
      (filter (λ v, contagem v xs = max_list ((λ v, contagem v xs) <$> xs)) xs)) as Hs.
    fold (moda xs) in Hs. rewrite Hmoda in Hs.
    apply elem_of_cons in Hv as [-> | Hv]; [reflexivity |].
    apply StronglySorted_inv in Hs as [_ Hall].
    rewrite Forall_forall in Hall. by apply Hall.
Qed.

Lemma moda0_total (xs : list string) : xs ≠ [] → ∃ m, moda0 xs = inr m.
Proof.
  intros Hne. unfold moda0. destruct (moda xs) eqn:Hm; [|by eexists].
  by apply moda_nao_vazia in Hm.
Qed.

Lemma mapE_total {A C} (f : A → exn + C) (l : list A) :
  Forall (λ x, ∃ y, f x = inr y) l → ∃ ys, mapE f l = inr ys.
Proof.
  induction 1 as [|x l [y Hy] _ [ys Hys]]; simpl; [by eexists |].
  rewrite Hy. simpl. rewrite Hys. simpl. by eexists.
Qed.

Lemma mapE_inr {A C} (f : A → exn + C) (l : list A) (ys : list C) :
  mapE f l = inr ys → Forall2 (λ x y, f x = inr y) l ys.
Proof.
  revert ys. induction l as [|x l IH]; simpl; intros ys.
  - intros [= <-]. constructor.
  - destruct (f x) as [e|y] eqn:Hy; simpl; [discriminate |].
    destruct (mapE f l) as [e|ys'] eqn:Hys; simpl; [discriminate |].
    intros [= <-]. constructor; [done | by apply IH].
Qed.

Lemma mapE_length {A C} (f : A → exn + C) (l : list A) (ys : list C) :
  mapE f l = inr ys → length ys = length l.
Proof. intros H%mapE_inr. symmetry. by eapply Forall2_length. Qed.

Section Agregacao.

Context `{B : Bibliotecas}.

Lemma preparar_condicao (r : registro) (l : linha) :
  preparar r = Some l → l_condicao l ∈ classes_clima.
Proof.
  unfold preparar. intros H.
  destruct (to_datetime_dmY (celula (data_inversa r))) as [d|]; simpl in H; [|done].
  case_decide; [|done].
  destruct (horario r), (uf r), (municipio r), (tipo_acidente r),
    (condicao_metereologica r) as [c|]; simpl in H; try done.
  destruct (to_datetime_hora _); simpl in H; [|done].
  injection H as <-. simpl. apply simplificar_clima_classe.
Qed.

Lemma grupo_nao_vazio (d : timestamp) (ls : list linha) :
  d ∈ chaves ls → grupo d ls ≠ [].
Proof.
  unfold chaves, grupo. rewrite merge_sort_Permutation, elem_of_remove_dups.
  intros (l & -> & Hl)%list_elem_of_fmap Hnil.
  assert (Hin : l ∈ filter (λ l0, l_data l0 = l_data l) ls)
    by (by apply list_elem_of_filter).
  rewrite Hnil in Hin. by apply elem_of_nil in Hin.
Qed.

Lemma agregar_grupo_inr (d : timestamp) (g : list linha) (a : agregado) :
  agregar_grupo d g = inr a →
  a_data a = d ∧
  moda0 (l_uf <$> g) = inr (a_uf a) ∧
  moda0 (l_municipio <$> g) = inr (a_municipio a) ∧
  moda0 (l_tipo_acidente <$> g) = inr (a_tipo_acidente a) ∧
  moda0 (l_condicao <$> g) = inr (a_condicao_metereologica a).
Proof.
  unfold agregar_grupo.
  destruct (moda0 (l_uf <$> g)); simpl; [discriminate |].
  destruct (moda0 (l_municipio <$> g)); simpl; [discriminate |].
  destruct (moda0 (l_tipo_acidente <$> g)); simpl; [discriminate |].
  destruct (moda0 (l_condicao <$> g)); simpl; [discriminate |].
  by intros [= <-].
Qed.

Lemma agregar_grupo_total (d : timestamp) (g : list linha) :
  g ≠ [] → ∃ a, agregar_grupo d g = inr a.
Proof.
  intros Hg. unfold agregar_grupo.
  assert (Hne : ∀ f : linha → string, f <$> g ≠ []) by (intros f; by destruct g).
  destruct (moda0_total _ (Hne l_uf)) as [? ->].
  destruct (moda0_total _ (Hne l_municipio)) as [? ->].
  destruct (moda0_total _ (Hne l_tipo_acidente)) as [? ->].
  destruct (moda0_total _ (Hne l_condicao)) as [? ->].
  simpl. by eexists.
Qed.

Lemma agregar_chaves (ls : list linha) (ks : list timestamp) (agg : list agregado) :
  Forall (λ d, d ∈ chaves ls) ks →
  Forall2 (λ d a, agregar_grupo d (grupo d ls) = inr a) ks agg →
  a_data <$> agg = ks ∧
  Forall (λ a, let g := grupo (a_data a) ls in
               g ≠ [] ∧ agregar_grupo (a_data a) g = inr a) agg.
Proof.
  intros Hks Hagg. induction Hagg as [|d a ks agg Ha _ IH]; [done |].
  apply Forall_cons in Hks as [Hd Hks]. destruct (IH Hks) as [IH1 IH2].
  pose proof (agregar_grupo_inr _ _ _ Ha) as [Hda _].
  split; [by rewrite fmap_cons, Hda, IH1 |].
  constructor; [|done]. simpl. rewrite Hda. split; [|done].
  by apply grupo_nao_vazio.
Qed.

(** The aggregation never raises, and every output row is the aggregate of
    the group of its own date. *)
Lemma agregar_total (dados : list registro) :
  ∃ agg, agregar dados = inr agg ∧
    a_data <$> agg = chaves (omap preparar dados) ∧
    Forall (λ a, let g := grupo (a_data a) (omap preparar dados) in
                 g ≠ [] ∧ agregar_grupo (a_data a) g = inr a) agg.
Proof.
  unfold agregar. set (ls := omap preparar dados).
  destruct (mapE_total (λ d, agregar_grupo d (grupo d ls)) (chaves ls)) as [agg Hagg].
  { apply Forall_forall. intros d Hd.
    by apply agregar_grupo_total, grupo_nao_vazio. }
  exists agg. split; [done |].
  apply mapE_inr in Hagg. apply agregar_chaves; [|done].
  by apply Forall_forall.
Qed.

Lemma _processar_dados_total (dados : list registro) :
  ∃ serie, _processar_dados dados = inr serie.
Proof.
  destruct (agregar_total dados) as (agg & Hagg & _).
  unfold _processar_dados. rewrite Hagg. by eexists.
Qed.

(** C9 (amended).  Every day group is aggregated without error, and the
    representative of each categorical field (state, municipality, accident
    type, weather class) is a most frequent value of the field in the group
    that is least in the order of text among the tied ones: [mode()] returns
    the modes sorted, whatever the record order. *)
Theorem agregar_moda_menor (dados : list registro) :
  ∃ agg, agregar dados = inr agg ∧
    _processar_dados dados = inr (merge_sort dia_le (finalizar <$> agg)) ∧
    a_data <$> agg = chaves (omap preparar dados) ∧
    Forall (λ a, let g := grupo (a_data a) (omap preparar dados) in
                 g ≠ [] ∧
                 menor_moda l_uf (a_uf a) g ∧
                 menor_moda l_municipio (a_municipio a) g ∧
                 menor_moda l_tipo_acidente (a_tipo_acidente a) g ∧
                 menor_moda l_condicao (a_condicao_metereologica a) g ∧
                 menor_moda l_condicao (d_clima (finalizar a)) g) agg.
Proof.
  destruct (agregar_total dados) as (agg & Hagg & Hk & Hall).
  exists agg. split; [done |]. split; [unfold _processar_dados; by rewrite Hagg |].
  split; [done |].
  eapply Forall_impl; [exact Hall |]. intros a [Hg Ha]. simpl in *.
  apply agregar_grupo_inr in Ha as (_ & Hu & Hm & Ht & Hc).
  assert (Hclima : Preditor._simplificar_clima (a_condicao_metereologica a)
                   = a_condicao_metereologica a).
  { apply simplificar_clima_ponto_fixo.
    apply moda0_menor in Hc as [[Hin _] _].
    apply list_elem_of_fmap in Hin as (l & -> & Hl).
    apply list_elem_of_filter in Hl as [_ Hl].
    apply list_elem_of_omap in Hl as (r & _ & Hr).
    by eapply preparar_condicao. }
  rewrite Hclima.
  repeat split; try done; by apply moda0_menor.
Qed.

(** C10.  The normalizer is idempotent, every class it returns is a fixed
    point, and the second application in [_processar_dados] (line 59) leaves
    the modal weather class of every day unchanged. *)
Theorem simplificar_clima_idempotente (dados : list registro) :
  (∀ s, Preditor._simplificar_clima (Preditor._simplificar_clima s)
        = Preditor._simplificar_clima s) ∧
  (∀ s, Preditor._simplificar_clima s ∈ classes_clima) ∧
  (∀ c, c ∈ classes_clima → Preditor._simplificar_clima c = c) ∧
  ∃ agg, agregar dados = inr agg ∧
    _processar_dados dados = inr (merge_sort dia_le (finalizar <$> agg)) ∧
    d_clima ∘ finalizar <$> agg = a_condicao_metereologica <$> agg.
Proof.
  split; [intros s; apply simplificar_clima_ponto_fixo, simplificar_clima_classe |].
  split; [apply simplificar_clima_classe |].
  split; [apply simplificar_clima_ponto_fixo |].
  destruct (agregar_total dados) as (agg & Hagg & _ & Hall).
  exists agg. split; [done |]. split; [unfold _processar_dados; by rewrite Hagg |].
  apply Forall_fmap_ext_1. eapply Forall_impl; [exact Hall |].
  intros a [_ Ha]. simpl in *.
  apply agregar_grupo_inr in Ha as (_ & _ & _ & _ & Hc).
  apply simplificar_clima_ponto_fixo.
  apply moda0_menor in Hc as [[Hin _] _].
  apply list_elem_of_fmap in Hin as (l & -> & Hl).
  apply list_elem_of_filter in Hl as [_ Hl].
  apply list_elem_of_omap in Hl as (r & _ & Hr).
  by eapply preparar_condicao.
Qed.

End Agregacao.

(** ** Label encoders *)

Lemma indice_elem_of (s : string) (cs : list string) :
  s ∈ cs → ∃ i, indice s cs = Some i ∧ cs !! i = Some s.
Proof.
  induction cs as [|c cs IH]; [by intros ?%elem_of_nil |].
  intros Hin. simpl. case_decide as Hc; [subst; by exists 0%nat |].
  apply elem_of_cons in Hin as [-> | Hin]; [done |].
  destruct (IH Hin) as (i & -> & Hi). by exists (S i).
Qed.

Lemma indice_None (s : string) (cs : list string) :
  indice s cs = None → s ∉ cs.
Proof.
  intros Hnone Hin. apply indice_elem_of in Hin as (i & Hi & _). congruence.
Qed.

Lemma indice_lookup (s : string) (cs : list string) (i : nat) :
  NoDup cs → cs !! i = Some s → indice s cs = Some i.
Proof.
  intros Hnd Hi.
  destruct (indice_elem_of s cs) as (j & Hj & Hj');
    [by eapply list_elem_of_lookup_2 |].
  rewrite Hj. f_equal. by eapply NoDup_lookup.
Qed.

(** The guarded lambda of line 97 is total: a label of the vocabulary gets
    its position, everything else gets -1. *)
Lemma codificar_valor_total (enc : LabelEncoder) (x : cell) :
  (em_classes enc x = true ∧
     ∃ s i, x = CStr s ∧ classes_ enc !! i = Some s ∧
            codificar_valor enc x = inr (Z.of_nat i)) ∨
  (em_classes enc x = false ∧ codificar_valor enc x = inr (-1)).
Proof.
  unfold codificar_valor. destruct (em_classes enc x) eqn:Hem; [left | by right].
  split; [done |]. destruct x as [| s | |]; try discriminate. simpl in *.
  apply bool_decide_eq_true in Hem.
  destruct (indice_elem_of _ _ Hem) as (i & Hi & Hl).
  exists s, i. by rewrite Hi.
Qed.

Lemma codificar_valor_coluna (enc : LabelEncoder) (vals : column) :
  ∃ cods, mapE (codificar_valor enc) vals = inr cods.
Proof.
  apply mapE_total, Forall_forall. intros x _.
  destruct (codificar_valor_total enc x) as [(_ & s & i & _ & _ & ->) | [_ ->]];
    by eexists.
Qed.

Section Codificacao.

Context `{B : Bibliotecas}.

(** C4.  With the encoder of a field in the registry, encoding a column
    never raises and leaves the registry as it was, so that encoding the
    column a second time returns the same codes; a value of the vocabulary is
    coded by its position in [classes_], any other value by -1. *)
Theorem codificar_estavel (p : predictor) (c : string) (enc : LabelEncoder)
    (df : DataFrame) (vals : column) :
  encoders p !! c = Some enc →
  get_col c df = Some vals →
  ∃ cods,
    let df' := set_col (c +:+ "_enc") (cnum_Z <$> cods) df in
    codificar_coluna df c p = (inr df', p) ∧
    (do a <- codificar_coluna df c; do b <- codificar_coluna df c; ret (a, b)) p
      = (inr (df', df'), p) ∧
    Forall2 (λ x z,
      (em_classes enc x = true →
         ∃ s i, x = CStr s ∧ classes_ enc !! i = Some s ∧ z = Z.of_nat i) ∧
      (em_classes enc x = false → z = -1)) vals cods.
Proof.
  intros Henc Hvals.
  destruct (codificar_valor_coluna enc vals) as [cods Hcods].
  exists cods. simpl.
  assert (Hrun : codificar_coluna df c p
    = (inr (set_col (c +:+ "_enc") (cnum_Z <$> cods) df), p)).
  { unfold codificar_coluna. rewrite Hvals. unfold bind, gets. simpl.
    rewrite Henc, Hcods. reflexivity. }
  split; [done |]. split.
  { unfold bind at 1. rewrite Hrun. unfold bind at 1. rewrite Hrun. reflexivity. }
  apply mapE_inr in Hcods. eapply Forall2_impl; [exact Hcods |].
  intros x z Hz. simpl in Hz.
  destruct (codificar_valor_total enc x)
    as [(Hem & s & i & -> & Hi & Hcode) | [Hem Hcode]];
    rewrite Hcode in Hz; injection Hz as <-; rewrite Hem; split; try done.
  intros _. by exists s, i.
Qed.

End Codificacao.

(** ** DataFrames *)

Lemma assoc_get_set {A} (n m : string) (a : A) (l : list (string * A)) :
  assoc_get n (assoc_set m a l) = if String.eqb m n then Some a else assoc_get n l.
Proof.
  induction l as [|[k b] l IH]; simpl.
  - destruct (String.eqb_spec m n); reflexivity.
  - destruct (String.eqb_spec k m) as [-> | Hkm]; simpl.
    + destruct (String.eqb_spec m n); reflexivity.
    + rewrite IH. destruct (String.eqb_spec k n) as [-> | Hkn]; [|done].
      destruct (String.eqb_spec m n); congruence.
Qed.

Lemma get_col_set_col (n m : string) (c : column) (df : DataFrame) :
  get_col n (set_col m c df) = if String.eqb m n then Some c else get_col n df.
Proof. apply assoc_get_set. Qed.

Lemma get_col_set_col_eq (n : string) (c : column) (df : DataFrame) :
  get_col n (set_col n c df) = Some c.
Proof. by rewrite get_col_set_col, String.eqb_refl. Qed.

Lemma get_col_set_col_ne (n m : string) (c : column) (df : DataFrame) :
  m ≠ n → get_col n (set_col m c df) = get_col n df.
Proof.
  intros Hne. rewrite get_col_set_col. by destruct (String.eqb_spec m n).
Qed.

Lemma assoc_get_fmap {A C} (f : A → C) (n : string) (l : list (string * A)) :
  assoc_get n ((λ p : string * A, (p.1, f p.2)) <$> l) = f <$> assoc_get n l.
Proof.
  induction l as [|[k a] l IH]; [done |]. simpl.
  destruct (String.eqb k n); [done | apply IH].
Qed.

Lemma get_col_fillna0 (n : string) (df : DataFrame) :
  get_col n (fillna0 df) = (λ c : list cell, fillna0_cell <$> c) <$> get_col n df.
Proof. apply (assoc_get_fmap (λ c : list cell, fillna0_cell <$> c)). Qed.

Lemma get_col_iloc_ate (n : string) (k : nat) (df : DataFrame) :
  get_col n (iloc_ate k df) = (λ c : list cell, take k c) <$> get_col n df.
Proof. apply (assoc_get_fmap (λ c : list cell, take k c)). Qed.

Lemma nlinhas_set_cols (ncs : list (string * column)) (df : DataFrame) :
  nlinhas (set_cols ncs df) = nlinhas df.
Proof.
  revert df. induction ncs as [|nc ncs IH]; intros df; [done |].
  unfold set_cols in *. simpl. by rewrite IH.
Qed.

Lemma get_col_set_cols_ne (n : string) (ncs : list (string * column)) (df : DataFrame) :
  n ∉ ncs.*1 → get_col n (set_cols ncs df) = get_col n df.
Proof.
  revert df. induction ncs as [|[m c] ncs IH]; intros df Hn; [done |].
  rewrite fmap_cons, not_elem_of_cons in Hn. destruct Hn as [Hne Hn].
  unfold set_cols in *. simpl. rewrite IH by done.
  by apply get_col_set_col_ne.
Qed.

Lemma get_col_set_cols_in (n : string) (c : column)
    (ncs : list (string * column)) (df : DataFrame) :
  NoDup ncs.*1 → (n, c) ∈ ncs → get_col n (set_cols ncs df) = Some c.
Proof.
  revert df. induction ncs as [|[m c'] ncs IH]; intros df Hnd Hin;
    [by apply elem_of_nil in Hin |].
  rewrite fmap_cons in Hnd. apply NoDup_cons in Hnd as [Hm Hnd].
  unfold set_cols in *. simpl.
  apply elem_of_cons in Hin as [[= -> ->] | Hin].
  - fold (set_cols ncs (set_col m c' df)).
    rewrite get_col_set_cols_ne by done. apply get_col_set_col_eq.
  - by apply IH.
Qed.

Lemma get_col_set_cols_is_Some (n : string)
    (ncs : list (string * column)) (df : DataFrame) :
  n ∈ ncs.*1 → is_Some (get_col n (set_cols ncs df)).
Proof.
  revert df. induction ncs as [|[m c] ncs IH]; intros df Hin;
    [by apply elem_of_nil in Hin |].
  unfold set_cols in *. simpl.
  destruct (decide (n ∈ ncs.*1)) as [Hn | Hn]; [by apply IH |].
  rewrite fmap_cons in Hin. apply elem_of_cons in Hin as [-> | Hin]; [|done].
  fold (set_cols ncs (set_col m c df)).
  rewrite get_col_set_cols_ne by done. simpl. by rewrite get_col_set_col_eq.
Qed.

Lemma col_inr (n : string) (df : DataFrame) (c : column) :
  col n df = inr c ↔ get_col n df = Some c.
Proof. unfold col. destruct (get_col n df); naive_solver. Qed.

(** [df[names]], when it returns, has exactly the listed columns in the
    listed order, each with the content it has in [df]. *)
Lemma select_inr (names : list string) (df X : DataFrame) :
  select names df = inr X →
  nlinhas X = nlinhas df ∧ columns X = names ∧
  ∀ n, n ∈ names → get_col n X = get_col n df ∧ is_Some (get_col n df).
Proof.
  unfold select.
  destruct (mapE _ names) as [e|cs] eqn:Hcs; simpl; [discriminate |].
  intros [= <-]. split; [done |]. apply mapE_inr in Hcs.
  unfold columns, get_col. simpl.
  induction Hcs as [|n [m c] names cs Hn _ [IH1 IH2]]; [split; [done |]; set_solver |].
  destruct (col n df) as [e|c'] eqn:Hc; simpl in Hn; [discriminate |].
  injection Hn as <- <-. apply col_inr in Hc. unfold get_col in Hc.
  split; [rewrite fmap_cons; simpl; by rewrite IH1 |].
  intros k Hk. simpl. destruct (String.eqb_spec n k) as [<- | Hne].
  - by rewrite Hc.
  - apply IH2. apply elem_of_cons in Hk as [-> | Hk]; done.
Qed.

Lemma select_total (names : list string) (df : DataFrame) :
  Forall (λ n, is_Some (get_col n df)) names → ∃ X, select names df = inr X.
Proof.
  intros Hall. unfold select.
  destruct (mapE_total (λ n, try c <- col n df; inr (n, c)) names) as [cs ->];
    [|by eexists].
  eapply Forall_impl; [exact Hall |]. intros n [c Hc]. simpl in *.
  unfold col. rewrite Hc. by eexists.
Qed.

(** The first missing column is the KeyError of [df[names]]. *)
Lemma select_KeyError (antes : list string) (n : string) (depois : list string)
    (df : DataFrame) :
  Forall (λ n, is_Some (get_col n df)) antes →
  get_col n df = None →
  select (antes ++ n :: depois) df = inl (KeyError n).
Proof.
  intros Hall Hn. unfold select.
  induction Hall as [|k antes [c Hc] _ IH]; simpl.
  - unfold col. by rewrite Hn.
  - unfold col at 1. rewrite Hc. simpl.
    destruct (mapE _ (antes ++ n :: depois)) as [e|cs]; simpl in *; [|discriminate].
    by injection IH as ->.
Qed.

(** ** The stages of [_criar_features] *)

Section Estagios.

Context `{B : Bibliotecas}.

Lemma calendario_is_set_cols (ds : list timestamp) (df : DataFrame) :
  ∃ ncs, ncs.*1 = nomes_calendario ∧ calendario ds df = set_cols ncs df.
Proof.
  eexists [(_, _); (_, _); (_, _); (_, _); (_, _); (_, _);
           (_, _); (_, _); (_, _); (_, _); (_, _); (_, _)].
  split; reflexivity.
Qed.

Lemma calendario_outras (n : string) (ds : list timestamp) (df : DataFrame) :
  n ∉ nomes_calendario → get_col n (calendario ds df) = get_col n df.
Proof.
  intros Hn. destruct (calendario_is_set_cols ds df) as (ncs & Hncs & ->).
  apply get_col_set_cols_ne. by rewrite Hncs.
Qed.

Lemma calendario_nomes (n : string) (ds : list timestamp) (df : DataFrame) :
  n ∈ nomes_calendario → is_Some (get_col n (calendario ds df)).
Proof.
  intros Hn. destruct (calendario_is_set_cols ds df) as (ncs & Hncs & ->).
  apply get_col_set_cols_is_Some. by rewrite Hncs.
Qed.

Lemma nlinhas_calendario (ds : list timestamp) (df : DataFrame) :
  nlinhas (calendario ds df) = nlinhas df.
Proof. reflexivity. Qed.

Lemma historico_com (df : DataFrame) (ac : column) (s1 : list (option Q)) :
  get_col "acidentes" df = Some ac →
  numerica (shift 1 ac) = inr s1 →
  historico df = inr (set_cols (colunas_historico ac s1) df).
Proof. intros Hac Hs1. unfold historico. rewrite Hac, Hs1. reflexivity. Qed.

Lemma historico_sem (df : DataFrame) :
  get_col "acidentes" df = None →
  historico df = inr (set_cols (colunas_zero (nlinhas df)) df).
Proof. intros Hac. unfold historico. rewrite Hac. reflexivity. Qed.

Lemma colunas_historico_nomes (ac : column) (s1 : list (option Q)) :
  (colunas_historico ac s1).*1 = nomes_historico.
Proof. reflexivity. Qed.

Lemma colunas_zero_nomes (n : nat) : (colunas_zero n).*1 = nomes_historico.
Proof. reflexivity. Qed.

Lemma nomes_historico_NoDup : NoDup nomes_historico.
Proof. decide_nomes. Qed.

(** What [historico] returns, by cases on the presence of the counts. *)
Lemma historico_inr (df df2 : DataFrame) :
  historico df = inr df2 →
  ∃ ncs, ncs.*1 = nomes_historico ∧ df2 = set_cols ncs df ∧
    match get_col "acidentes" df with
    | Some ac => ∃ s1, numerica (shift 1 ac) = inr s1 ∧ ncs = colunas_historico ac s1
    | None => ncs = colunas_zero (nlinhas df)
    end.
Proof.
  intros H. destruct (get_col "acidentes" df) as [ac|] eqn:Hac.
  - destruct (numerica (shift 1 ac)) as [e|s1] eqn:Hs1.
    + unfold historico in H. rewrite Hac, Hs1 in H. discriminate.
    + rewrite (historico_com _ _ _ Hac Hs1) in H. injection H as <-.
      exists (colunas_historico ac s1). repeat split; eauto.
  - rewrite (historico_sem _ Hac) in H. injection H as <-.
    exists (colunas_zero (nlinhas df)). by repeat split.
Qed.

End Estagios.

Section Registro.

Context `{B : Bibliotecas}.

Lemma so_encoders_refl (p : predictor) : so_encoders p p.
Proof. by repeat split. Qed.

Lemma so_encoders_trans (p q r : predictor) :
  so_encoders p q → so_encoders q r → so_encoders p r.
Proof.
  unfold so_encoders. intros (?&?&?&?&?&?&?&?&?) (?&?&?&?&?&?&?&?&?).
  repeat split; congruence.
Qed.

Lemma textos_inr (vals : column) (txt : list string) :
  textos vals = inr txt → vals = CStr <$> txt.
Proof.
  intros H%mapE_inr. induction H as [|x s vals txt Hx _ IH]; [done |].
  destruct x; try discriminate. injection Hx as ->. by rewrite fmap_cons, IH.
Qed.

Lemma textos_CStr (txt : list string) : textos (CStr <$> txt) = inr txt.
Proof.
  unfold textos. induction txt as [|s txt IH]; [done |].
  rewrite fmap_cons. simpl. rewrite IH. reflexivity.
Qed.

(** After a fit, every fitted label is transformed. *)
Lemma transform_fit (txt : list string) :
  ∃ cods, mapE (transform (fit txt)) (CStr <$> txt) = inr cods.
Proof.
  apply mapE_total, Forall_forall. intros x (s & -> & Hs)%list_elem_of_fmap.
  simpl. apply elem_of_np_unique in Hs.
  destruct (indice_elem_of _ _ Hs) as (i & -> & _). by eexists.
Qed.

(** One turn of the encoding loop, when it returns. *)
Lemma codificar_coluna_inr (df : DataFrame) (c : string) (p : predictor)
    (df' : DataFrame) (p' : predictor) :
  codificar_coluna df c p = (inr df', p') →
  ∃ col', df' = set_col (c +:+ "_enc") col' df ∧
    match get_col c df with
    | None => col' = replicate (nlinhas df) czero ∧ p' = p
    | Some vals =>
        match encoders p !! c with
        | Some enc =>
            p' = p ∧ ∃ cods, mapE (codificar_valor enc) vals = inr cods ∧
                             col' = cnum_Z <$> cods
        | None =>
            ∃ txt cods, vals = CStr <$> txt ∧
              mapE (transform (fit txt)) vals = inr cods ∧
              col' = cnum_Z <$> cods ∧ p' = set_encoder c (fit txt) p
        end
    end.
Proof.
  unfold codificar_coluna.
  destruct (get_col c df) as [vals|]; [|intros [= <- <-]; by eexists].
  unfold bind, gets. simpl. destruct (encoders p !! c) as [enc|].
  - destruct (mapE (codificar_valor enc) vals) as [e|cods] eqn:Hc; simpl;
      [discriminate |].
    intros [= <- <-]. eexists. split; [done |]. split; [done |]. by exists cods.
  - destruct (textos vals) as [e|txt] eqn:Ht; simpl; [discriminate |].
    destruct (mapE (transform (fit txt)) vals) as [e|cods] eqn:Hc; simpl;
      [discriminate |].
    intros [= <- <-]. eexists. split; [done |].
    exists txt, cods. by apply textos_inr in Ht.
Qed.

(** A turn that raises leaves the predictor as it was. *)
Lemma codificar_coluna_inl (df : DataFrame) (c : string) (p : predictor)
    (e : exn) (p' : predictor) :
  codificar_coluna df c p = (inl e, p') → p' = p.
Proof.
  unfold codificar_coluna.
  destruct (get_col c df) as [vals|]; [|discriminate].
  unfold bind, gets. simpl. destruct (encoders p !! c) as [enc|].
  - destruct (mapE (codificar_valor enc) vals); simpl; [by intros [= _ <-] | discriminate].
  - destruct (textos vals) as [|txt]; simpl; [by intros [= _ <-] |].
    destruct (mapE (transform (fit txt)) vals); simpl;
      [by intros [= _ <-] | discriminate].
Qed.

Lemma so_encoders_set_encoder (c : string) (enc : LabelEncoder) (p : predictor) :
  so_encoders p (set_encoder c enc p).
Proof. by repeat split. Qed.

Lemma codificar_coluna_so_encoders (df : DataFrame) (c : string) (p : predictor)
    (r : exn + DataFrame) (p' : predictor) :
  codificar_coluna df c p = (r, p') → so_encoders p p'.
Proof.
  destruct r as [e|df']; intros H.
  - apply codificar_coluna_inl in H as ->. apply so_encoders_refl.
  - apply codificar_coluna_inr in H as (col' & _ & H).
    destruct (get_col c df); [|destruct H as [_ ->]; apply so_encoders_refl].
    destruct (encoders p !! c).
    + destruct H as [-> _]. apply so_encoders_refl.
    + destruct H as (txt & cods & _ & _ & _ & ->). apply so_encoders_set_encoder.
Qed.

Lemma foldM_so_encoders (cs : list string) (df : DataFrame) (p : predictor)
    (r : exn + DataFrame) (p' : predictor) :
  foldM codificar_coluna df cs p = (r, p') → so_encoders p p'.
Proof.
  revert df p. induction cs as [|c cs IH]; intros df p; simpl.
  - intros [= _ <-]. apply so_encoders_refl.
  - unfold bind. destruct (codificar_coluna df c p) as [[e|df1] p1] eqn:H1.
    + intros [= _ <-]. by eapply codificar_coluna_so_encoders.
    + intros H2. eapply so_encoders_trans; [|by eapply IH].
      by eapply codificar_coluna_so_encoders.
Qed.

End Registro.

Section Lacos.

Context `{B : Bibliotecas}.

Lemma codificar_todas_inr (cs : list string) (df : DataFrame) (p : predictor)
    (df' : DataFrame) (p' : predictor) :
  NoDup cs →
  NoDup ((λ c, c +:+ "_enc") <$> cs) →
  (∀ c, c ∈ cs → c ∉ (λ c, c +:+ "_enc") <$> cs) →
  foldM codificar_coluna df cs p = (inr df', p') →
  nlinhas df' = nlinhas df ∧
  (∀ n, n ∉ (λ c, c +:+ "_enc") <$> cs → get_col n df' = get_col n df) ∧
  (∀ c, c ∉ cs → encoders p' !! c = encoders p !! c) ∧
  (∀ c, c ∈ cs → resultado_enc df p c df' p').
Proof.
  revert df p. induction cs as [|c cs IH]; intros df p Hnd Hnde Hdisj; cbn [foldM].
  { intros [= <- <-]. repeat split; try done. by intros c ?%elem_of_nil. }
  unfold bind. destruct (codificar_coluna df c p) as [[e|df1] p1] eqn:H1;
    [discriminate |].
  intros H2. apply NoDup_cons in Hnd as [Hc Hnd].
  rewrite fmap_cons in Hnde. apply NoDup_cons in Hnde as [Hce Hnde].
  apply IH in H2 as (Hn & Hcols & Hencs & Hres); [|done..|]; last first.
  { intros c' Hc' Hin. apply (Hdisj c'); [by right |].
    rewrite fmap_cons. by right. }
  apply codificar_coluna_inr in H1 as (col' & -> & H1).
  assert (Hp1 : ∀ c', c' ≠ c → encoders p1 !! c' = encoders p !! c').
  { intros c' Hne. destruct (get_col c df); [|by destruct H1 as [_ ->]].
    destruct (encoders p !! c); [by destruct H1 as [-> _] |].
    destruct H1 as (txt & cods & _ & _ & _ & ->). simpl.
    by apply lookup_insert_ne. }
  split; [by rewrite Hn |]. split; [|split].
  - intros n Hnin. rewrite fmap_cons, not_elem_of_cons in Hnin.
    destruct Hnin as [Hne Hnin]. rewrite Hcols by done.
    by apply get_col_set_col_ne.
  - intros c' Hc'. rewrite not_elem_of_cons in Hc'. destruct Hc' as [Hne Hc'].
    rewrite Hencs by done. by apply Hp1.
  - intros c' Hc'. apply elem_of_cons in Hc' as [-> | Hc'].
    + unfold resultado_enc. rewrite Hcols by done. rewrite get_col_set_col_eq.
      rewrite Hencs by done.
      destruct (get_col c df) as [vals|]; [|by destruct H1 as [-> ->]].
      destruct (encoders p !! c) as [enc|] eqn:Henc.
      * destruct H1 as (-> & cods & Hcods & ->). split; [done |]. by exists cods.
      * destruct H1 as (txt & cods & -> & Hcods & -> & ->).
        exists txt, cods. repeat split; try done. simpl. apply lookup_insert_eq.
    + specialize (Hres c' Hc'). unfold resultado_enc in *.
      assert (Hne : c' ≠ c) by (intros ->; done).
      assert (Hne' : c +:+ "_enc" ≠ c').
      { intros <-. apply (Hdisj (c +:+ "_enc")); [by right |].
        rewrite fmap_cons. by left. }
      rewrite get_col_set_col_ne in Hres by done.
      rewrite Hp1 in Hres by done. exact Hres.
Qed.

Lemma codificar_todas_total (cs : list string) (df : DataFrame) (p : predictor) :
  NoDup cs →
  (∀ c, c ∈ cs → c ∉ (λ c, c +:+ "_enc") <$> cs) →
  (∀ c vals, c ∈ cs → get_col c df = Some vals →
     is_Some (encoders p !! c) ∨ ∃ txt, vals = CStr <$> txt) →
  ∃ df' p', foldM codificar_coluna df cs p = (inr df', p').
Proof.
  revert df p. induction cs as [|c cs IH]; intros df p Hnd Hdisj Hok; cbn [foldM].
  { by eexists _, _. }
  apply NoDup_cons in Hnd as [Hc Hnd].
  assert (H1 : ∃ df1 p1, codificar_coluna df c p = (inr df1, p1)).
  { unfold codificar_coluna. destruct (get_col c df) as [vals|] eqn:Hvals;
      [|by eexists _, _].
    unfold bind, gets. simpl. destruct (encoders p !! c) as [enc|] eqn:Henc.
    - destruct (codificar_valor_coluna enc vals) as [cods ->]. by eexists _, _.
    - destruct (Hok c vals) as [[? ?] | [txt ->]]; [by left | done | congruence |].
      rewrite textos_CStr. simpl.
      destruct (transform_fit txt) as [cods ->]. by eexists _, _. }
  destruct H1 as (df1 & p1 & H1). unfold bind. rewrite H1.
  apply IH; [done | |].
  { intros c' Hc' Hin. apply (Hdisj c'); [by right |].
    rewrite fmap_cons. by right. }
  intros c' vals Hc' Hvals.
  assert (Hne : c' ≠ c) by (intros ->; done).
  assert (Hne' : c +:+ "_enc" ≠ c').
  { intros <-. apply (Hdisj (c +:+ "_enc")); [by right |].
    rewrite fmap_cons. by left. }
  pose proof H1 as H1'.
  apply codificar_coluna_inr in H1 as (col' & -> & H1).
  rewrite get_col_set_col_ne in Hvals by done.
  destruct (Hok c' vals) as [Hs | Ht]; [by right | done | | by right].
  left. destruct (get_col c df); [|by destruct H1 as [_ ->]].
  destruct (encoders p !! c); [by destruct H1 as [-> _] |].
  destruct H1 as (txt & cods & _ & _ & _ & ->). simpl.
  by rewrite lookup_insert_ne.
Qed.

End Lacos.

(** ** Shifted and rolling series *)

Section Series.

Local Open Scope nat_scope.

Lemma length_shift (k : nat) (s : column) : length (shift k s) = length s.
Proof.
  unfold shift. rewrite length_take, length_app, length_replicate. lia.
Qed.


Lemma shift_1 (s : column) : shift 1 s = take (length s) (CNaN :: s).
Proof. reflexivity. Qed.





Lemma length_rolling (w : nat) (agg : list Q → cell) (s : list (option Q)) :
  length (rolling w agg s) = length s.
Proof. unfold rolling. by rewrite length_fmap, length_seq. Qed.

Lemma numerica_CNum (qs : list Q) (n : nat) :
  numerica (take n (CNaN :: (CNum <$> qs))) = inr (take n (None :: (Some <$> qs))).
Proof.
  unfold numerica.
  assert (Hgen : ∀ l : list (option Q),
    mapE (λ c, match c with
               | CNum q => inr (Some q)
               | CNaN => inr None
               | _ => inl TypeError
               end) (from_option CNum CNaN <$> l) = inr l).
  { induction l as [|[q|] l IH]; [done | |]; rewrite fmap_cons; simpl;
      by rewrite IH. }
  rewrite <- (Hgen (take n (None :: (Some <$> qs)))). f_equal.
  rewrite fmap_take, fmap_cons. simpl. f_equal. f_equal.
  rewrite <- list_fmap_compose. by apply list_fmap_ext.
Qed.


End Series.

(** ** [_criar_features] as a whole *)

Lemma features_elem (n : string) :
  n ∈ features ↔
  n = "hora_media" ∨ n ∈ nomes_calendario ∨ n ∈ nomes_historico ∨ n ∈ nomes_enc.
Proof.
  assert (H1 : Forall (λ n, n ∈ "hora_media" :: nomes_calendario
                              ++ nomes_historico ++ nomes_enc) features)
    by decide_nomes.
  assert (H2 : Forall (λ n, n ∈ features)
                 ("hora_media" :: nomes_calendario ++ nomes_historico ++ nomes_enc))
    by decide_nomes.
  rewrite Forall_forall in H1, H2. split.
  - intros Hn%H1. rewrite elem_of_cons, !elem_of_app in Hn. tauto.
  - intros Hn. apply H2. rewrite elem_of_cons, !elem_of_app. tauto.
Qed.

Lemma nomes_disjuntos :
  Forall (λ n, (n ∉ nomes_calendario) ∧ (n ∉ nomes_enc) ∧ (n ≠ "hora_media"))
    nomes_historico ∧
  Forall (λ n, (n ∉ nomes_historico) ∧ (n ∉ nomes_enc))
    ("hora_media" :: nomes_calendario) ∧
  Forall (λ n, (n ∉ nomes_calendario) ∧ (n ∉ nomes_historico) ∧ (n ∉ nomes_enc))
    ("acidentes" :: "data" :: categoricas) ∧
  NoDup categoricas ∧ NoDup nomes_enc ∧ NoDup features.
Proof. repeat split; decide_nomes. Qed.

Section CriarFeatures.

Context `{B : Bibliotecas}.

Local Opaque categoricas features.

Lemma _criar_features_inr (df : DataFrame) (p : predictor)
    (X : DataFrame) (y : option column) (p' : predictor) :
  _criar_features df p = (inr (X, y), p') →
  ∃ datas ds ncs df4,
    get_col "data" df = Some datas ∧ datas_validas datas = inr ds ∧
    ncs.*1 = nomes_historico ∧
    match get_col "acidentes" df with
    | Some ac => ∃ s1, numerica (shift 1 ac) = inr s1 ∧ ncs = colunas_historico ac s1
    | None => ncs = colunas_zero (nlinhas df)
    end ∧
    foldM codificar_coluna (antes_de_codificar ds ncs df) categoricas p = (inr df4, p') ∧
    select features df4 = inr X ∧ y = get_col "acidentes" df4.
Proof.
  unfold _criar_features, bind, lift, col, ret, raise.
  destruct (get_col "data" df) as [datas|]; simpl; [|discriminate].
  destruct (datas_validas datas) as [e|ds] eqn:Hds; simpl; [discriminate |].
  destruct (com_linhas ds) as [e|[]]; simpl; [discriminate |].
  destruct (historico (calendario ds df)) as [e|df2] eqn:Hh; simpl; [discriminate |].
  destruct (foldM codificar_coluna (fillna0 df2) categoricas p)
    as [[e|df4] p4] eqn:Hf; simpl; [discriminate |].
  destruct (select features df4) as [e|X'] eqn:Hs; simpl; [discriminate |].
  intros [= <- <- <-].
  apply historico_inr in Hh as (ncs & Hncs & -> & Hac).
  rewrite calendario_outras in Hac by decide_nomes.
  exists datas, ds, ncs, df4. by split_and!.
Qed.

Lemma _criar_features_run (df : DataFrame) (p : predictor)
    (datas : column) (ds : list timestamp) (df2 df4 X : DataFrame) (p' : predictor) :
  get_col "data" df = Some datas →
  datas_validas datas = inr ds →
  ds ≠ [] →
  historico (calendario ds df) = inr df2 →
  foldM codificar_coluna (fillna0 df2) categoricas p = (inr df4, p') →
  select features df4 = inr X →
  _criar_features df p = (inr (X, get_col "acidentes" df4), p').
Proof.
  intros Hd Hds Hne Hh Hf Hs. unfold _criar_features, bind, lift, col, ret, raise.
  rewrite Hd. simpl. rewrite Hds. simpl.
  assert (Hcl : com_linhas ds = inr ()) by (by destruct ds).
  rewrite Hcl. simpl. rewrite Hh. simpl. rewrite Hf, Hs.
  reflexivity.
Qed.

(** [_criar_features] returns on frames with at least one row only; on a
    frame without rows it raises TypeError and writes nothing. *)
Lemma _criar_features_linhas (df : DataFrame) (p : predictor)
    (X : DataFrame) (y : option column) (p' : predictor) :
  _criar_features df p = (inr (X, y), p') →
  ∃ datas ds, get_col "data" df = Some datas ∧ datas_validas datas = inr ds ∧
              ds ≠ [] ∧ datas ≠ [].
Proof.
  unfold _criar_features, bind, lift, col, ret, raise.
  destruct (get_col "data" df) as [datas|]; simpl; [|discriminate].
  destruct (datas_validas datas) as [e|ds] eqn:Hds; simpl; [discriminate |].
  destruct ds as [|d ds]; simpl; [discriminate |]. intros _.
  exists datas, (d :: ds). split; [done |]. split; [done |]. split; [done |].
  intros ->. discriminate.
Qed.

Lemma _criar_features_sem_linhas (df : DataFrame) (p : predictor) :
  get_col "data" df = Some [] →
  _criar_features df p = (inl TypeError, p).
Proof.
  intros Hd. unfold _criar_features, bind, lift, col, ret, raise.
  by rewrite Hd.
Qed.

(** Whatever the outcome, [_criar_features] writes nothing but encoders. *)
Lemma _criar_features_so_encoders (df : DataFrame) (p : predictor)
    (r : exn + (DataFrame * option column)) (p' : predictor) :
  _criar_features df p = (r, p') → so_encoders p p'.
Proof.
  unfold _criar_features, bind, lift, col, ret, raise.
  destruct (get_col "data" df) as [datas|]; simpl;
    [|intros [= _ <-]; apply so_encoders_refl].
  destruct (datas_validas datas) as [e|ds]; simpl;
    [intros [= _ <-]; apply so_encoders_refl |].
  destruct (com_linhas ds) as [e|[]]; simpl;
    [intros [= _ <-]; apply so_encoders_refl |].
  destruct (historico (calendario ds df)) as [e|df2]; simpl;
    [intros [= _ <-]; apply so_encoders_refl |].
  destruct (foldM codificar_coluna (fillna0 df2) categoricas p)
    as [[e|df4] p4] eqn:Hf; simpl.
  - intros [= _ <-]. by eapply foldM_so_encoders.
  - destruct (select features df4); simpl; intros [= _ <-];
      by eapply foldM_so_encoders.
Qed.

Lemma nlinhas_antes (ds : list timestamp) (ncs : list (string * column))
    (df : DataFrame) :
  nlinhas (antes_de_codificar ds ncs df) = nlinhas df.
Proof. unfold antes_de_codificar. simpl. by rewrite nlinhas_set_cols. Qed.

Lemma get_col_antes (n : string) (ds : list timestamp)
    (ncs : list (string * column)) (df : DataFrame) :
  ncs.*1 = nomes_historico →
  n ∉ nomes_calendario → n ∉ nomes_historico →
  get_col n (antes_de_codificar ds ncs df)
  = (λ c : list cell, fillna0_cell <$> c) <$> get_col n df.
Proof.
  intros Hncs Hc Hh. unfold antes_de_codificar.
  rewrite get_col_fillna0, get_col_set_cols_ne by (by rewrite Hncs).
  by rewrite calendario_outras.
Qed.

Lemma get_col_antes_historico (n : string) (c : column) (ds : list timestamp)
    (ncs : list (string * column)) (df : DataFrame) :
  ncs.*1 = nomes_historico → (n, c) ∈ ncs →
  get_col n (antes_de_codificar ds ncs df) = Some (fillna0_cell <$> c).
Proof.
  intros Hncs Hin. unfold antes_de_codificar.
  rewrite get_col_fillna0, (get_col_set_cols_in n c); [done | | done].
  rewrite Hncs. apply nomes_historico_NoDup.
Qed.

Lemma categoricas_ok :
  NoDup categoricas ∧ NoDup ((λ c, c +:+ "_enc") <$> categoricas) ∧
  ∀ c, c ∈ categoricas → c ∉ (λ c, c +:+ "_enc") <$> categoricas.
Proof.
  split; [decide_nomes |]. split; [decide_nomes |].
  apply Forall_forall. decide_nomes.
Qed.

(** The content of the matrix returned by [_criar_features]. *)
Lemma _criar_features_colunas (df : DataFrame) (p : predictor)
    (X : DataFrame) (y : option column) (p' : predictor) :
  _criar_features df p = (inr (X, y), p') →
  nlinhas X = nlinhas df ∧ columns X = features ∧
  is_Some (get_col "hora_media" df) ∧
  (∃ ncs, ncs.*1 = nomes_historico ∧
     match get_col "acidentes" df with
     | Some ac => ∃ s1, numerica (shift 1 ac) = inr s1 ∧ ncs = colunas_historico ac s1
     | None => ncs = colunas_zero (nlinhas df)
     end ∧
     ∀ n c, (n, c) ∈ ncs → get_col n X = Some (fillna0_cell <$> c)) ∧
  (∀ c, c ∈ categoricas → get_col c df = None →
        get_col (c +:+ "_enc") X = Some (replicate (nlinhas df) czero)).
Proof.
  intros H. apply _criar_features_inr in H
    as (datas & ds & ncs & df4 & Hd & Hds & Hncs & Hac & Hf & Hs & ->).
  destruct categoricas_ok as (Hc1 & Hc2 & Hc3).
  apply codificar_todas_inr in Hf as (Hn & Hcols & _ & Hres); [|done..].
  apply select_inr in Hs as (HnX & HcX & HX).
  destruct nomes_disjuntos as (Hdh & Hdc & Hdo & _).
  rewrite Forall_forall in Hdh, Hdc, Hdo.
  rewrite nlinhas_antes in Hn.
  split; [by rewrite HnX, Hn |]. split; [done |]. split.
  { destruct (HX "hora_media") as [_ Hsome]; [by apply features_elem; left |].
    rewrite Hcols in Hsome by decide_nomes.
    rewrite get_col_antes in Hsome by (done || decide_nomes).
    by apply fmap_is_Some in Hsome. }
  split.
  - exists ncs. split; [done |]. split; [done |]. intros n c Hin.
    assert (Hnh : n ∈ nomes_historico).
    { rewrite <- Hncs. by apply (list_elem_of_fmap_2 fst) in Hin. }
    destruct (HX n) as [-> _]; [apply features_elem; tauto |].
    rewrite Hcols by (by apply Hdh). by apply get_col_antes_historico.
  - intros c Hc Hnone.
    destruct (HX (c +:+ "_enc")) as [-> _].
    { apply features_elem. do 3 right. by apply (list_elem_of_fmap_2 (λ c, c +:+ "_enc")). }
    specialize (Hres c Hc). unfold resultado_enc in Hres.
    destruct (Hdo c) as (Hcc & Hch & _); [by do 2 apply list_elem_of_further |].
    rewrite get_col_antes, Hnone, nlinhas_antes in Hres by done.
    by destruct Hres as [-> _].
Qed.

(** [_criar_features] returns on every frame with a row, valid dates, a
    mean-hour column, numeric counts (if any) and categorical columns that are text or
    have their encoder. *)
Lemma _criar_features_total (df : DataFrame) (p : predictor)
    (datas : column) (ds : list timestamp) :
  get_col "data" df = Some datas →
  datas_validas datas = inr ds →
  ds ≠ [] →
  is_Some (get_col "hora_media" df) →
  match get_col "acidentes" df with
  | Some ac => ∃ s1, numerica (shift 1 ac) = inr s1
  | None => True
  end →
  (∀ c vals, c ∈ categoricas → get_col c df = Some vals →
     is_Some (encoders p !! c) ∨ ∃ txt, vals = CStr <$> txt) →
  ∃ X y p', _criar_features df p = (inr (X, y), p').
Proof.
  intros Hd Hds Hne Hhora Hac Hcat.
  destruct nomes_disjuntos as (Hdh & Hdc & Hdo & _).
  rewrite Forall_forall in Hdh, Hdc, Hdo.
  destruct categoricas_ok as (Hc1 & Hc2 & Hc3).
  assert (Hh : ∃ ncs, ncs.*1 = nomes_historico ∧
            historico (calendario ds df) = inr (set_cols ncs (calendario ds df))).
  { destruct (get_col "acidentes" df) as [ac|] eqn:Hacid.
    - destruct Hac as [s1 Hs1]. exists (colunas_historico ac s1). split; [done |].
      apply historico_com; [|done]. by rewrite calendario_outras by decide_nomes.
    - exists (colunas_zero (nlinhas df)). split; [done |].
      assert (Hnone : get_col "acidentes" (calendario ds df) = None)
        by (by rewrite calendario_outras by decide_nomes).
      exact (historico_sem (calendario ds df) Hnone). }
  destruct Hh as (ncs & Hncs & Hh).
  destruct (codificar_todas_total categoricas (antes_de_codificar ds ncs df) p)
    as (df4 & p' & Hf); [done | done | |].
  { intros c vals Hc Hvals.
    destruct (Hdo c) as (Hcc & Hch & _); [by do 2 apply list_elem_of_further |].
    rewrite get_col_antes in Hvals by done.
    destruct (get_col c df) as [vals0|] eqn:Hv0; [|done]. injection Hvals as <-.
    destruct (Hcat c vals0 Hc Hv0) as [? | [txt ->]]; [by left | right].
    exists txt. rewrite <- list_fmap_compose. by apply list_fmap_ext. }
  pose proof Hf as Hf'.
  apply codificar_todas_inr in Hf' as (Hn & Hcols & _ & Hres); [|done..].
  destruct (select_total features df4) as [X HX].
  { apply Forall_forall. intros n Hn'. apply features_elem in Hn'.
    destruct (decide (n ∈ nomes_enc)) as [Henc | Henc].
    { apply list_elem_of_fmap in Henc as (c & -> & Hc).
      specialize (Hres c Hc). unfold resultado_enc in Hres.
      destruct (get_col c _); [|by destruct Hres as [-> _]].
      destruct (encoders p !! c).
      - by destruct Hres as (_ & cods & _ & ->).
      - by destruct Hres as (txt & cods & _ & _ & _ & ->). }
    rewrite Hcols by done.
    destruct (decide (n ∈ nomes_historico)) as [Hhist | Hhist].
    { unfold antes_de_codificar. rewrite get_col_fillna0. apply fmap_is_Some.
      apply get_col_set_cols_is_Some. by rewrite Hncs. }
    unfold antes_de_codificar. rewrite get_col_fillna0. apply fmap_is_Some.
    rewrite get_col_set_cols_ne by (by rewrite Hncs).
    destruct Hn' as [-> | [Hcal | [? | ?]]]; [|by apply calendario_nomes | done..].
    by rewrite calendario_outras by decide_nomes. }
  eexists X, _, p'. by eapply _criar_features_run.
Qed.

Local Transparent categoricas features.

End CriarFeatures.

(** ** Lag and rolling features of a daily series *)

Section Vazamento.

Context `{B : Bibliotecas}.

Local Open Scope nat_scope.

Lemma datas_validas_CData (ds : list timestamp) :
  datas_validas (CData <$> ds) = inr ds.
Proof.
  unfold datas_validas. induction ds as [|d ds IH]; [done |].
  rewrite fmap_cons. simpl. by rewrite IH.
Qed.

Lemma frame_de_acidentes (serie : list dia) :
  get_col "acidentes" (frame_de serie) = Some (CNum <$> contagens serie).
Proof.
  unfold contagens. rewrite <- list_fmap_compose. reflexivity.
Qed.

(** A daily series of at least one day goes through [_criar_features]. *)
Lemma _criar_features_serie (serie : list dia) (p : predictor) :
  serie ≠ [] →
  ∃ X y p', _criar_features (frame_de serie) p = (inr (X, y), p').
Proof.
  intros Hne.
  apply (_criar_features_total _ _ (CData <$> (d_data <$> serie)) (d_data <$> serie)).
  - by rewrite <- list_fmap_compose.
  - apply datas_validas_CData.
  - by destruct serie.
  - by eexists.
  - rewrite frame_de_acidentes, shift_1, numerica_CNum. by eexists.
  - intros c vals Hc Hvals. right.
    repeat (apply elem_of_cons in Hc as [-> | Hc]; [| ]);
      [..| by apply elem_of_nil in Hc];
      injection Hvals as <-; eexists; apply list_fmap_compose.
Qed.

(** The series without days stops at line 71. *)
Lemma _criar_features_serie_vazia (p : predictor) :
  _criar_features (frame_de []) p = (inl TypeError, p).
Proof. by apply _criar_features_sem_linhas. Qed.


End Vazamento.

(** ** Training *)

Section Treino.

Context `{B : Bibliotecas}.

Local Opaque categoricas features.

(** The registry after [_criar_features]: an encoder that was there is kept,
    a missing one is fitted on the whole column of the frame. *)
Lemma _criar_features_encoders (df : DataFrame) (p : predictor)
    (X : DataFrame) (y : option column) (p' : predictor) :
  _criar_features df p = (inr (X, y), p') →
  (∀ c, c ∉ categoricas → encoders p' !! c = encoders p !! c) ∧
  ∀ c, c ∈ categoricas →
    match get_col c df, encoders p !! c with
    | Some vals, None =>
        ∃ txt, fillna0_cell <$> vals = CStr <$> txt ∧
               encoders p' !! c = Some (fit txt)
    | _, _ => encoders p' !! c = encoders p !! c
    end.
Proof.
  intros H. apply _criar_features_inr in H
    as (datas & ds & ncs & df4 & _ & _ & Hncs & _ & Hf & _ & _).
  destruct categoricas_ok as (Hc1 & Hc2 & Hc3).
  apply codificar_todas_inr in Hf as (_ & _ & Hout & Hres); [|done..].
  split; [done |]. intros c Hc. specialize (Hres c Hc).
  destruct nomes_disjuntos as (_ & _ & Hdo & _). rewrite Forall_forall in Hdo.
  destruct (Hdo c) as (Hcc & Hch & _); [by do 2 apply list_elem_of_further |].
  unfold resultado_enc in Hres. rewrite get_col_antes in Hres by done.
  destruct (get_col c df) as [vals|]; simpl in Hres; [|by destruct Hres].
  destruct (encoders p !! c) as [enc|].
  - by destruct Hres as [-> _].
  - destruct Hres as (txt & cods & Htxt & Henc & _). by exists txt.
Qed.

Local Transparent categoricas features.

(** The fit and the evaluation write no encoder; they set [treinado] at the
    very end, so a raise leaves the flag as it was. *)
Local Opaque split_index iloc_ate iloc_desde pos_processa take drop.

Lemma ajustar_e_avaliar_estado (X : DataFrame) (y : option column)
    (p : predictor) (r : exn + unit) (p' : predictor) :
  ajustar_e_avaliar X y p = (r, p') →
  encoders p' = encoders p ∧
  match r with
  | inl _ => treinado p' = treinado p
  | inr _ => treinado p' = true ∧ feature_names p' = columns X
  end.
Proof.
  unfold ajustar_e_avaliar, bind, modify, lift, gets, ret, raise.
  destruct y as [y|]; [|by intros [= <- <-]].
  cbn beta iota.
  destruct (lgbm_fit _ _ _) as [?|m']; [by intros [= <- <-] |].
  cbn beta iota.
  destruct (lgbm_predict m' (iloc_ate _ _)) as [?|r1]; [by intros [= <- <-] |].
  cbn beta iota.
  destruct (lgbm_predict m' (iloc_desde _ _)) as [?|r2]; [by intros [= <- <-] |].
  cbn beta iota.
  destruct (r2_score _ _) as [?|a1]; [by intros [= <- <-] |].
  cbn beta iota.
  destruct (mean_squared_error _ _) as [?|a2]; [by intros [= <- <-] |].
  cbn beta iota.
  destruct (r2_score _ _) as [?|a3]; [by intros [= <- <-] |].
  cbn beta iota.
  destruct (mean_squared_error _ _) as [?|a4]; [by intros [= <- <-] |].
  cbn beta iota.
  by intros [= <- <-].
Qed.

Local Transparent split_index iloc_ate iloc_desde pos_processa take drop.
Local Opaque ajustar_e_avaliar _criar_features _processar_dados frame_de.
Local Opaque colunas_exigidas.

(** A call of [treinar] that raises leaves [treinado] as it was. *)
Lemma treinar_inl (fs : gmap string arquivo) (arq : string) (p : predictor)
    (e : exn) (p' : predictor) :
  treinar fs arq p = (inl e, p') → treinado p' = treinado p.
Proof.
  unfold treinar, bind, lift, modify, ret, raise.
  destruct (ler_json fs arq) as [?|js]; simpl; [by intros [= _ <-] |].
  destruct (colunas_exigidas js) as [?|dados]; simpl; [by intros [= _ <-] |].
  destruct (_processar_dados dados) as [?|serie]; simpl; [by intros [= _ <-] |].
  destruct (_criar_features (frame_de serie) (set_historical_df (frame_de serie) p))
    as [[?|[X y]] p1] eqn:Hcf; simpl.
  - intros [= _ <-]. by apply _criar_features_so_encoders in Hcf as (_ & _ & -> & _).
  - intros [_ Ht]%ajustar_e_avaliar_estado. rewrite Ht.
    by apply _criar_features_so_encoders in Hcf as (_ & _ & -> & _).
Qed.

Lemma treinar_inr (fs : gmap string arquivo) (arq : string) (p p' : predictor) :
  treinar fs arq p = (inr (), p') → treinado p' = true ∧ feature_names p' = features.
Proof.
  unfold treinar, bind, lift, modify, ret, raise.
  destruct (ler_json fs arq) as [?|js]; simpl; [discriminate |].
  destruct (colunas_exigidas js) as [?|dados]; simpl; [discriminate |].
  destruct (_processar_dados dados) as [?|serie]; simpl; [discriminate |].
  destruct (_criar_features (frame_de serie) (set_historical_df (frame_de serie) p))
    as [[?|[X y]] p1] eqn:Hcf; simpl; [discriminate |].
  intros [_ [Ht Hf]]%ajustar_e_avaliar_estado. split; [done |].
  rewrite Hf. by apply _criar_features_colunas in Hcf as (_ & -> & _).
Qed.

Local Transparent frame_de.

Lemma valores_frame (c : string) (serie : list dia) :
  c ∈ categoricas → get_col c (frame_de serie) = Some (CStr <$> valores c serie).
Proof.
  assert (Hs : ∀ l : list string,
    omap (λ x, match x with CStr s => Some s | _ => None end) (CStr <$> l) = l).
  { induction l as [|s l IH]; [done |]. cbn. by f_equal. }
  intros Hc. unfold valores.
  repeat (apply elem_of_cons in Hc as [-> | Hc]; [| ]);
    [..| by apply elem_of_nil in Hc];
    cbn [frame_de get_col colunas assoc_get String.eqb Ascii.eqb Bool.eqb];
    by rewrite list_fmap_compose, Hs.
Qed.

(** Field by field, [valores] lists the field of every row of the series. *)
Lemma valores_campos (serie : list dia) :
  valores "uf" serie = d_uf <$> serie ∧
  valores "municipio" serie = d_municipio <$> serie ∧
  valores "tipo_acidente" serie = d_tipo_acidente <$> serie ∧
  valores "clima" serie = d_clima <$> serie.
Proof.
  unfold valores.
  cbn [frame_de get_col colunas assoc_get String.eqb Ascii.eqb Bool.eqb].
  split_and!; (induction serie as [|d serie IH]; [done |]);
    rewrite !fmap_cons; simpl; by rewrite <- IH.
Qed.

Local Opaque frame_de.

(** C3 (amended).  On a JSON list that has the six keys, [treinar]
    aggregates the file and, when the daily series has at least one day,
    leaves in the registry, whatever happens in the fit and the evaluation,
    for every categorical field without a previous encoder, an encoder whose
    vocabulary is the set of values of the field over all the rows of the
    daily series: the encoders are fitted before the 70/30 split, on the
    training rows and on the held-out rows alike.  An encoder that was
    already registered is kept.  When no record survives the cleaning,
    [treinar] raises the TypeError of line 71 before any encoder is fitted
    and the registry is as it was. *)
Theorem treinar_vocabulario (fs : gmap string arquivo) (arq : string)
    (js : list objeto) (dados : list registro) (p : predictor) :
  fs !! arq = Some (AJson js) →
  colunas_exigidas js = inr dados →
  ∃ serie, _processar_dados dados = inr serie ∧
    ∀ r p', treinar fs arq p = (r, p') →
      match serie with
      | [] => r = inl TypeError ∧ encoders p' = encoders p
      | _ :: _ =>
          ∀ c, c ∈ categoricas →
            match encoders p !! c with
            | None =>
                encoders p' !! c = Some (fit (valores c serie)) ∧
                ∀ v, v ∈ classes_ (fit (valores c serie)) ↔ v ∈ valores c serie
            | Some enc => encoders p' !! c = Some enc
            end
      end.
Proof.
  intros Hfs Hjs.
  destruct (_processar_dados_total dados) as [serie Hserie].
  exists serie. split; [exact Hserie |].
  intros r p' Ht.
  unfold treinar, bind, lift, modify, ret, raise, ler_json in Ht.
  rewrite Hfs in Ht. simpl in Ht. rewrite Hjs in Ht. simpl in Ht.
  rewrite Hserie in Ht. simpl in Ht.
  destruct serie as [|d serie].
  { rewrite _criar_features_serie_vazia in Ht. simpl in Ht.
    by injection Ht as <- <-. }
  intros c Hc.
  destruct (_criar_features_serie (d :: serie)
              (set_historical_df (frame_de (d :: serie)) p))
    as (X & y & p1 & Hcf); [done |].
  rewrite Hcf in Ht. simpl in Ht.
  apply ajustar_e_avaliar_estado in Ht as [Henc _]. rewrite Henc.
  apply _criar_features_encoders in Hcf as [_ Hcf]. specialize (Hcf c Hc).
  rewrite valores_frame in Hcf by done. simpl in Hcf.
  destruct (encoders p !! c) as [enc|]; [done |].
  destruct Hcf as (txt & Htxt & ->).
  assert (txt = valores c (d :: serie)) as ->.
  { rewrite <- list_fmap_compose in Htxt.
    assert (Hinj : ∀ l1 l2 : list string, CStr <$> l1 = CStr <$> l2 → l1 = l2).
    { induction l1 as [|a l1 IH]; intros [|b l2]; try done.
      rewrite !fmap_cons. intros [= -> ?]. f_equal. by apply IH. }
    symmetry. by apply Hinj. }
  split; [done |]. intros v. apply elem_of_np_unique.
Qed.

Local Transparent colunas_exigidas.
Local Transparent ajustar_e_avaliar _criar_features _processar_dados frame_de.

End Treino.

(** ** Prediction *)


Lemma arredonda_clip_nao_negativo (r : Q) : 0 ≤ arredonda_clip r.
Proof. unfold arredonda_clip. lia. Qed.

(** The conversion to int64 keeps a value that fits and gives the least
    int64 otherwise. *)
Lemma astype_int_cabe (z : Z) : - 2 ^ 63 ≤ z < 2 ^ 63 → astype_int z = z.
Proof.
  intros [H1 H2]. unfold astype_int.
  destruct (Z.leb_spec (- 2 ^ 63) z); [|lia].
  destruct (Z.ltb_spec z (2 ^ 63)); [done | lia].
Qed.

Lemma astype_int_nao_cabe (z : Z) : 2 ^ 63 ≤ z → astype_int z = - 2 ^ 63.
Proof.
  intros H. unfold astype_int.
  destruct (Z.ltb_spec z (2 ^ 63)); [lia |]. by rewrite andb_false_r.
Qed.

Lemma astype_int_clip (r : Q) :
  np_round r < 2 ^ 63 →
  astype_int (arredonda_clip r) = Z.max 0 (np_round r) ∧
  0 ≤ astype_int (arredonda_clip r).
Proof.
  intros H. rewrite astype_int_cabe; unfold arredonda_clip; lia.
Qed.

Lemma get_col_columns (n : string) (df : DataFrame) :
  is_Some (get_col n df) → n ∈ columns df.
Proof.
  unfold get_col, columns. induction (colunas df) as [|[m c] l IH]; simpl.
  - by intros [? ?].
  - destruct (String.eqb_spec m n) as [-> | Hne]; [intros _; by left |].
    intros H. right. by apply IH.
Qed.


Section Previsao.

Context `{B : Bibliotecas}.

Local Opaque _criar_features.

Lemma prever_features_inr (df : DataFrame) (p : predictor) (X : DataFrame)
    (p' : predictor) :
  prever_features df p = (inr X, p') →
  ∃ di cm clima Xi y,
    get_col "data_inversa" df = Some di ∧
    get_col "condicao_metereologica" df = Some cm ∧
    mapE aplicar_simplificar cm = inr clima ∧
    _criar_features (frame_de_previsao di clima df) p = (inr (Xi, y), p') ∧
    select (feature_names p) Xi = inr X.
Proof.
  unfold prever_features, bind, lift, gets, ret, raise, col.
  destruct (get_col "data_inversa" df) as [di|]; cbn beta iota; [|discriminate].
  rewrite get_col_set_col_ne by done.
  destruct (get_col "condicao_metereologica" df) as [cm|]; cbn beta iota;
    [|discriminate].
  destruct (mapE aplicar_simplificar cm) as [?|clima] eqn:Hcl; cbn beta iota;
    [discriminate |].
  destruct (_criar_features _ p) as [[?|[Xi y]] p1] eqn:Hcf; cbn beta iota;
    [discriminate |].
  pose proof (_criar_features_so_encoders _ _ _ _ Hcf) as (_ & Hfn & _).
  destruct (select (feature_names p1) Xi) as [?|X'] eqn:Hs; [discriminate |].
  intros [= <- <-]. rewrite Hfn in Hs. exists di, cm, clima, Xi, y.
  by split_and!.
Qed.


(** Whatever the outcome, [prever_features] writes nothing but encoders. *)
Lemma prever_features_so_encoders (df : DataFrame) (p : predictor)
    (r : exn + DataFrame) (p' : predictor) :
  prever_features df p = (r, p') → so_encoders p p'.
Proof.
  unfold prever_features, bind, lift, gets, ret, raise, col.
  destruct (get_col "data_inversa" df) as [di|]; cbn beta iota;
    [|intros [= _ <-]; apply so_encoders_refl].
  destruct (get_col "condicao_metereologica" _) as [cm|]; cbn beta iota;
    [|intros [= _ <-]; apply so_encoders_refl].
  destruct (mapE aplicar_simplificar cm) as [?|clima]; cbn beta iota;
    [intros [= _ <-]; apply so_encoders_refl |].
  destruct (_criar_features _ p) as [[?|[Xi y]] p1] eqn:Hcf; cbn beta iota.
  - intros [= _ <-]. by eapply _criar_features_so_encoders.
  - destruct (select _ Xi); intros [= _ <-]; by eapply _criar_features_so_encoders.
Qed.




(** What the matrix of [prever] holds, when it is built. *)
Lemma prever_features_colunas (p : predictor) (df : DataFrame) :
  ∀ X p', prever_features df p = (inr X, p') →
   columns X = feature_names p ∧ nlinhas X = nlinhas df ∧
   is_Some (get_col "data_inversa" df) ∧
   is_Some (get_col "condicao_metereologica" df) ∧
   is_Some (get_col "hora_media" df) ∧
   (∀ n, n ∈ feature_names p → n ∈ features) ∧
   (get_col "acidentes" df = None →
    ∀ n, n ∈ nomes_historico → n ∈ feature_names p →
         get_col n X = Some (replicate (nlinhas df) czero)) ∧
   (∀ c, c ∈ ["uf"; "municipio"; "tipo_acidente"] → get_col c df = None →
         c +:+ "_enc" ∈ feature_names p →
         get_col (c +:+ "_enc") X = Some (replicate (nlinhas df) czero)).
Proof.
  intros X p' H.
  apply prever_features_inr in H as (di & cm & clima & Xi & y & Hdi & Hcm & Hcl & Hcf & Hs).
  apply _criar_features_colunas in Hcf
    as (HnXi & HcXi & Hhora & (ncs & Hncs & Hac & Hhist) & Hcat).
  apply select_inr in Hs as (HnX & HcX & HX).
  unfold frame_de_previsao in Hhora, Hac, Hcat.
  rewrite !get_col_set_col_ne in Hhora, Hac by done.
  split; [done |]. split; [by rewrite HnX, HnXi |].
  split; [by rewrite Hdi |]. split; [by rewrite Hcm |]. split; [done |].
  split; [|split].
  + intros n Hn. destruct (HX n Hn) as [_ Hsome].
    rewrite <- HcXi. by apply get_col_columns.
  + intros Hnone n Hn Hin. destruct (HX n Hin) as [-> _].
    rewrite Hnone in Hac. subst ncs.
    rewrite (Hhist n (replicate (nlinhas df) czero)).
    * by rewrite fmap_replicate.
    * by apply (list_elem_of_fmap_2 (λ nm, (nm, _))).
  + intros c Hc Hnone Hin. destruct (HX _ Hin) as [-> _].
    apply Hcat.
    * repeat (apply elem_of_cons in Hc as [-> | Hc]; [decide_nomes |]).
      by apply elem_of_nil in Hc.
    * rewrite !get_col_set_col_ne; [done | |];
        repeat (apply elem_of_cons in Hc as [-> | Hc]; [done |]);
        by apply elem_of_nil in Hc.
Qed.




Lemma sem_treino_flag (p : predictor) : sem_treino p → treinado p = false.
Proof.
  induction 1 as [|fs arq p e p' _ IH Ht]; [done |].
  apply treinar_inl in Ht. congruence.
Qed.

Local Opaque prever_features.

Lemma prever_nao_treinado (p : predictor) (df : DataFrame) :
  treinado p = false →
  prever df p = (inl (RuntimeError "O modelo não foi treinado."), p).
Proof. intros Ht. unfold prever, bind, gets. simpl. by rewrite Ht. Qed.

Lemma salvar_nao_treinado (p : predictor) (nome_arq : string)
    (fs : gmap string arquivo) :
  treinado p = false →
  salvar_modelo nome_arq (p, fs)
  = (inl (RuntimeError "Treine o modelo antes de salvar."), (p, fs)).
Proof. intros Ht. unfold salvar_modelo, bind, gets. simpl. by rewrite Ht. Qed.

(** C6.  On a predictor that has not completed a training, [prever] and
    [salvar_modelo] raise their not-trained RuntimeError to the caller, and
    the predictor (and, for [salvar_modelo], the file system) is left as it
    was. *)
Theorem nao_treinado_erro (p : predictor) (df : DataFrame) (nome_arq : string)
    (fs : gmap string arquivo) :
  sem_treino p →
  treinado p = false ∧
  prever df p = (inl (RuntimeError "O modelo não foi treinado."), p) ∧
  salvar_modelo nome_arq (p, fs)
  = (inl (RuntimeError "Treine o modelo antes de salvar."), (p, fs)).
Proof.
  intros Hp%sem_treino_flag. split; [done |].
  split; [by apply prever_nao_treinado | by apply salvar_nao_treinado].
Qed.



End Previsao.

(** ** Loading *)

Section Carga.

Context `{B : Bibliotecas}.

(** C7 (amended).  [load_model] returns no predictor only when the file is
    missing or is not a pickled dict.  On every pickled dict it returns a
    predictor marked trained, with each component taken from the dict when
    its key (or its alternative key) is there and from a default otherwise:
    the new regressor of [__init__], an empty encoder registry, an empty
    feature-name list, no metrics, no history. *)
Theorem load_model_tolerante (fs : gmap string arquivo) (pickle_path : string) :
  match fs !! pickle_path with
  | Some (APickle data) =>
      ∃ p, load_model fs pickle_path = Some p ∧
        treinado p = true ∧
        modelo p = default (default LGBMRegressor (b_model data)) (b_modelo data) ∧
        encoders p = default ∅ (b_encoders data) ∧
        feature_names p
        = default (default [] (b_feature_names data)) (b_features data) ∧
        r2_score_test p = default (default None (b_r2 data)) (b_r2_test data) ∧
        rmse_score_test p = default (default None (b_rmse data)) (b_rmse_test data) ∧
        historical_df p = default None (b_historical_df data)
  | _ => load_model fs pickle_path = None
  end.
Proof.
  unfold load_model. destruct (fs !! pickle_path) as [[dados|data|]|]; try done.
  eexists. split; [reflexivity |]. by repeat split.
Qed.


End Carga.

(** ** Closed examples, on the concrete instance of the libraries *)

Import Casos.

Example treinar_ex :
  (treinar arquivos "datatran_consolidado.json" __init__).1 = inr () ∧
  treinado treinado_ex = true ∧ feature_names treinado_ex = features.
Proof. split_and!; vm_compute; reflexivity. Qed.

(** The example of the specification: counts 3 and 1, classes "Chuva" and
    "Bom", [lag_1] of the second day 3 and its rolling mean over 7 days 3. *)
Example serie_ex :
  match _processar_dados (take 4 dados_treino) with
  | inr serie =>
      d_acidentes <$> serie = [3; 1] ∧ d_clima <$> serie = ["Chuva"; "Bom"] ∧
      match _criar_features (frame_de serie) __init__ with
      | (inr (X, _), _) =>
          get_col "lag_1" X = Some [czero; CNum 3] ∧
          get_col "media_7" X = Some [czero; CNum (3 # 1)]
      | _ => False
      end
  | inl _ => False
  end.
Proof. vm_compute. split_and!; reflexivity. Qed.

Example split_index_ex : (split_index 3, split_index 10) = (2%nat, 7%nat).
Proof. reflexivity. Qed.

(** In double precision [90 * 0.7] is [62.99999999999999]. *)
Example split_index_90 : split_index 90 = 62%nat.
Proof. reflexivity. Qed.

Example np_round_ex :
  (np_round (1 # 2), np_round (3 # 2), np_round (7 # 2), np_round (-5 # 2),
   arredonda_clip (-5 # 2))
  = (0, 2, 4, -2, 0).
Proof. reflexivity. Qed.

Example parse_ex :
  (Exemplo.parse_dmY (CStr "02/01/2023"), Exemplo.parse_dmY (CStr "31/02/2023"),
   Exemplo.parse_hora "23:59:00")
  = (Some (Timestamp 2023 1 2), None, Some 23).
Proof. reflexivity. Qed.

Example calendario_ex :
  (Exemplo.dia_da_semana (Timestamp 2023 1 2), Exemplo.dia_do_ano (Timestamp 2023 1 2),
   Exemplo.semana_iso (Timestamp 2023 1 2), Exemplo.semana_iso (Timestamp 2023 1 1))
  = (0, 2, 1, 52).
Proof. reflexivity. Qed.

Example prever_ex : (prever entrada treinado_ex).1 = inr [2].
Proof. vm_compute. reflexivity. Qed.

(** The example of the specification: an encoder fitted on "PE" and "SP"
    codes "BA" by the sentinel. *)
Example codificar_valor_ex :
  (codificar_valor (fit ["SP"; "PE"; "SP"]) (CStr "PE"),
   codificar_valor (fit ["SP"; "PE"; "SP"]) (CStr "SP"),
   codificar_valor (fit ["SP"; "PE"; "SP"]) (CStr "BA"),
   codificar_valor (fit ["SP"; "PE"; "SP"]) CNaN)
  = (inr 0, inr 1, inr (-1), inr (-1)).
Proof. vm_compute. reflexivity. Qed.




(** C3, as stated, fails: with three days the split keeps two rows for
    training; "BA" occurs only in the held-out row and is in the vocabulary
    of the state encoder after the training. *)
Lemma treinar_vocabulario_teste :
  match _processar_dados dados_treino with
  | inr serie =>
      (treinar arquivos "datatran_consolidado.json" __init__).1 = inr () ∧
      split_index (length serie) = 2%nat ∧
      d_uf <$> take 2 serie = ["PE"; "PE"] ∧
      d_uf <$> drop 2 serie = ["BA"] ∧
      classes_ <$> encoders treinado_ex !! "uf" = Some ["BA"; "PE"]
  | inl _ => False
  end.
Proof. vm_compute. split_and!; reflexivity. Qed.

(** [treinar_vocabulario] at the training file. *)
Lemma treinar_vocabulario_ex :
  arquivos !! "datatran_consolidado.json" = Some (AJson (objeto_de <$> dados_treino)) ∧
  colunas_exigidas (objeto_de <$> dados_treino) = inr dados_treino ∧
  ∃ serie, _processar_dados dados_treino = inr serie ∧
    ∀ r p', treinar arquivos "datatran_consolidado.json" __init__ = (r, p') →
      match serie with
      | [] => r = inl TypeError ∧ encoders p' = encoders __init__
      | _ :: _ =>
          ∀ c, c ∈ categoricas →
            match encoders __init__ !! c with
            | None =>
                encoders p' !! c = Some (fit (valores c serie)) ∧
                ∀ v, v ∈ classes_ (fit (valores c serie)) ↔ v ∈ valores c serie
            | Some enc => encoders p' !! c = Some enc
            end
      end.
Proof.
  assert (Hjs : colunas_exigidas (objeto_de <$> dados_treino) = inr dados_treino)
    by (vm_compute; reflexivity).
  split; [reflexivity |]. split; [exact Hjs |].
  apply (treinar_vocabulario arquivos "datatran_consolidado.json"
           (objeto_de <$> dados_treino) dados_treino); [reflexivity | exact Hjs].
Defined.

(** [codificar_estavel] with the encoder of the specification's example. *)
Lemma codificar_estavel_ex :
  let p := set_encoder "uf" (fit ["PE"; "SP"]) __init__ in
  let vals := [CStr "SP"; CStr "BA"; CStr "PE"] in
  let df := {| nlinhas := 3; colunas := [("uf", vals)] |} in
  encoders p !! "uf" = Some (fit ["PE"; "SP"]) ∧
  get_col "uf" df = Some vals ∧
  ∃ cods,
    let df' := set_col ("uf" +:+ "_enc") (cnum_Z <$> cods) df in
    codificar_coluna df "uf" p = (inr df', p) ∧
    (do a <- codificar_coluna df "uf"; do b <- codificar_coluna df "uf"; ret (a, b)) p
      = (inr (df', df'), p) ∧
    Forall2 (λ x z,
      (em_classes (fit ["PE"; "SP"]) x = true →
         ∃ s i, x = CStr s ∧ classes_ (fit ["PE"; "SP"]) !! i = Some s ∧
                z = Z.of_nat i) ∧
      (em_classes (fit ["PE"; "SP"]) x = false → z = -1)) vals cods.
Proof.
  intros p vals df. split; [reflexivity |]. split; [reflexivity |].
  apply (codificar_estavel p "uf" (fit ["PE"; "SP"]) df vals); reflexivity.
Defined.


(** The conversion of line 189 at the edge of int64: a raw output of 2^63 is
    not a non-negative prediction. *)
Example astype_int_ex :
  (astype_int (arredonda_clip (inject_Z (2 ^ 63 - 1))),
   astype_int (arredonda_clip (inject_Z (2 ^ 63))),
   astype_int (arredonda_clip (-1)))
  = (2 ^ 63 - 1, - 2 ^ 63, 0).
Proof. vm_compute. reflexivity. Qed.

(** [nao_treinado_erro] on a new predictor. *)
Lemma nao_treinado_erro_ex :
  sem_treino __init__ ∧
  treinado __init__ = false ∧
  prever entrada __init__ = (inl (RuntimeError "O modelo não foi treinado."), __init__) ∧
  salvar_modelo "modelo_acidentes.pkl" (__init__, arquivos)
  = (inl (RuntimeError "Treine o modelo antes de salvar."), (__init__, arquivos)).
Proof.
  split; [apply sem_treino_novo |].
  apply (nao_treinado_erro __init__ entrada "modelo_acidentes.pkl" arquivos).
  apply sem_treino_novo.
Defined.

(** A call of [treinar] on a missing file raises and leaves the predictor
    untrained. *)
Example treinar_arquivo_ausente :
  treinar arquivos "outro.json" __init__ = (inl FileNotFoundError, __init__).
Proof. reflexivity. Qed.

(** C7, as stated, fails: the pickled dict has no encoders, and [load_model]
    returns a predictor marked trained with an empty registry; [prever] then
    runs on it, fitting a state encoder on the prediction row itself. *)
Lemma load_model_parcial :
  b_encoders blob_sem_encoders = None ∧
  match load_model arquivos_parcial "modelo_acidentes.pkl" with
  | Some p =>
      treinado p = true ∧ encoders p = ∅ ∧
      (prever entrada p).1 = inr [4] ∧
      classes_ <$> encoders (prever entrada p).2 !! "uf" = Some ["PE"]
  | None => False
  end.
Proof. split; [reflexivity |]. vm_compute. split_and!; reflexivity. Qed.

(** C9, as stated, fails: in the group of 02/01/2023 the states "SP" and
    "PE" tie and so do the accident types; the first-encountered values are
    "SP" and "Tombamento", the aggregation keeps "PE" and
    "Colisão traseira". *)
Lemma moda_nao_e_primeira :
  match agregar dados_empate with
  | inr [a] =>
      l_uf <$> grupo (a_data a) (omap preparar dados_empate) = ["SP"; "PE"] ∧
      primeira_moda ["SP"; "PE"] = Some "SP" ∧
      a_uf a = "PE" ∧
      primeira_moda ["Tombamento"; "Colisão traseira"] = Some "Tombamento" ∧
      a_tipo_acidente a = "Colisão traseira"
  | _ => False
  end.
Proof. vm_compute. split_and!; reflexivity. Qed.

(** * Further properties of the predictor *)

(** ** Label encoders: codes and labels *)

Lemma indice_Some (s : string) (cs : list string) (i : nat) :
  indice s cs = Some i → cs !! i = Some s.
Proof.
  revert i. induction cs as [|c cs IH]; intros i; simpl; [done|].
  destruct (decide (c = s)) as [->|Hne].
  - by intros [= <-].
  - destruct (indice s cs) as [j|] eqn:Hj; simpl; [|done].
    intros [= <-]. simpl. by apply IH.
Qed.

Lemma StronglySorted_lookup {A} (R : relation A) (l : list A) (i j : nat) (a b : A) :
  StronglySorted R l → l !! i = Some a → l !! j = Some b → (i < j)%nat → R a b.
Proof.
  intros Hs. revert i j. induction Hs as [|x l Hs IH Hx]; intros i j; [done|].
  destruct i as [|i], j as [|j]; simpl; try lia.
  - intros [= <-] Hb _. rewrite Forall_forall in Hx. apply Hx.
    by eapply list_elem_of_lookup_2.
  - intros Ha Hb Hij. apply (IH i j); [done..|lia].
Qed.

(** X1.  Round trip of a fitted encoder.  For every list of training values
    and every text [s]: if [s] is one of the fitted values, [transform]
    returns its position [i] in [classes_], the guarded lambda of line 97
    returns the same code, [classes_[i]] is [s] again (the code decodes to
    the label), no other text gets the code [i], and the codes follow the
    order of text ([z ≤ z'] exactly when [s ≤ s']).  If [s] was not fitted,
    [transform] raises ValueError and the guarded lambda returns -1. *)
Theorem fit_transform (vals : list string) (s : string) :
  match transform (fit vals) (CStr s) with
  | inr z =>
      s ∈ vals ∧ codificar_valor (fit vals) (CStr s) = inr z ∧
      ∃ i : nat, z = Z.of_nat i ∧ (i < length (classes_ (fit vals)))%nat ∧
        classes_ (fit vals) !! i = Some s ∧
        (∀ s', transform (fit vals) (CStr s') = inr z → s' = s) ∧
        (∀ s' z', transform (fit vals) (CStr s') = inr z' →
                  z ≤ z' ↔ String.le s s')
  | inl e => (s ∉ vals) ∧ e = ValueError ∧
             codificar_valor (fit vals) (CStr s) = inr (-1)
  end.
Proof.
  unfold codificar_valor, transform, em_classes. simpl.
  destruct (indice s (np_unique vals)) as [i|] eqn:Hi.
  - pose proof (indice_Some _ _ _ Hi) as Hl.
    assert (Hin : s ∈ np_unique vals) by by eapply list_elem_of_lookup_2.
    split; [by apply elem_of_np_unique|].
    split; [by rewrite bool_decide_eq_true_2|].
    exists i. split; [done|]. split; [by eapply lookup_lt_Some|]. split; [done|].
    split.
    + intros s'. destruct (indice s' (np_unique vals)) as [j|] eqn:Hj; [|done].
      intros [= Hij]. apply Nat2Z.inj in Hij as ->.
      apply indice_Some in Hj. congruence.
    + intros s' z'. destruct (indice s' (np_unique vals)) as [j|] eqn:Hj; [|done].
      intros [= <-]. apply indice_Some in Hj.
      pose proof (np_unique_sorted vals) as Hs.
      pose proof (np_unique_NoDup vals) as Hn.
      split.
      * intros Hle. destruct (decide (i = j)) as [->|Hne].
        -- assert (s = s') as -> by congruence. reflexivity.
        -- apply (StronglySorted_lookup _ _ i j _ _ Hs Hl Hj). lia.
      * intros Hle. destruct (decide (i ≤ j)%nat) as [|Hgt]; [lia|].
        assert (String.le s' s)
          by (apply (StronglySorted_lookup _ _ j i _ _ Hs Hj Hl); lia).
        assert (s = s') as -> by by apply (anti_symm String.le).
        pose proof (NoDup_lookup _ _ _ _ Hn Hl Hj). lia.
  - apply indice_None in Hi.
    split; [by rewrite <- elem_of_np_unique|]. split; [done|].
    by rewrite bool_decide_eq_false_2.
Qed.

(** X2.  A fitted encoder depends only on the set of the training values:
    two training columns with the same values, in any order and with any
    repetitions, give the same encoder, hence the same code for every cell. *)
Theorem fit_conjunto (vals1 vals2 : list string) :
  (∀ x, x ∈ vals1 ↔ x ∈ vals2) →
  fit vals1 = fit vals2 ∧
  ∀ x, codificar_valor (fit vals1) x = codificar_valor (fit vals2) x.
Proof.
  intros Heq.
  assert (Hf : fit vals1 = fit vals2).
  { unfold fit. f_equal.
    apply (StronglySorted_unique String.le);
      [apply np_unique_sorted..|].
    apply NoDup_Permutation; [apply np_unique_NoDup..|].
    intros x. by rewrite !elem_of_np_unique. }
  split; [done|]. intros x. by rewrite Hf.
Qed.

(** [fit_conjunto] on a column with a repeated state and its sorted values. *)
Lemma fit_conjunto_ex :
  (∀ x, x ∈ ["SP"; "PE"; "SP"; "BA"] ↔ x ∈ ["BA"; "PE"; "SP"]) ∧
  fit ["SP"; "PE"; "SP"; "BA"] = fit ["BA"; "PE"; "SP"] ∧
  ∀ x, codificar_valor (fit ["SP"; "PE"; "SP"; "BA"]) x
       = codificar_valor (fit ["BA"; "PE"; "SP"]) x.
Proof.
  assert (H : ∀ x, x ∈ ["SP"; "PE"; "SP"; "BA"] ↔ x ∈ ["BA"; "PE"; "SP"]).
  { intros x. rewrite !elem_of_cons, !elem_of_nil. tauto. }
  split; [exact H|]. exact (fit_conjunto _ _ H).
Defined.

(** ** The daily series of [_processar_dados] *)

Global Instance ts_le_transitive : Transitive ts_le.
Proof. intros [] [] []; unfold ts_le; simpl; lia. Qed.

Global Instance ts_le_total : Total ts_le.
Proof. intros [] []; unfold ts_le; simpl; lia. Qed.

Global Instance ts_le_anti_symm : AntiSymm (=) ts_le.
Proof.
  intros [y1 m1 d1] [y2 m2 d2]; unfold ts_le; simpl; intros H1 H2.
  f_equal; lia.
Qed.

Global Instance dia_le_transitive : Transitive dia_le.
Proof. intros a b c. unfold dia_le. apply ts_le_transitive. Qed.

Global Instance dia_le_total : Total dia_le.
Proof. intros a b. unfold dia_le. apply ts_le_total. Qed.

(** The sizes of the groups of a list, over its distinct keys, add up to its
    length. *)
Lemma length_filter_fora {K} `{EqDecision K} (c : K) (ks : list K) :
  c ∉ ks → length (filter (λ k, c = k) ks) = 0%nat.
Proof.
  induction ks as [|k ks IH]; [done|].
  rewrite not_elem_of_cons, filter_cons. intros [? ?].
  rewrite decide_False by done. auto.
Qed.

Lemma length_filter_NoDup {K} `{EqDecision K} (c : K) (ks : list K) :
  NoDup ks → c ∈ ks → length (filter (λ k, c = k) ks) = 1%nat.
Proof.
  induction 1 as [|k ks Hk Hnd IH]; [by rewrite elem_of_nil|].
  rewrite elem_of_cons, filter_cons. intros [->|Hin].
  - rewrite decide_True by done. simpl. by rewrite length_filter_fora.
  - rewrite decide_False by (intros ->; done). auto.
Qed.

Lemma soma_grupos {A K} `{EqDecision K} (chave : A → K) (ks : list K) (l : list A) :
  NoDup ks → (∀ x, x ∈ l → chave x ∈ ks) →
  foldr Z.add 0 ((λ k, Z.of_nat (length (filter (λ x, chave x = k) l))) <$> ks)
  = Z.of_nat (length l).
Proof.
  intros Hnd. induction l as [|x l IH]; intros Hl.
  - clear. induction ks as [|k ks IHk]; [done|].
    cbn [fmap list_fmap foldr]. by rewrite IHk.
  - assert (Hpasso : ∀ ks',
      foldr Z.add 0
        ((λ k, Z.of_nat (length (filter (λ y, chave y = k) (x :: l)))) <$> ks')
      = foldr Z.add 0
          ((λ k, Z.of_nat (length (filter (λ y, chave y = k) l))) <$> ks')
        + Z.of_nat (length (filter (λ k, chave x = k) ks'))).
    { induction ks' as [|k ks' IHk]; [done|].
      cbn [fmap list_fmap foldr]. rewrite IHk, !filter_cons.
      destruct (decide (chave x = k)); simpl; lia. }
    rewrite Hpasso, IH, length_filter_NoDup; [simpl; lia|done| |].
    + apply Hl. left.
    + intros y Hy. apply Hl. by right.
Qed.

Lemma filter_todos {A} (P : A → Prop) `{∀ x, Decision (P x)} (l : list A) :
  (∀ x, x ∈ l → P x) → filter P l = l.
Proof.
  induction l as [|x l IH]; [done|]. intros Hl.
  rewrite filter_cons, decide_True by (apply Hl; left).
  f_equal. apply IH. intros y Hy. apply Hl. by right.
Qed.

Lemma foldr_add_Permutation (l1 l2 : list Z) :
  l1 ≡ₚ l2 → foldr Z.add 0 l1 = foldr Z.add 0 l2.
Proof. induction 1; simpl; lia. Qed.

Section Serie.

Context `{B : Bibliotecas}.

Lemma preparar_ano (r : registro) (l : linha) :
  preparar r = Some l →
  to_datetime_dmY (celula (data_inversa r)) = Some (l_data l) ∧
  2019 ≤ year (l_data l) ∧ l_data_inversa l = data_inversa r.
Proof.
  unfold preparar.
  destruct (to_datetime_dmY _) as [d|]; simpl; [|done].
  destruct (decide (2019 ≤ year d)); [|done].
  destruct (horario r) as [h|]; simpl; [|done].
  destruct (uf r); simpl; [|done].
  destruct (municipio r); simpl; [|done].
  destruct (tipo_acidente r); simpl; [|done].
  destruct (condicao_metereologica r); simpl; [|done].
  destruct (to_datetime_hora h); simpl; [|done].
  by intros [= <-].
Qed.

Lemma _processar_dados_agregar (dados : list registro) :
  ∃ agg serie, agregar dados = inr agg ∧ _processar_dados dados = inr serie ∧
    serie ≡ₚ finalizar <$> agg ∧
    StronglySorted dia_le serie ∧
    a_data <$> agg = chaves (omap preparar dados) ∧
    Forall (λ a, let g := grupo (a_data a) (omap preparar dados) in
                 g ≠ [] ∧ agregar_grupo (a_data a) g = inr a) agg.
Proof.
  destruct (agregar_total dados) as (agg & Hagg & Hk & Hall).
  exists agg, (merge_sort dia_le (finalizar <$> agg)).
  split; [done|]. split; [unfold _processar_dados; by rewrite Hagg|].
  split; [apply merge_sort_Permutation|].
  split; [apply (StronglySorted_merge_sort dia_le)|].
  by split.
Qed.

Lemma chaves_Permutation (ls : list linha) :
  chaves ls ≡ₚ remove_dups (l_data <$> ls).
Proof. apply merge_sort_Permutation. Qed.

Lemma StronglySorted_d_data (serie : list dia) :
  StronglySorted dia_le serie → StronglySorted ts_le (d_data <$> serie).
Proof.
  induction 1 as [|x l Hso IH Hx]; simpl; constructor; [done|].
  rewrite Forall_fmap. exact Hx.
Qed.

(** X3.  On the rows of a frame that has the six columns read by lines 44-48
    (a JSON list in which each of the six keys occurs in some object gives
    one; the others stop at the KeyError of [colunas_exigidas]), the series
    of [_processar_dados] is returned and has one row per calendar day: its
    dates are in ascending order and pairwise distinct, they are exactly the
    parsed dates of the records that survive the cleaning of lines 44-47,
    and none is before 2019.  It has no row when no record survives. *)
Theorem processar_dados_dias (dados : list registro) :
  ∃ serie, _processar_dados dados = inr serie ∧
    StronglySorted ts_le (d_data <$> serie) ∧
    NoDup (d_data <$> serie) ∧
    (∀ d, d ∈ d_data <$> serie ↔
          ∃ r l, r ∈ dados ∧ preparar r = Some l ∧ l_data l = d) ∧
    Forall (λ x, 2019 ≤ year (d_data x)) serie ∧
    (serie = [] ↔ omap preparar dados = []).
Proof.
  destruct (_processar_dados_agregar dados)
    as (agg & serie & _ & Hs & Hp & Hso & Hk & _).
  exists serie. split; [done|].
  assert (Hdatas : d_data <$> serie ≡ₚ remove_dups (l_data <$> omap preparar dados)).
  { rewrite Hp, <- list_fmap_compose.
    change (d_data ∘ finalizar) with a_data.
    rewrite Hk. apply chaves_Permutation. }
  assert (Hmem : ∀ d, d ∈ d_data <$> serie ↔
            ∃ r l, r ∈ dados ∧ preparar r = Some l ∧ l_data l = d).
  { intros d. rewrite Hdatas, elem_of_remove_dups, list_elem_of_fmap. split.
    - intros (l & -> & Hl). apply list_elem_of_omap in Hl as (r & Hr & Hl).
      by exists r, l.
    - intros (r & l & Hr & Hl & <-). exists l. split; [done|].
      apply list_elem_of_omap. by exists r. }
  split; [|split; [|split; [done|split]]].
  - by apply StronglySorted_d_data.
  - rewrite Hdatas. apply NoDup_remove_dups.
  - rewrite Forall_forall. intros x Hx.
    destruct (proj1 (Hmem (d_data x))) as (r & l & _ & Hl & <-).
    { apply list_elem_of_fmap. by exists x. }
    by apply preparar_ano in Hl as (_ & ? & _).
  - split.
    + intros ->. destruct (omap preparar dados) as [|l ls] eqn:Hls; [done|].
      assert (Hin : l_data l ∈ d_data <$> []).
      { apply Hmem. assert (Hl : l ∈ omap preparar dados) by (rewrite Hls; left).
        apply list_elem_of_omap in Hl as (r & Hr & Hl). by exists r, l. }
      by apply elem_of_nil in Hin.
    + intros Hls. destruct serie as [|x serie]; [done|].
      destruct (proj1 (Hmem (d_data x))) as (r & l & Hr & Hl & _); [left|].
      assert (Hin : l ∈ omap preparar dados)
        by (apply list_elem_of_omap; by exists r).
      rewrite Hls in Hin. by apply elem_of_nil in Hin.
Qed.

(** X4.  The daily counts lose and invent nothing.  When the date parser
    gives NaT on a missing date, the count of every day of the series is the
    number of surviving records of that day, it is at least 1, and the
    counts of the series add up to the number of surviving records. *)
Theorem processar_dados_contagem (dados : list registro) :
  to_datetime_dmY CNaN = None →
  ∃ serie, _processar_dados dados = inr serie ∧
    (∀ x, x ∈ serie →
       1 ≤ d_acidentes x ∧
       d_acidentes x
       = Z.of_nat (length (filter (λ l, l_data l = d_data x) (omap preparar dados)))) ∧
    foldr Z.add 0 (d_acidentes <$> serie) = Z.of_nat (length (omap preparar dados)).
Proof.
  intros Hnan.
  destruct (_processar_dados_agregar dados)
    as (agg & serie & _ & Hs & Hp & _ & Hk & Hall).
  exists serie. split; [done|].
  set (ls := omap preparar dados) in *.
  assert (Hsome : ∀ l, l ∈ ls → is_Some (l_data_inversa l)).
  { intros l Hl. apply list_elem_of_omap in Hl as (r & _ & Hl).
    apply preparar_ano in Hl as (Hd & _ & ->).
    destruct (data_inversa r); [done|]. simpl in Hd. congruence. }
  assert (Hcount : ∀ a, a ∈ agg →
            grupo (a_data a) ls ≠ [] ∧
            a_acidentes a = Z.of_nat (length (grupo (a_data a) ls))).
  { intros a Ha. rewrite Forall_forall in Hall.
    destruct (Hall a Ha) as [Hne Hag]. split; [done|].
    unfold agregar_grupo in Hag.
    destruct (moda0 (l_uf <$> _)); simpl in Hag; [done|].
    destruct (moda0 (l_municipio <$> _)); simpl in Hag; [done|].
    destruct (moda0 (l_tipo_acidente <$> _)); simpl in Hag; [done|].
    destruct (moda0 (l_condicao <$> _)); simpl in Hag; [done|].
    injection Hag as <-. simpl. do 2 f_equal.
    apply filter_todos. intros l Hl. apply Hsome.
    unfold grupo in Hl. by apply list_elem_of_filter in Hl as [_ ?]. }
  split.
  - intros x Hx. rewrite Hp in Hx. apply list_elem_of_fmap in Hx as (a & -> & Ha).
    destruct (Hcount a Ha) as [Hne Hc]. simpl. rewrite Hc. split; [|done].
    destruct (grupo (a_data a) ls); [done|]. simpl. lia.
  - rewrite (foldr_add_Permutation _ (d_acidentes <$> (finalizar <$> agg)))
      by by rewrite Hp.
    rewrite <- list_fmap_compose.
    assert (Heq : d_acidentes ∘ finalizar <$> agg
              = (λ k, Z.of_nat (length (filter (λ l, l_data l = k) ls)))
                  <$> (a_data <$> agg)).
    { rewrite <- list_fmap_compose. apply list_fmap_ext.
      intros i a Hia. simpl. apply Hcount. by eapply list_elem_of_lookup_2. }
    rewrite Heq, Hk.
    rewrite (foldr_add_Permutation _
      ((λ k, Z.of_nat (length (filter (λ l, l_data l = k) ls)))
         <$> remove_dups (l_data <$> ls)))
      by (apply fmap_Permutation, chaves_Permutation).
    apply soma_grupos; [apply NoDup_remove_dups|].
    intros l Hl. apply elem_of_remove_dups, list_elem_of_fmap. by exists l.
Qed.

End Serie.

(** [processar_dados_contagem] on the five records of the training file. *)
Lemma processar_dados_contagem_ex :
  to_datetime_dmY CNaN = None ∧
  ∃ serie, _processar_dados dados_treino = inr serie ∧
    (∀ x, x ∈ serie →
       1 ≤ d_acidentes x ∧
       d_acidentes x
       = Z.of_nat (length (filter (λ l, l_data l = d_data x)
                             (omap preparar dados_treino)))) ∧
    foldr Z.add 0 (d_acidentes <$> serie)
    = Z.of_nat (length (omap preparar dados_treino)).
Proof.
  split; [reflexivity|].
  apply (processar_dados_contagem dados_treino). reflexivity.
Defined.

(** ** The chronological split of [treinar] *)

(** The rounding to 53 bits moves a product by at most half a unit in the
    last place, and that half unit is at most [a / 2^53]. *)
Lemma arredonda53_perto (a : Z) :
  0 < a →
  ∃ e, 0 ≤ e ∧ e * 2 ^ 53 ≤ a ∧ a - e ≤ arredonda53 a ≤ a + e.
Proof.
  intros Ha. unfold arredonda53.
  destruct (Z.leb_spec (Z.log2 a + 1) 53) as [Hb|Hb].
  { exists 0. lia. }
  set (sh := Z.log2 a + 1 - 53).
  assert (Hsh : 1 ≤ sh) by (unfold sh; lia).
  exists (2 ^ (sh - 1)).
  assert (He : 0 < 2 ^ (sh - 1)) by (apply Z.pow_pos_nonneg; lia).
  assert (H2e : 2 ^ sh = 2 * 2 ^ (sh - 1)).
  { replace sh with (Z.succ (sh - 1)) at 1 by lia. apply Z.pow_succ_r. lia. }
  assert (Hlog : 2 ^ (sh - 1) * 2 ^ 53 ≤ a).
  { rewrite <- Z.pow_add_r by lia.
    replace (sh - 1 + 53) with (Z.log2 a) by (unfold sh; lia).
    apply Z.log2_spec. lia. }
  split; [lia|]. split; [exact Hlog|].
  rewrite Z.shiftr_div_pow2, !Z.shiftl_mul_pow2 by lia.
  rewrite Z.mul_1_l, H2e.
  set (e := 2 ^ (sh - 1)) in *.
  pose proof (Z.div_mod a (2 * e) ltac:(lia)) as Hdm.
  pose proof (Z.mod_pos_bound a (2 * e) ltac:(lia)) as Hm.
  set (q := a / (2 * e)) in *. set (r := a mod (2 * e)) in *.
  assert (Hr : a - q * (2 * e) = r) by lia. rewrite Hr.
  destruct (Z.ltb_spec r e); [lia|].
  destruct (Z.ltb_spec e r); [lia|].
  destruct (Z.even q); lia.
Qed.

Lemma split_index_Z (n : nat) :
  Z.of_nat (split_index n) = arredonda53 (Z.of_nat n * mantissa_07) / 2 ^ 53.
Proof.
  unfold split_index. rewrite Z.shiftr_div_pow2 by lia.
  rewrite Z2Nat.id; [done|].
  apply Z.div_pos; [|lia].
  destruct n as [|n]; [done|].
  destruct (arredonda53_perto (Z.of_nat (S n) * mantissa_07)) as (e & ? & ? & ? & ?);
    unfold mantissa_07 in *; lia.
Qed.

Lemma split_index_perto (n : nat) :
  Z.of_nat n < 2 ^ 50 →
  7 * Z.of_nat n / 10 - 1 ≤ Z.of_nat (split_index n) ≤ 7 * Z.of_nat n / 10 ∧
  (2 ≤ n → 1 ≤ split_index n)%nat ∧ (split_index n ≤ n)%nat ∧
  (1 ≤ n → split_index n < n)%nat.
Proof.
  intros Hn.
  destruct (decide (n = 0%nat)) as [->|Hpos].
  { vm_compute. repeat split; try lia; by intros [=]. }
  pose proof (split_index_Z n) as Hs.
  destruct (arredonda53_perto (Z.of_nat n * mantissa_07)) as (e & He0 & He & Hlo & Hhi).
  { unfold mantissa_07. lia. }
  revert Hs. generalize (split_index n). intros s Hs.
  set (r := arredonda53 (Z.of_nat n * mantissa_07)) in *.
  unfold mantissa_07 in *.
  pose proof (Z.div_mod (7 * Z.of_nat n) 10 ltac:(lia)) as Hdm.
  pose proof (Z.mod_pos_bound (7 * Z.of_nat n) 10 ltac:(lia)) as Hm.
  set (q := 7 * Z.of_nat n / 10) in *.
  assert (H253 : 2 ^ 53 = 9007199254740992) by reflexivity.
  assert (H250 : 2 ^ 50 = 1125899906842624) by reflexivity.
  rewrite H253 in *. rewrite H250 in Hn.
  assert (Hs1 : q - 1 ≤ r / 9007199254740992)
    by (apply Z.div_le_lower_bound; lia).
  assert (Hs2 : r / 9007199254740992 < q + 1)
    by (apply Z.div_lt_upper_bound; lia).
  split; [lia|]. split; [|lia]. intros H2.
  assert (1 ≤ r / 9007199254740992) by (apply Z.div_le_lower_bound; lia).
  lia.
Qed.

(** X5.  The 70/30 split of line 127, [int(len(X) * 0.7)] in double
    precision, on a matrix of [n] rows ([n] below 2^50): the training slice
    has [⌊7n/10⌋] rows or one row fewer, the two slices are the first [k]
    and the remaining [n - k] rows, the test slice is never empty when there
    is a row, and the training slice is not empty when there are two. *)
Theorem split_index_limites (X : DataFrame) :
  Z.of_nat (nlinhas X) < 2 ^ 50 →
  let n := nlinhas X in
  let k := split_index n in
  7 * Z.of_nat n / 10 - 1 ≤ Z.of_nat k ≤ 7 * Z.of_nat n / 10 ∧
  (2 ≤ n → 1 ≤ k)%nat ∧ (1 ≤ n → k < n)%nat ∧
  nlinhas (iloc_ate k X) = k ∧
  (nlinhas (iloc_ate k X) + nlinhas (iloc_desde k X) = n)%nat.
Proof.
  intros Hn n k.
  destruct (split_index_perto _ Hn) as (Hk & H1 & Hle & Hlt).
  fold n in Hk, H1, Hle, Hlt. fold k in Hk, H1, Hle, Hlt.
  unfold iloc_ate, iloc_desde. cbn [nlinhas]. fold n.
  clearbody k. clearbody n.
  split; [exact Hk|]. split; [exact H1|]. split; [exact Hlt|]. lia.
Qed.

(** [split_index_limites] on 90 rows, where the double product is just below
    63 and the training slice has 62 rows. *)
Lemma split_index_limites_ex :
  let X := {| nlinhas := 90; colunas := [] |} in
  Z.of_nat (nlinhas X) < 2 ^ 50 ∧
  7 * 90 / 10 - 1 ≤ Z.of_nat (split_index 90) ≤ 7 * 90 / 10 ∧
  (2 ≤ 90 → 1 ≤ split_index 90)%nat ∧ (1 ≤ 90 → split_index 90 < 90)%nat ∧
  nlinhas (iloc_ate (split_index 90) X) = split_index 90 ∧
  (nlinhas (iloc_ate (split_index 90) X) + nlinhas (iloc_desde (split_index 90) X)
   = 90)%nat.
Proof.
  intros X. assert (H : Z.of_nat (nlinhas X) < 2 ^ 50) by (vm_compute; reflexivity).
  split; [exact H|]. exact (split_index_limites X H).
Defined.

(** ** The outcome of a training *)

Section Resultado.

Context `{B : Bibliotecas}.

Local Opaque split_index iloc_ate iloc_desde pos_processa take drop.

(** What a successful fit and evaluation leave in the predictor. *)
Lemma ajustar_e_avaliar_inr (X : DataFrame) (y : option column)
    (p p' : predictor) :
  ajustar_e_avaliar X y p = (inr (), p') →
  let k := split_index (nlinhas X) in
  ∃ yv r_train r_test r2tr msetr r2te msete,
    y = Some yv ∧
    lgbm_fit (modelo p) (iloc_ate k X) (take k yv) = inr (modelo p') ∧
    lgbm_predict (modelo p') (iloc_ate k X) = inr r_train ∧
    lgbm_predict (modelo p') (iloc_desde k X) = inr r_test ∧
    r2_score (take k yv) (pos_processa r_train) = inr r2tr ∧
    mean_squared_error (take k yv) (pos_processa r_train) = inr msetr ∧
    r2_score (drop k yv) (pos_processa r_test) = inr r2te ∧
    mean_squared_error (drop k yv) (pos_processa r_test) = inr msete ∧
    r2_score_train p' = Some r2tr ∧
    rmse_score_train p' = Some (CNum (np_sqrt msetr)) ∧
    r2_score_test p' = Some r2te ∧
    rmse_score_test p' = Some (CNum (np_sqrt msete)) ∧
    historical_df p' = historical_df p ∧ best_params p' = best_params p.
Proof.
  unfold ajustar_e_avaliar, bind, modify, lift, gets, ret, raise.
  destruct y as [y|]; [|by intros [=]].
  cbn beta iota.
  destruct (lgbm_fit _ _ _) as [?|m'] eqn:H1; [by intros [=] |].
  cbn beta iota.
  destruct (lgbm_predict m' (iloc_ate _ _)) as [?|r1] eqn:H2; [by intros [=] |].
  cbn beta iota.
  destruct (lgbm_predict m' (iloc_desde _ _)) as [?|r2] eqn:H3; [by intros [=] |].
  cbn beta iota.
  destruct (r2_score (take _ _) _) as [?|a1] eqn:H4; [by intros [=] |].
  cbn beta iota.
  destruct (mean_squared_error (take _ _) _) as [?|a2] eqn:H5; [by intros [=] |].
  cbn beta iota.
  destruct (r2_score (drop _ _) _) as [?|a3] eqn:H6; [by intros [=] |].
  cbn beta iota.
  destruct (mean_squared_error (drop _ _) _) as [?|a4] eqn:H7; [by intros [=] |].
  cbn beta iota.
  intros Hp. injection Hp as Hp. subst p'. cbn.
  by exists y, r1, r2, a1, a2, a3, a4.
Qed.

(** A fit or an evaluation that raises has already replaced the feature
    names; it keeps the history. *)
Lemma ajustar_e_avaliar_inl (X : DataFrame) (y : option column)
    (p : predictor) (e : exn) (p' : predictor) :
  ajustar_e_avaliar X y p = (inl e, p') →
  feature_names p' = columns X ∧ historical_df p' = historical_df p.
Proof.
  unfold ajustar_e_avaliar, bind, modify, lift, gets, ret, raise.
  destruct y as [y|]; [|by intros [= _ <-]].
  cbn beta iota.
  destruct (lgbm_fit _ _ _) as [?|m']; [by intros [= _ <-] |].
  cbn beta iota.
  destruct (lgbm_predict m' (iloc_ate _ _)) as [?|r1]; [by intros [= _ <-] |].
  cbn beta iota.
  destruct (lgbm_predict m' (iloc_desde _ _)) as [?|r2]; [by intros [= _ <-] |].
  cbn beta iota.
  destruct (r2_score _ _) as [?|a1]; [by intros [= _ <-] |].
  cbn beta iota.
  destruct (mean_squared_error _ _) as [?|a2]; [by intros [= _ <-] |].
  cbn beta iota.
  destruct (r2_score _ _) as [?|a3]; [by intros [= _ <-] |].
  cbn beta iota.
  destruct (mean_squared_error _ _) as [?|a4]; [by intros [= _ <-] |].
  cbn beta iota.
  by intros [=].
Qed.

Local Opaque categoricas features.

(** The labels [_criar_features] returns for the daily series are its
    counts. *)
Lemma _criar_features_rotulos (serie : list dia) (p : predictor)
    (X : DataFrame) (y : option column) (p' : predictor) :
  _criar_features (frame_de serie) p = (inr (X, y), p') →
  y = Some (CNum <$> contagens serie).
Proof.
  intros H. apply _criar_features_inr in H
    as (datas & ds & ncs & df4 & _ & _ & Hncs & _ & Hf & _ & ->).
  destruct categoricas_ok as (Hc1 & Hc2 & Hc3).
  apply codificar_todas_inr in Hf as (_ & Hcols & _ & _); [|done..].
  destruct nomes_disjuntos as (_ & _ & Hdo & _). rewrite Forall_forall in Hdo.
  destruct (Hdo "acidentes") as (Hcc & Hch & Hce); [left|].
  rewrite Hcols by exact Hce.
  rewrite get_col_antes, frame_de_acidentes by done. simpl.
  f_equal. rewrite <- list_fmap_compose. by apply list_fmap_ext.
Qed.

(** After [_criar_features] on the daily series every categorical field has
    its encoder. *)
Lemma _criar_features_registro (serie : list dia) (p : predictor)
    (X : DataFrame) (y : option column) (p' : predictor) :
  _criar_features (frame_de serie) p = (inr (X, y), p') →
  ∀ c, c ∈ categoricas → is_Some (encoders p' !! c).
Proof.
  intros H c Hc.
  apply _criar_features_encoders in H as [_ H]. specialize (H c Hc).
  rewrite valores_frame in H by done.
  destruct (encoders p !! c) as [enc|] eqn:He.
  - rewrite H. by eexists.
  - destruct H as (txt & _ & ->). by eexists.
Qed.

Lemma nlinhas_frame_de (serie : list dia) : nlinhas (frame_de serie) = length serie.
Proof. done. Qed.

Local Opaque ajustar_e_avaliar _criar_features _processar_dados frame_de.
Local Opaque colunas_exigidas.

(** The stages of a call of [treinar] that reads its file and finds the six
    columns. *)
Lemma treinar_estagios (fs : gmap string arquivo) (arq : string)
    (js : list objeto) (dados : list registro) (p : predictor)
    (r : exn + unit) (p' : predictor) :
  ler_json fs arq = inr js →
  colunas_exigidas js = inr dados →
  treinar fs arq p = (r, p') →
  ∃ serie,
    _processar_dados dados = inr serie ∧
    match serie with
    | [] => r = inl TypeError ∧ p' = set_historical_df (frame_de []) p
    | _ :: _ =>
        ∃ X p1,
          _criar_features (frame_de serie) (set_historical_df (frame_de serie) p)
          = (inr (X, Some (CNum <$> contagens serie)), p1) ∧
          ajustar_e_avaliar X (Some (CNum <$> contagens serie)) p1 = (r, p') ∧
          nlinhas X = length serie ∧ columns X = features ∧
          modelo p1 = modelo p ∧
          historical_df p1 = Some (frame_de serie) ∧
          (∀ c, c ∈ categoricas → is_Some (encoders p1 !! c))
    end.
Proof.
  intros Hfs Hjs. unfold treinar, bind, lift, modify, ret, raise.
  rewrite Hfs. simpl. rewrite Hjs. simpl.
  destruct (_processar_dados_total dados) as [serie Hs]. rewrite Hs. simpl.
  intros Ha. exists serie. split; [done|].
  destruct serie as [|d serie].
  { rewrite _criar_features_serie_vazia in Ha. simpl in Ha.
    by injection Ha as <- <-. }
  destruct (_criar_features_serie (d :: serie)
              (set_historical_df (frame_de (d :: serie)) p))
    as (X & y & p1 & Hcf); [done|].
  rewrite Hcf in Ha. simpl in Ha.
  pose proof (_criar_features_rotulos _ _ _ _ _ Hcf) as ->.
  pose proof (_criar_features_registro _ _ _ _ _ Hcf) as Hreg.
  pose proof (_criar_features_colunas _ _ _ _ _ Hcf) as (Hn & Hcols & _).
  pose proof (_criar_features_so_encoders _ _ _ _ Hcf)
    as (Hm & _ & _ & _ & _ & _ & _ & _ & Hh).
  exists X, p1.
  split; [done|]. split; [done|].
  split; [by rewrite Hn, nlinhas_frame_de|]. by repeat split.
Qed.

(** A call of [treinar] that returns has read a list with the six keys and
    found at least one day. *)
Lemma treinar_retorna (fs : gmap string arquivo) (arq : string)
    (p p' : predictor) :
  treinar fs arq p = (inr (), p') →
  ∃ js dados d serie X p1,
    ler_json fs arq = inr js ∧ colunas_exigidas js = inr dados ∧
    _processar_dados dados = inr (d :: serie) ∧
    _criar_features (frame_de (d :: serie))
      (set_historical_df (frame_de (d :: serie)) p)
    = (inr (X, Some (CNum <$> contagens (d :: serie))), p1) ∧
    ajustar_e_avaliar X (Some (CNum <$> contagens (d :: serie))) p1 = (inr (), p') ∧
    nlinhas X = length (d :: serie) ∧ columns X = features ∧
    modelo p1 = modelo p ∧
    historical_df p1 = Some (frame_de (d :: serie)) ∧
    (∀ c, c ∈ categoricas → is_Some (encoders p1 !! c)).
Proof.
  intros Ht.
  destruct (ler_json fs arq) as [e|js] eqn:Hfs.
  { unfold treinar, bind, lift, raise in Ht. rewrite Hfs in Ht. discriminate. }
  destruct (colunas_exigidas js) as [e|dados] eqn:Hjs.
  { unfold treinar, bind, lift, raise in Ht. rewrite Hfs in Ht. simpl in Ht.
    rewrite Hjs in Ht. discriminate. }
  destruct (treinar_estagios _ _ _ _ _ _ _ Hfs Hjs Ht) as (serie & Hs & H).
  destruct serie as [|d serie]; [by destruct H|].
  destruct H as (X & p1 & H). by exists js, dados, d, serie, X, p1.
Qed.

Lemma ler_json_inr (fs : gmap string arquivo) (arq : string) (js : list objeto) :
  ler_json fs arq = inr js ↔ fs !! arq = Some (AJson js).
Proof.
  unfold ler_json. destruct (fs !! arq) as [[| |]|]; split; intros; by simplify_eq.
Qed.

Local Transparent colunas_exigidas.

(** The six columns are there exactly when each key occurs in some object. *)
Lemma colunas_exigidas_inr (js : list objeto) (dados : list registro) :
  colunas_exigidas js = inr dados ↔
  dados = linha_de <$> js ∧
  ∀ k, k ∈ ["data_inversa"; "horario"; "uf"; "municipio"; "tipo_acidente";
            "condicao_metereologica"] → tem_coluna k js = true.
Proof.
  unfold colunas_exigidas.
  destruct (tem_coluna "data_inversa" js) eqn:H0.
  2:{ split; [done|]. intros [_ H]. rewrite H in H0; [done|]. left. }
  destruct (filter _ _) as [|k0 faltam] eqn:Hf.
  - split; [|by intros [-> _]]. intros [= <-]. split; [done|].
    intros k [->|Hk]%elem_of_cons; [done|].
    destruct (tem_coluna k js) eqn:Hk'; [done|].
    assert (Hin : k ∈ filter (λ k, tem_coluna k js = false)
                    ["horario"; "uf"; "municipio"; "tipo_acidente";
                     "condicao_metereologica"])
      by (by apply list_elem_of_filter).
    rewrite Hf in Hin. by apply elem_of_nil in Hin.
  - split; [done|]. intros [_ H].
    assert (Hin : k0 ∈ filter (λ k, tem_coluna k js = false)
                    ["horario"; "uf"; "municipio"; "tipo_acidente";
                     "condicao_metereologica"])
      by (rewrite Hf; left).
    apply list_elem_of_filter in Hin as [Hk0 Hin].
    rewrite H in Hk0; [done|]. by right.
Qed.

(** The JSON list without objects has no column. *)
Lemma colunas_exigidas_vazio : colunas_exigidas [] = inl (KeyError "data_inversa").
Proof. reflexivity. Qed.

Local Opaque colunas_exigidas.

(** X6.  What a call of [treinar] that returns on a JSON list of objects has
    done.  Each of the six keys occurs in some object and at least one record
    survives the cleaning; the history kept in the predictor is the
    aggregated daily series; the feature names are the 27 features in their
    fixed order; the four categorical fields have their encoders; the
    regressor was fitted on the first [split_index] rows only, the earliest
    days, against their daily counts; the four metrics compare the rounded,
    clipped predictions with the daily counts of the training rows and of
    the held-out rows; the flag is set. *)
Theorem treinar_sucesso (fs : gmap string arquivo) (arq : string)
    (js : list objeto) (p p' : predictor) :
  fs !! arq = Some (AJson js) →
  treinar fs arq p = (inr (), p') →
  ∃ serie X p1,
    (∀ k, k ∈ ["data_inversa"; "horario"; "uf"; "municipio"; "tipo_acidente";
               "condicao_metereologica"] → tem_coluna k js = true) ∧
    _processar_dados (linha_de <$> js) = inr serie ∧
    serie ≠ [] ∧
    _criar_features (frame_de serie) (set_historical_df (frame_de serie) p)
    = (inr (X, Some (CNum <$> contagens serie)), p1) ∧
    treinado p' = true ∧
    feature_names p' = features ∧
    historical_df p' = Some (frame_de serie) ∧
    encoders p' = encoders p1 ∧
    (∀ c, c ∈ categoricas → is_Some (encoders p' !! c)) ∧
    let k := split_index (length serie) in
    let y := CNum <$> contagens serie in
    lgbm_fit (modelo p) (iloc_ate k X) (take k y) = inr (modelo p') ∧
    ∃ r_train r_test r2tr msetr r2te msete,
      lgbm_predict (modelo p') (iloc_ate k X) = inr r_train ∧
      lgbm_predict (modelo p') (iloc_desde k X) = inr r_test ∧
      r2_score (take k y) (pos_processa r_train) = inr r2tr ∧
      mean_squared_error (take k y) (pos_processa r_train) = inr msetr ∧
      r2_score (drop k y) (pos_processa r_test) = inr r2te ∧
      mean_squared_error (drop k y) (pos_processa r_test) = inr msete ∧
      r2_score_train p' = Some r2tr ∧
      rmse_score_train p' = Some (CNum (np_sqrt msetr)) ∧
      r2_score_test p' = Some r2te ∧
      rmse_score_test p' = Some (CNum (np_sqrt msete)).
Proof.
  intros Hfs Ht.
  destruct (treinar_retorna _ _ _ _ Ht)
    as (js' & dados & d & serie & X & p1 & Hfs' & Hjs & Hs & Hcf & Ha & Hn
        & Hcols & Hm & Hh & Hreg).
  apply ler_json_inr in Hfs'. rewrite Hfs in Hfs'. injection Hfs' as <-.
  apply colunas_exigidas_inr in Hjs as [-> Hk].
  pose proof (ajustar_e_avaliar_estado _ _ _ _ _ Ha) as (He & Htr & Hf).
  apply ajustar_e_avaliar_inr in Ha
    as (yv & r1 & r2 & a1 & a2 & a3 & a4 & [= <-] & H1 & H2 & H3 & H4 & H5
        & H6 & H7 & H8 & H9 & H10 & H11 & H12 & _).
  rewrite Hn, Hm in *.
  exists (d :: serie), X, p1.
  split; [done|]. split; [done|]. split; [done|]. split; [done|]. split; [done|].
  split; [by rewrite Hf|]. split; [by rewrite H12|]. split; [done|].
  split; [intros c Hc; rewrite He; by apply Hreg|].
  split; [exact H1|].
  by exists r1, r2, a1, a2, a3, a4.
Qed.

(** X7.  What a call of [treinar] that raises has done.  It never changes
    the flag, and by the file it was given: a missing file, or one that is
    not JSON, leaves the predictor exactly as it was; so does a JSON list in
    which one of the six keys occurs in no object (the empty list is one),
    with the KeyError of lines 44-45; a list with the six keys of which no
    record survives the cleaning ends in the TypeError of line 71, the
    history replaced by the empty series, the feature names and the encoders
    as they were; and on a list with at least one surviving record the
    aggregation and the feature construction succeed, the raise comes from
    the fit or the evaluation, and by then the history, the feature names
    and the encoders have been replaced. *)
Theorem treinar_falha (fs : gmap string arquivo) (arq : string)
    (p : predictor) (e : exn) (p' : predictor) :
  treinar fs arq p = (inl e, p') →
  treinado p' = treinado p ∧
  match fs !! arq with
  | None => e = FileNotFoundError ∧ p' = p
  | Some (AJson js) =>
      match colunas_exigidas js with
      | inl e' =>
          e = e' ∧ p' = p ∧
          ∃ k, k ∈ ["data_inversa"; "horario"; "uf"; "municipio";
                    "tipo_acidente"; "condicao_metereologica"] ∧
               tem_coluna k js = false
      | inr dados =>
          ∃ serie, _processar_dados dados = inr serie ∧
            match serie with
            | [] =>
                e = TypeError ∧ p' = set_historical_df (frame_de []) p
            | _ :: _ =>
                ∃ X p1,
                  _criar_features (frame_de serie)
                    (set_historical_df (frame_de serie) p)
                  = (inr (X, Some (CNum <$> contagens serie)), p1) ∧
                  ajustar_e_avaliar X (Some (CNum <$> contagens serie)) p1
                  = (inl e, p') ∧
                  historical_df p' = Some (frame_de serie) ∧
                  feature_names p' = features ∧
                  (∀ c, c ∈ categoricas → is_Some (encoders p' !! c))
            end
      end
  | Some _ => e = ValueError ∧ p' = p
  end.
Proof.
  intros Ht. split; [by eapply treinar_inl|].
  destruct (ler_json fs arq) as [e0|js] eqn:Hfs.
  { unfold treinar, bind, lift, raise in Ht. rewrite Hfs in Ht.
    injection Ht as <- <-. unfold ler_json in Hfs.
    destruct (fs !! arq) as [[| |]|]; by simplify_eq. }
  apply ler_json_inr in Hfs as Hfs'. rewrite Hfs'.
  destruct (colunas_exigidas js) as [e0|dados] eqn:Hjs.
  { unfold treinar, bind, lift, raise in Ht. rewrite Hfs in Ht. simpl in Ht.
    rewrite Hjs in Ht. injection Ht as <- <-. split; [done|]. split; [done|].
    destruct (decide (Forall (λ k, tem_coluna k js = true)
                ["data_inversa"; "horario"; "uf"; "municipio";
                 "tipo_acidente"; "condicao_metereologica"])) as [Hall|Hall].
    - rewrite Forall_forall in Hall.
      assert (Hok : colunas_exigidas js = inr (linha_de <$> js))
        by (by apply colunas_exigidas_inr).
      congruence.
    - apply not_Forall_Exists in Hall; [|apply _].
      apply Exists_exists in Hall as (k & Hk & Hf). exists k. split; [done|].
      cbn [compose] in Hf. by destruct (tem_coluna k js). }
  destruct (treinar_estagios _ _ _ _ _ _ _ Hfs Hjs Ht) as (serie & Hs & H).
  exists serie. split; [done|].
  destruct serie as [|d serie]; [by destruct H as [[= <-] ->]|].
  destruct H as (X & p1 & Hcf & Ha & Hn & Hcols & Hm & Hh & Hreg).
  pose proof (ajustar_e_avaliar_estado _ _ _ _ _ Ha) as (He & _).
  pose proof (ajustar_e_avaliar_inl _ _ _ _ _ Ha) as (Hf & Hh').
  exists X, p1.
  split; [done|]. split; [done|]. split; [by rewrite Hh'|].
  split; [by rewrite Hf|].
  intros c Hc. rewrite He. by apply Hreg.
Qed.

Local Transparent colunas_exigidas.
Local Transparent ajustar_e_avaliar _criar_features _processar_dados frame_de.
Local Transparent categoricas features.
Local Transparent split_index iloc_ate iloc_desde pos_processa take drop.

End Resultado.

(** [treinar_sucesso] on the training file of the examples. *)
Lemma treinar_sucesso_ex :
  arquivos !! "datatran_consolidado.json" = Some (AJson (objeto_de <$> dados_treino)) ∧
  treinar arquivos "datatran_consolidado.json" __init__ = (inr (), treinado_ex) ∧
  treinado treinado_ex = true ∧
  feature_names treinado_ex = features ∧
  ∀ c, c ∈ categoricas → is_Some (encoders treinado_ex !! c).
Proof.
  assert (H0 : arquivos !! "datatran_consolidado.json"
               = Some (AJson (objeto_de <$> dados_treino))) by reflexivity.
  assert (H1 : (treinar arquivos "datatran_consolidado.json" __init__).1 = inr ())
    by (vm_compute; reflexivity).
  assert (H : treinar arquivos "datatran_consolidado.json" __init__
              = (inr (), treinado_ex))
    by (rewrite <- H1; apply surjective_pairing).
  split; [exact H0|]. split; [exact H|].
  destruct (treinar_sucesso arquivos "datatran_consolidado.json" _ __init__
              treinado_ex H0 H)
    as (serie & X & p1 & _ & _ & _ & _ & Ht & Hf & _ & _ & Hreg & _).
  split; [exact Ht|]. split; [exact Hf | exact Hreg].
Defined.

(** [treinar_falha] on a file whose only record is of 2018: the history is
    replaced, the feature names and the registry are not. *)
Lemma treinar_falha_ex :
  let r := treinar arquivos_antigos "antigos.json" __init__ in
  r = (inl TypeError, r.2) ∧
  treinado r.2 = treinado __init__ ∧
  historical_df r.2 = Some (frame_de []) ∧
  feature_names r.2 = [] ∧ encoders r.2 = ∅.
Proof.
  intros r.
  assert (H1 : r.1 = inl TypeError) by (vm_compute; reflexivity).
  assert (H : r = (inl TypeError, r.2))
    by (rewrite <- H1; apply surjective_pairing).
  split; [exact H|]. split.
  - exact (proj1 (treinar_falha arquivos_antigos "antigos.json" __init__ TypeError
                    _ H)).
  - split; [vm_compute; reflexivity|]. split; vm_compute; reflexivity.
Defined.

(** The JSON list without objects, and a list in which no object has the
    key "uf". *)
Example treinar_sem_colunas :
  let sem_uf : objeto := {[ "data_inversa" := Some "02/01/2023";
                            "horario" := Some "10:00:00";
                            "municipio" := Some "RECIFE" ]} in
  (treinar {[ "vazio.json" := AJson [] ]} "vazio.json" __init__).1
  = inl (KeyError "data_inversa") ∧
  (treinar {[ "sem_uf.json" := AJson [sem_uf] ]} "sem_uf.json" __init__).1
  = inl (KeyError "['uf', 'tipo_acidente', 'condicao_metereologica']").
Proof. split; vm_compute; reflexivity. Qed.

(** ** The registry during a prediction *)

Section RegistroPrevisao.

Context `{B : Bibliotecas}.

(** A turn of the encoding loop whose field has its encoder writes nothing. *)
Lemma codificar_coluna_registrado (df : DataFrame) (c : string) (p : predictor)
    (r : exn + DataFrame) (p' : predictor) :
  is_Some (encoders p !! c) → codificar_coluna df c p = (r, p') → p' = p.
Proof.
  intros [enc He]. destruct r as [e|df']; intros H.
  - by apply codificar_coluna_inl in H.
  - apply codificar_coluna_inr in H as (col' & _ & H).
    destruct (get_col c df); [|by destruct H].
    rewrite He in H. by destruct H.
Qed.

Lemma foldM_registrado (cs : list string) (df : DataFrame) (p : predictor)
    (r : exn + DataFrame) (p' : predictor) :
  (∀ c, c ∈ cs → is_Some (encoders p !! c)) →
  foldM codificar_coluna df cs p = (r, p') → p' = p.
Proof.
  revert df. induction cs as [|c cs IH]; intros df Hcs; simpl.
  - by intros [= _ <-].
  - unfold bind. destruct (codificar_coluna df c p) as [[e|df1] p1] eqn:H1.
    + intros [= _ <-]. eapply codificar_coluna_registrado; [|done].
      apply Hcs. left.
    + apply codificar_coluna_registrado in H1 as ->; [|apply Hcs; left].
      apply IH. intros c' Hc'. apply Hcs. by right.
Qed.

Local Opaque categoricas features.

Lemma _criar_features_registrado (df : DataFrame) (p : predictor)
    (r : exn + (DataFrame * option column)) (p' : predictor) :
  (∀ c, c ∈ categoricas → is_Some (encoders p !! c)) →
  _criar_features df p = (r, p') → p' = p.
Proof.
  intros Hreg.
  unfold _criar_features, bind, lift, col, ret, raise.
  destruct (get_col "data" df) as [datas|]; simpl; [|by intros [= _ <-]].
  destruct (datas_validas datas) as [e|ds]; simpl; [by intros [= _ <-] |].
  destruct (com_linhas ds) as [e|[]]; simpl; [by intros [= _ <-] |].
  destruct (historico (calendario ds df)) as [e|df2]; simpl; [by intros [= _ <-] |].
  destruct (foldM codificar_coluna (fillna0 df2) categoricas p)
    as [[e|df4] p4] eqn:Hf; simpl.
  - intros [= _ <-]. by eapply foldM_registrado.
  - destruct (select features df4); simpl; intros [= _ <-];
      by eapply foldM_registrado.
Qed.

Local Transparent categoricas features.
Local Opaque _criar_features.

Lemma prever_features_registrado (df : DataFrame) (p : predictor)
    (r : exn + DataFrame) (p' : predictor) :
  (∀ c, c ∈ categoricas → is_Some (encoders p !! c)) →
  prever_features df p = (r, p') → p' = p.
Proof.
  intros Hreg.
  unfold prever_features, bind, lift, gets, ret, raise, col.
  destruct (get_col "data_inversa" df) as [di|]; cbn beta iota;
    [|by intros [= _ <-]].
  destruct (get_col "condicao_metereologica" _) as [cm|]; cbn beta iota;
    [|by intros [= _ <-]].
  destruct (mapE aplicar_simplificar cm) as [?|clima]; cbn beta iota;
    [by intros [= _ <-] |].
  destruct (_criar_features _ p) as [[?|[Xi y]] p1] eqn:Hcf; cbn beta iota.
  - intros [= _ <-]. by eapply _criar_features_registrado.
  - destruct (select _ Xi); intros [= _ <-]; by eapply _criar_features_registrado.
Qed.

Local Opaque prever_features.

(** When [prever] returns, the state is the one [prever_features] left. *)
Lemma prever_inr (df : DataFrame) (p : predictor) (ys : list Z) (p' : predictor) :
  prever df p = (inr ys, p') →
  treinado p = true ∧
  ∃ X brutos, prever_features df p = (inr X, p') ∧
    lgbm_predict (modelo p') X = inr brutos ∧
    ys = astype_int ∘ arredonda_clip <$> brutos.
Proof.
  unfold prever, bind, gets, lift, ret, raise. cbn beta iota.
  destruct (treinado p); cbn [negb]; [|discriminate].
  destruct (prever_features df p) as [[?|X] p1] eqn:Hpf; cbn beta iota;
    [discriminate|].
  destruct (lgbm_predict (modelo p1) X) as [?|brutos] eqn:Hpred; cbn beta iota;
    [discriminate|].
  intros [= <- <-]. split; [done|]. by exists X, brutos.
Qed.

(** X8.  [prever] is read-only on a predictor whose registry holds the four
    categorical encoders (as after every training that reached the fit):
    whether it returns or raises, the predictor is left exactly as it was. *)
Theorem prever_nao_altera (p : predictor) (df : DataFrame)
    (r : exn + list Z) (p' : predictor) :
  (∀ c, c ∈ categoricas → is_Some (encoders p !! c)) →
  prever df p = (r, p') → p' = p.
Proof.
  intros Hreg.
  unfold prever, bind, gets, lift, ret, raise. cbn beta iota.
  destruct (treinado p); cbn [negb]; [|by intros [= _ <-]].
  destruct (prever_features df p) as [[?|X] p1] eqn:Hpf; cbn beta iota.
  - intros [= _ <-]. by eapply prever_features_registrado.
  - apply prever_features_registrado in Hpf as ->; [|done].
    destruct (lgbm_predict (modelo p) X); by intros [= _ <-].
Qed.

Local Transparent prever_features _criar_features.

Lemma aplicar_simplificar_textos (cm clima : column) :
  mapE aplicar_simplificar cm = inr clima →
  ∃ txt, cm = CStr <$> txt ∧ clima = CStr <$> (Preditor._simplificar_clima <$> txt).
Proof.
  revert clima. induction cm as [|c cm IH]; intros clima; simpl.
  - intros [= <-]. by exists [].
  - destruct c as [|s| |]; simpl; try discriminate.
    destruct (mapE aplicar_simplificar cm) as [|cl]; simpl; [discriminate|].
    intros [= <-]. destruct (IH cl eq_refl) as (txt & -> & ->).
    by exists (s :: txt).
Qed.

Lemma fillna0_CStr (txt : list string) :
  fillna0_cell <$> (CStr <$> txt) = CStr <$> txt.
Proof. rewrite <- list_fmap_compose. by apply list_fmap_ext. Qed.

Lemma CStr_inj (l1 l2 : list string) : CStr <$> l1 = CStr <$> l2 → l1 = l2.
Proof.
  revert l2. induction l1 as [|a l1 IH]; intros [|b l2]; try done.
  rewrite !fmap_cons. intros [= -> ?]. f_equal. by apply IH.
Qed.

Local Opaque _criar_features.

Lemma prever_features_encoders (p : predictor) (df : DataFrame)
    (X : DataFrame) (p' : predictor) :
  prever_features df p = (inr X, p') →
  (∀ c, is_Some (encoders p !! c) → encoders p' !! c = encoders p !! c) ∧
  (∀ c vals, c ∈ ["uf"; "municipio"; "tipo_acidente"] →
     encoders p !! c = None → get_col c df = Some vals →
     ∃ txt, fillna0_cell <$> vals = CStr <$> txt ∧
            encoders p' !! c = Some (fit txt)) ∧
  (encoders p !! "clima" = None →
     ∃ txt, get_col "condicao_metereologica" df = Some (CStr <$> txt) ∧
            encoders p' !! "clima"
            = Some (fit (Preditor._simplificar_clima <$> txt))).
Proof.
  intros H. apply prever_features_inr in H
    as (di & cm & clima & Xi & y & Hdi & Hcm & Hcl & Hcf & _).
  apply _criar_features_encoders in Hcf as [Hout Hin].
  split; [|split].
  - intros c [enc He]. destruct (decide (c ∈ categoricas)) as [Hc|Hc].
    + specialize (Hin c Hc). rewrite He in Hin |- *.
      by destruct (get_col c (frame_de_previsao di clima df)).
    + by apply Hout.
  - intros c vals Hc He Hv.
    assert (Hcat : c ∈ categoricas).
    { rewrite !elem_of_cons in Hc. unfold categoricas. rewrite !elem_of_cons. tauto. }
    specialize (Hin c Hcat). rewrite He in Hin.
    assert (Hg : get_col c (frame_de_previsao di clima df) = Some vals).
    { unfold frame_de_previsao. rewrite !get_col_set_col_ne; [done|..];
        intros <-; rewrite !elem_of_cons, elem_of_nil in Hc;
        by destruct Hc as [|[|[|]]]. }
    by rewrite Hg in Hin.
  - intros He.
    apply aplicar_simplificar_textos in Hcl as (txt & -> & ->).
    exists txt. split; [done|].
    assert (Hcat : "clima" ∈ categoricas)
      by (unfold categoricas; rewrite !elem_of_cons; tauto).
    specialize (Hin "clima" Hcat). rewrite He in Hin.
    unfold frame_de_previsao in Hin. rewrite get_col_set_col_eq in Hin.
    destruct Hin as (txt' & Ht & ->). rewrite fillna0_CStr in Ht.
    apply CStr_inj in Ht as <-. done.
Qed.

Local Transparent _criar_features.

(** X9.  [prever] trains encoders on the rows it is asked to predict.  When
    it returns on a predictor whose registry lacks the encoder of a
    categorical field (a predictor loaded from a pickle without encoders),
    the registry afterwards holds, for a state, city or type column of text,
    an encoder fitted on the values of the input frame itself, and for the
    weather an encoder fitted on the normalized values of the input column,
    which is text whenever [prever] returns; the encoders that were
    registered are kept. *)
Theorem prever_ajusta_encoders (p : predictor) (df : DataFrame)
    (ys : list Z) (p' : predictor) :
  prever df p = (inr ys, p') →
  (∀ c, is_Some (encoders p !! c) → encoders p' !! c = encoders p !! c) ∧
  (∀ c txt, c ∈ ["uf"; "municipio"; "tipo_acidente"] →
     encoders p !! c = None → get_col c df = Some (CStr <$> txt) →
     encoders p' !! c = Some (fit txt)) ∧
  (encoders p !! "clima" = None →
     ∃ txt, get_col "condicao_metereologica" df = Some (CStr <$> txt) ∧
            encoders p' !! "clima"
            = Some (fit (Preditor._simplificar_clima <$> txt))).
Proof.
  intros H. apply prever_inr in H as (_ & X & brutos & H & _).
  apply prever_features_encoders in H as (H1 & H2 & H3).
  split; [exact H1|]. split; [|exact H3].
  intros c txt Hc He Hv.
  destruct (H2 c _ Hc He Hv) as (txt' & Ht & ->).
  rewrite fillna0_CStr in Ht. by apply CStr_inj in Ht as <-.
Qed.

(** ** Predictors that agree on what [prever] reads *)

Lemma codificar_coluna_nucleo (df : DataFrame) (c : string) (p q : predictor)
    (r : exn + DataFrame) (p' : predictor) :
  mesmo_nucleo p q → codificar_coluna df c p = (r, p') →
  ∃ q', codificar_coluna df c q = (r, q') ∧ mesmo_nucleo p' q'.
Proof.
  intros (Hm & He & Hf & Ht).
  unfold codificar_coluna.
  destruct (get_col c df) as [vals|].
  2:{ intros [= <- <-]. eexists. split; [reflexivity|]. by repeat split. }
  unfold bind, gets, lift, modify, ret, raise. cbn beta iota. rewrite He.
  destruct (encoders p !! c) as [enc|].
  - destruct (mapE (codificar_valor enc) vals); cbn beta iota;
      intros [= <- <-]; (eexists; split; [reflexivity|]); by repeat split.
  - destruct (textos vals) as [|txt]; cbn beta iota.
    { intros [= <- <-]. eexists; split; [reflexivity|]. by repeat split. }
    destruct (mapE (transform (fit txt)) vals); cbn beta iota;
      intros [= <- <-]; (eexists; split; [reflexivity|]).
    + by repeat split.
    + repeat split; simpl; congruence.
Qed.

Lemma foldM_nucleo (cs : list string) (df : DataFrame) (p q : predictor)
    (r : exn + DataFrame) (p' : predictor) :
  mesmo_nucleo p q → foldM codificar_coluna df cs p = (r, p') →
  ∃ q', foldM codificar_coluna df cs q = (r, q') ∧ mesmo_nucleo p' q'.
Proof.
  revert df p q. induction cs as [|c cs IH]; intros df p q HR; simpl.
  - intros [= <- <-]. by exists q.
  - unfold bind. destruct (codificar_coluna df c p) as [[e|df1] p1] eqn:H1;
      destruct (codificar_coluna_nucleo _ _ _ _ _ _ HR H1) as (q1 & -> & HR1).
    + intros [= <- <-]. by exists q1.
    + by apply IH.
Qed.

Local Opaque categoricas features.

Lemma _criar_features_nucleo (df : DataFrame) (p q : predictor)
    (r : exn + (DataFrame * option column)) (p' : predictor) :
  mesmo_nucleo p q → _criar_features df p = (r, p') →
  ∃ q', _criar_features df q = (r, q') ∧ mesmo_nucleo p' q'.
Proof.
  intros HR.
  unfold _criar_features, bind, lift, col, ret, raise.
  destruct (get_col "data" df) as [datas|]; simpl;
    [|intros [= <- <-]; by exists q].
  destruct (datas_validas datas) as [e|ds]; simpl;
    [intros [= <- <-]; by exists q |].
  destruct (com_linhas ds) as [e|[]]; simpl;
    [intros [= <- <-]; by exists q |].
  destruct (historico (calendario ds df)) as [e|df2]; simpl;
    [intros [= <- <-]; by exists q |].
  destruct (foldM codificar_coluna (fillna0 df2) categoricas p)
    as [[e|df4] p4] eqn:Hf;
    destruct (foldM_nucleo _ _ _ _ _ _ HR Hf) as (q4 & -> & HR4); simpl.
  - intros [= <- <-]. by exists q4.
  - destruct (select features df4); simpl; intros [= <- <-]; by exists q4.
Qed.

Local Transparent categoricas features.
Local Opaque _criar_features.

Lemma prever_features_nucleo (df : DataFrame) (p q : predictor)
    (r : exn + DataFrame) (p' : predictor) :
  mesmo_nucleo p q → prever_features df p = (r, p') →
  ∃ q', prever_features df q = (r, q') ∧ mesmo_nucleo p' q'.
Proof.
  intros HR.
  unfold prever_features, bind, lift, gets, ret, raise, col.
  destruct (get_col "data_inversa" df) as [di|]; cbn beta iota;
    [|intros [= <- <-]; by exists q].
  destruct (get_col "condicao_metereologica" _) as [cm|]; cbn beta iota;
    [|intros [= <- <-]; by exists q].
  destruct (mapE aplicar_simplificar cm) as [?|clima]; cbn beta iota;
    [intros [= <- <-]; by exists q |].
  destruct (_criar_features _ p) as [[?|[Xi y]] p1] eqn:Hcf;
    destruct (_criar_features_nucleo _ _ _ _ _ HR Hcf) as (q1 & -> & HR1);
    cbn beta iota.
  - intros [= <- <-]. by exists q1.
  - destruct HR1 as (Hm & He & Hf & Ht). rewrite Hf.
    destruct (select _ Xi); intros [= <- <-]; by exists q1.
Qed.

Local Opaque prever_features.

Lemma prever_nucleo (df : DataFrame) (p q : predictor)
    (r : exn + list Z) (p' : predictor) :
  mesmo_nucleo p q → prever df p = (r, p') →
  ∃ q', prever df q = (r, q') ∧ mesmo_nucleo p' q'.
Proof.
  intros HR.
  unfold prever, bind, gets, lift, ret, raise. cbn beta iota.
  pose proof HR as (Hm & He & Hf & Ht). rewrite Ht.
  destruct (treinado p) eqn:Htp; cbn [negb];
    [|intros [= <- <-]; by exists q].
  destruct (prever_features df p) as [[?|X] p1] eqn:Hpf;
    destruct (prever_features_nucleo df p q _ _ HR Hpf)
      as (q1 & -> & HR1); cbn beta iota.
  - intros [= <- <-]. by exists q1.
  - destruct HR1 as (Hm1 & He1 & Hf1 & Ht1). rewrite Hm1.
    destruct (lgbm_predict (modelo p1) X); intros [= <- <-];
      exists q1; by repeat split.
Qed.

Local Transparent prever_features _criar_features.

(** X10.  Saving and loading give back a predictor that predicts the same.
    [salvar_modelo] on a trained predictor writes one file and leaves the
    predictor as it was; [load_model] on that file returns a predictor with
    the same regressor, registry, feature names, test metrics and history,
    marked trained, without the training metrics; and on every input frame
    [prever] on the loaded predictor returns or raises exactly what it does
    on the saved one, the two predictors agreeing afterwards as before. *)
Theorem salvar_carregar_prever (p : predictor) (nome_arq : string)
    (fs : gmap string arquivo) :
  treinado p = true →
  ∃ fs' q,
    salvar_modelo nome_arq (p, fs) = (inr (), (p, fs')) ∧
    fs' = <[nome_arq := APickle (blob_de p)]> fs ∧
    load_model fs' nome_arq = Some q ∧
    mesmo_nucleo p q ∧
    r2_score_test q = r2_score_test p ∧ rmse_score_test q = rmse_score_test p ∧
    historical_df q = historical_df p ∧
    r2_score_train q = None ∧ rmse_score_train q = None ∧ best_params q = [] ∧
    ∀ df r p', prever df p = (r, p') →
      ∃ q', prever df q = (r, q') ∧ mesmo_nucleo p' q'.
Proof.
  intros Ht.
  exists (<[nome_arq := APickle (blob_de p)]> fs).
  eexists. split.
  { unfold salvar_modelo, bind, gets, modify. simpl. by rewrite Ht. }
  split; [done|]. split.
  { unfold load_model. rewrite lookup_insert_eq. reflexivity. }
  assert (HR : mesmo_nucleo p
    {| modelo := dict_get (b_modelo (blob_de p))
                   (dict_get (b_model (blob_de p)) (modelo __init__));
       encoders := dict_get (b_encoders (blob_de p)) ∅;
       feature_names := dict_get (b_features (blob_de p))
                          (dict_get (b_feature_names (blob_de p)) []);
       treinado := true;
       best_params := dict_get (b_params (blob_de p))
                        (dict_get (b_best_params (blob_de p)) []);
       r2_score_train := r2_score_train __init__;
       rmse_score_train := rmse_score_train __init__;
       r2_score_test := dict_get (b_r2_test (blob_de p))
                          (dict_get (b_r2 (blob_de p)) None);
       rmse_score_test := dict_get (b_rmse_test (blob_de p))
                            (dict_get (b_rmse (blob_de p)) None);
       historical_df := dict_get (b_historical_df (blob_de p)) None |}).
  { by repeat split. }
  split; [exact HR|]. repeat (split; [done|]).
  intros df r p'. by apply prever_nucleo.
Qed.

End RegistroPrevisao.

(** [prever_nao_altera] on the trained predictor of the examples. *)
Lemma prever_nao_altera_ex :
  (∀ c, c ∈ categoricas → is_Some (encoders treinado_ex !! c)) ∧
  (prever entrada treinado_ex).2 = treinado_ex.
Proof.
  assert (He : Forall (λ c, is_Some (encoders treinado_ex !! c)) categoricas)
    by decide_nomes.
  rewrite Forall_forall in He. split; [exact He|].
  apply (prever_nao_altera treinado_ex entrada (prever entrada treinado_ex).1 _ He).
  apply surjective_pairing.
Defined.

(** [prever_ajusta_encoders] on the predictor loaded from the pickle without
    encoders: after one prediction the registry holds a state encoder fitted
    on the prediction row. *)
Lemma prever_ajusta_encoders_ex :
  let p := {| modelo := Some (7 # 2)%Q; encoders := ∅; feature_names := features;
              treinado := true; best_params := [];
              r2_score_train := None; rmse_score_train := None;
              r2_score_test := None; rmse_score_test := None;
              historical_df := None |} in
  load_model arquivos_parcial "modelo_acidentes.pkl" = Some p ∧
  prever entrada p = (inr [4], (prever entrada p).2) ∧
  encoders (prever entrada p).2 !! "uf" = Some (fit ["PE"]).
Proof.
  intros p. split; [reflexivity|].
  assert (H1 : (prever entrada p).1 = inr [4]) by (vm_compute; reflexivity).
  assert (H : prever entrada p = (inr [4], (prever entrada p).2))
    by (rewrite <- H1; apply surjective_pairing).
  split; [exact H|].
  destruct (prever_ajusta_encoders p entrada [4] _ H) as (_ & Huf & _).
  apply (Huf "uf" ["PE"]); [|reflexivity..].
  rewrite !elem_of_cons. tauto.
Defined.

(** [salvar_carregar_prever] on the trained predictor of the examples. *)
Lemma salvar_carregar_prever_ex :
  treinado treinado_ex = true ∧
  ∃ fs' q,
    salvar_modelo "modelo_acidentes.pkl" (treinado_ex, arquivos)
    = (inr (), (treinado_ex, fs')) ∧
    load_model fs' "modelo_acidentes.pkl" = Some q ∧
    mesmo_nucleo treinado_ex q ∧
    ∀ df r p', prever df treinado_ex = (r, p') →
      ∃ q', prever df q = (r, q') ∧ mesmo_nucleo p' q'.
Proof.
  assert (Ht : treinado treinado_ex = true) by (vm_compute; reflexivity).
  split; [exact Ht|].
  destruct (salvar_carregar_prever treinado_ex "modelo_acidentes.pkl" arquivos Ht)
    as (fs' & q & Hs & _ & Hl & HR & _ & _ & _ & _ & _ & _ & Hp).
  exists fs', q. split; [exact Hs|]. split; [exact Hl|].
  split; [exact HR | exact Hp].
Defined.

(** * Properties of the data generator *)

(** ** Labels of a frame *)

Lemma foldE_app {A X} (f : A → X → exn + A) (a : A) (l1 l2 : list X) :
  foldE f a (l1 ++ l2)%list = try a' <- foldE f a l1; foldE f a' l2.
Proof.
  revert a. induction l1 as [|x l1 IH]; intros a; [done|].
  simpl. destruct (f a x) as [e|a']; simpl; [done|]. apply IH.
Qed.

Lemma String_eqb_decide (a b : string) :
  String.eqb a b = bool_decide (a = b).
Proof.
  destruct (String.eqb_spec a b) as [->|Hne].
  - by rewrite bool_decide_eq_true_2.
  - by rewrite bool_decide_eq_false_2.
Qed.

Lemma assoc_get_None {A} (n : string) (l : list (string * A)) :
  assoc_get n l = None ↔ n ∉ l.*1.
Proof.
  induction l as [|[m a] l IH]; simpl.
  - split; [intros _; apply not_elem_of_nil|done].
  - rewrite not_elem_of_cons. destruct (String.eqb_spec m n) as [->|Hne].
    + split; [done|]. by intros [? _].
    + rewrite IH. split; [by intros ?; split|by intros [_ ?]].
Qed.

Lemma get_col_None (n : string) (df : DataFrame) :
  get_col n df = None ↔ n ∉ columns df.
Proof. apply assoc_get_None. Qed.

Lemma get_col_is_Some (n : string) (df : DataFrame) :
  is_Some (get_col n df) ↔ n ∈ columns df.
Proof.
  rewrite <- not_eq_None_Some, get_col_None.
  destruct (decide (n ∈ columns df)); [|done]. split; [done|]. by intros _ ?.
Qed.

Lemma assoc_set_fst {A} (n : string) (a : A) (l : list (string * A)) :
  (assoc_set n a l).*1 = if decide (n ∈ l.*1) then l.*1 else (l.*1 ++ [n])%list.
Proof.
  induction l as [|[m b] l IH].
  - destruct (decide _) as [Hin|_]; [|done]. by apply elem_of_nil in Hin.
  - cbn [assoc_set]. destruct (String.eqb_spec m n) as [->|Hne].
    + rewrite decide_True; [done|]. rewrite fmap_cons. left.
    + rewrite !fmap_cons, IH. cbn [fst].
      destruct (decide (n ∈ l.*1)) as [Hin|Hin].
      * rewrite decide_True; [done|]. by right.
      * rewrite decide_False; [done|]. rewrite elem_of_cons. by intros [->|?].
Qed.

Lemma columns_set_col (n : string) (c : column) (df : DataFrame) :
  columns (set_col n c df)
  = if decide (n ∈ columns df) then columns df else (columns df ++ [n])%list.
Proof. apply assoc_set_fst. Qed.

Lemma NoDup_set_col (n : string) (c : column) (df : DataFrame) :
  NoDup (columns df) → NoDup (columns (set_col n c df)).
Proof.
  intros Hnd. rewrite columns_set_col. destruct (decide _) as [|Hn]; [done|].
  apply NoDup_app. split; [done|]. split; [|apply NoDup_singleton].
  intros x Hx ->%list_elem_of_singleton. done.
Qed.

Lemma NoDup_set_const (n : string) (v : cell) (df : DataFrame) :
  NoDup (columns df) → NoDup (columns (set_const n v df)).
Proof. apply NoDup_set_col. Qed.

Lemma columns_fillna0 (df : DataFrame) : columns (fillna0 df) = columns df.
Proof.
  unfold columns, fillna0. simpl. rewrite <- list_fmap_compose.
  by apply list_fmap_ext.
Qed.

Lemma nlinhas_set_col (n : string) (c : column) (df : DataFrame) :
  nlinhas (set_col n c df) = nlinhas df.
Proof. done. Qed.

Lemma rotuladas_NoDup (c : string) (df : DataFrame) :
  NoDup (columns df) →
  rotuladas c df = match get_col c df with Some s => [s] | None => [] end.
Proof.
  unfold rotuladas, get_col, columns. induction (colunas df) as [|[m s] l IH]; [done|].
  rewrite fmap_cons, NoDup_cons. cbn [fst assoc_get]. intros [Hm Hnd].
  rewrite filter_cons. cbn [fst].
  destruct (String.eqb_spec m c) as [->|Hne].
  - rewrite decide_True by done. rewrite fmap_cons, (IH Hnd). cbn [snd].
    apply assoc_get_None in Hm. by rewrite Hm.
  - rewrite decide_False by done. by apply IH.
Qed.

Lemma length_rotuladas (c : string) (df : DataFrame) :
  length (rotuladas c df) = length (filter (λ n, n = c) (columns df)).
Proof.
  unfold rotuladas, columns. rewrite length_fmap.
  induction (colunas df) as [|[m s] l IH]; [done|].
  rewrite fmap_cons, !filter_cons. simpl.
  destruct (decide (m = c)); simpl; by rewrite IH.
Qed.

Lemma length_filter_eq_NoDup (c : string) (l : list string) :
  NoDup l → c ∈ l → length (filter (λ n, n = c) l) = 1%nat.
Proof.
  induction 1 as [|x l Hx Hnd IH]; [by rewrite elem_of_nil|].
  rewrite elem_of_cons, filter_cons. intros [->|Hin].
  - rewrite decide_True by done. simpl. f_equal.
    clear IH Hnd. induction l as [|y l IHl]; [done|].
    rewrite not_elem_of_cons in Hx. destruct Hx as [Hxy Hx].
    rewrite filter_cons, decide_False by done. by apply IHl.
  - rewrite decide_False by (intros ->; done). by apply IH.
Qed.

(** ** Renaming and the assembly of the matrix *)

(** The columns of the labels [a] and [b] after [a] has been renamed to
    [b]: none has the label [a], and the label [b] has those of both. *)
Lemma rotuladas_rename (a b c : string) (df : DataFrame) :
  a ≠ b →
  rotuladas c (rename_coluna a b df)
  = if decide (c = a) then []
    else if decide (c = b)
         then snd <$> filter (λ p : string * column, p.1 = a ∨ p.1 = b) (colunas df)
         else rotuladas c df.
Proof.
  intros Hab. unfold rotuladas, rename_coluna. cbn [colunas].
  induction (colunas df) as [|[m s] l IH].
  { by repeat destruct (decide _). }
  rewrite fmap_cons, !filter_cons. cbn [fst snd].
  destruct (String.eqb_spec m a) as [->|Hma].
  - destruct (decide (c = a)) as [->|Hca].
    + by rewrite decide_False by done.
    + destruct (decide (c = b)) as [->|Hcb].
      * rewrite !decide_True by (try done; by left). by rewrite !fmap_cons, IH.
      * by rewrite !decide_False by done.
  - destruct (decide (c = a)) as [->|Hca].
    + by rewrite decide_False by done.
    + destruct (decide (c = b)) as [->|Hcb].
      * destruct (decide (m = b)) as [->|Hmb].
        -- rewrite decide_True by by right. by rewrite !fmap_cons, IH.
        -- rewrite decide_False; [done|]. by intros [?|?].
      * destruct (decide (m = c)); [|done]. by rewrite !fmap_cons, IH.
Qed.

Lemma filter_ou (a b : string) (l : list (string * column)) :
  a ≠ b → NoDup l.*1 →
  vista_de (snd <$> filter (λ p : string * column, p.1 = a ∨ p.1 = b) l)
  = match assoc_get a l, assoc_get b l with
    | Some _, Some _ => Some None
    | Some s, None | None, Some s => Some (Some s)
    | None, None => None
    end.
Proof.
  intros Hab Hnd.
  assert (Hum : ∀ (x : string) (l : list (string * column)), NoDup l.*1 →
            snd <$> filter (λ p : string * column, p.1 = x) l
            = match assoc_get x l with Some s => [s] | None => [] end).
  { intros x l' Hl'. apply (rotuladas_NoDup x {| nlinhas := 0; colunas := l' |} Hl'). }
  assert (Hfora : ∀ (x y : string) (l : list (string * column)), x ∉ l.*1 →
            filter (λ p : string * column, p.1 = x ∨ p.1 = y) l
            = filter (λ p : string * column, p.1 = y) l).
  { intros x y l' Hx. induction l' as [|[m s] l' IH]; [done|].
    rewrite fmap_cons, not_elem_of_cons in Hx. destruct Hx as [Hxm Hx].
    rewrite !filter_cons. cbn [fst] in *.
    destruct (decide (m = y)) as [->|Hmy].
    - rewrite decide_True by by right. by rewrite IH.
    - rewrite decide_False by (by intros [?|?]). by apply IH. }
  assert (Hfora2 : ∀ (x y : string) (l : list (string * column)), y ∉ l.*1 →
            filter (λ p : string * column, p.1 = x ∨ p.1 = y) l
            = filter (λ p : string * column, p.1 = x) l).
  { intros x y l' Hy. induction l' as [|[m s] l' IH]; [done|].
    rewrite fmap_cons, not_elem_of_cons in Hy. destruct Hy as [Hym Hy].
    rewrite !filter_cons. cbn [fst] in *.
    destruct (decide (m = x)) as [->|Hmx].
    - rewrite decide_True by by left. by rewrite IH.
    - rewrite decide_False by (by intros [?|?]). by apply IH. }
  induction l as [|[m s] l IH]; [done|].
  rewrite fmap_cons, NoDup_cons in Hnd. cbn [fst] in Hnd. destruct Hnd as [Hm Hnd].
  rewrite filter_cons. cbn [fst assoc_get].
  destruct (String.eqb_spec m a) as [->|Hma].
  - rewrite decide_True by by left.
    rewrite (proj2 (String.eqb_neq a b)) by done.
    rewrite fmap_cons, (Hfora a b l Hm), (Hum b l Hnd). cbn [snd].
    by destruct (assoc_get b l).
  - destruct (String.eqb_spec m b) as [->|Hmb].
    + rewrite decide_True by by right.
      rewrite fmap_cons, (Hfora2 a b l Hm), (Hum a l Hnd). cbn [snd].
      by destruct (assoc_get a l).
    + rewrite decide_False by (by intros [?|?]). by apply IH.
Qed.

(** What [df[c]] is after the rename, on a frame with distinct labels. *)
Lemma vista_rename (a b c : string) (df : DataFrame) :
  a ≠ b → NoDup (columns df) →
  vista c (rename_coluna a b df)
  = if decide (c = a) then None
    else if decide (c = b) then
      match get_col a df, get_col b df with
      | Some _, Some _ => Some None
      | Some s, None | None, Some s => Some (Some s)
      | None, None => None
      end
    else Some <$> get_col c df.
Proof.
  intros Hab Hnd. unfold vista. rewrite rotuladas_rename by done.
  destruct (decide (c = a)); [done|]. destruct (decide (c = b)).
  - by apply filter_ou.
  - rewrite rotuladas_NoDup by done. by destruct (get_col c df).
Qed.

Lemma columns_atribuir (n : string) (v : column) (X : DataFrame) :
  columns (atribuir n v X) = columns X.
Proof.
  unfold columns, atribuir. cbn [colunas]. rewrite <- list_fmap_compose.
  apply list_fmap_ext. intros i [m s] _. simpl. by destruct (String.eqb m n).
Qed.

Lemma columns_tomar_indice (n : nat) (X : DataFrame) :
  columns (tomar_indice n X) = columns X.
Proof.
  unfold tomar_indice. destruct (_ && _); [|done].
  unfold columns. cbn [colunas]. rewrite <- list_fmap_compose.
  by apply list_fmap_ext.
Qed.

Lemma atribuir_varias_fst (n : string) (vs : list column) (cols : list (string * column)) :
  (atribuir_varias n vs cols).*1 = cols.*1.
Proof.
  revert vs. induction cols as [|[m c] cols IH]; intros vs; [done|].
  cbn [atribuir_varias]. destruct (String.eqb m n).
  - destruct vs as [|v vs]; [done|]. rewrite !fmap_cons. f_equal. apply IH.
  - rewrite !fmap_cons. f_equal. apply IH.
Qed.

Section Montagem.

Context `{B : Bibliotecas} `{G : BibliotecasGerador}.

Lemma columns_preencher (df X X' : DataFrame) (c : string) :
  preencher df X c = inr X' → columns X' = columns X.
Proof.
  unfold preencher. destruct (rotuladas c df) as [|s [|s' vs]].
  - intros [= <-]. apply columns_atribuir.
  - intros [= <-]. unfold atribuir_serie.
    by rewrite columns_atribuir, columns_tomar_indice.
  - destruct (decide _); [|done]. intros [= <-].
    unfold columns. cbn [colunas]. rewrite atribuir_varias_fst.
    apply columns_tomar_indice.
Qed.

Lemma columns_montar (df : DataFrame) (nomes : list string) (X X' : DataFrame) :
  foldE (preencher df) X nomes = inr X' → columns X' = columns X.
Proof.
  revert X. induction nomes as [|c nomes IH]; intros X; [by intros [= <-]|].
  cbn [foldE]. destruct (preencher df X c) as [e|X1] eqn:H1; [done|].
  cbn [bindE]. intros H. rewrite (IH _ H). by eapply columns_preencher.
Qed.

(** On a matrix where the label occurs once, a turn of the loop depends on
    the frame only through what [df[c]] is. *)
Lemma preencher_vista (df1 df2 X : DataFrame) (c : string) :
  length (rotuladas c X) = 1%nat →
  vista c df1 = vista c df2 →
  preencher df1 X c = preencher df2 X c.
Proof.
  intros HX. unfold vista, preencher. rewrite HX.
  destruct (rotuladas c df1) as [|s1 [|s1' vs1]],
           (rotuladas c df2) as [|s2 [|s2' vs2]]; cbn [vista_de]; try done.
  by intros [= ->].
Qed.

Lemma montar_vista (df1 df2 : DataFrame) (nomes : list string) (X : DataFrame) :
  (∀ c, c ∈ nomes → length (rotuladas c X) = 1%nat) →
  (∀ c, c ∈ nomes → vista c df1 = vista c df2) →
  foldE (preencher df1) X nomes = foldE (preencher df2) X nomes.
Proof.
  revert X. induction nomes as [|c nomes IH]; intros X HX Hv; [done|].
  cbn [foldE]. rewrite (preencher_vista df1 df2 X c) by (try apply HX; try apply Hv; left).
  destruct (preencher df2 X c) as [e|X1] eqn:H1; [done|]. cbn [bindE].
  apply IH.
  - intros c' Hc'. rewrite length_rotuladas, (columns_preencher _ _ _ _ H1),
      <- length_rotuladas. apply HX. by right.
  - intros c' Hc'. apply Hv. by right.
Qed.

Lemma rotuladas_vazio (c : string) (nomes : list string) :
  NoDup nomes → c ∈ nomes → length (rotuladas c (DataFrame_vazio nomes)) = 1%nat.
Proof.
  intros Hnd Hc. rewrite length_rotuladas.
  replace (columns (DataFrame_vazio nomes)) with nomes; [by apply length_filter_eq_NoDup|].
  unfold columns, DataFrame_vazio. cbn [colunas]. rewrite <- list_fmap_compose.
  symmetry. etrans; [|apply list_fmap_id]. by apply list_fmap_ext.
Qed.

End Montagem.

(** ** The frame behind the generator's matrix *)

Lemma codificar_valor_codigo (enc : LabelEncoder) (x : cell) :
  codificar_valor enc x = inr (codigo enc x).
Proof.
  unfold codificar_valor, em_classes, transform, codigo.
  destruct x as [|s| |]; try done.
  destruct (indice s (classes_ enc)) as [j|] eqn:Hj.
  - rewrite bool_decide_eq_true_2; [done|].
    apply indice_Some in Hj. by eapply list_elem_of_lookup_2.
  - rewrite bool_decide_eq_false_2; [done|]. by apply indice_None.
Qed.

Lemma mapE_codigo (enc : LabelEncoder) (vals : column) :
  mapE (codificar_valor enc) vals = inr (codigo enc <$> vals).
Proof.
  induction vals as [|x vals IH]; [done|].
  cbn [mapE]. rewrite codificar_valor_codigo, IH. done.
Qed.

Lemma set_cols_app (l1 l2 : list (string * column)) (df : DataFrame) :
  set_cols (l1 ++ l2) df = set_cols l2 (set_cols l1 df).
Proof. apply foldl_app. Qed.

Lemma NoDup_set_cols (ncs : list (string * column)) (df : DataFrame) :
  NoDup (columns df) → NoDup (columns (set_cols ncs df)).
Proof.
  revert df. induction ncs as [|[n c] ncs IH]; intros df Hnd; [done|].
  apply IH. by apply NoDup_set_col.
Qed.

Lemma get_col_set_cols (n : string) (ncs : list (string * column)) (df : DataFrame) :
  NoDup ncs.*1 →
  get_col n (set_cols ncs df)
  = match assoc_get n ncs with Some c => Some c | None => get_col n df end.
Proof.
  intros Hnd. destruct (assoc_get n ncs) as [c|] eqn:Hn.
  - apply get_col_set_cols_in; [done|].
    clear Hnd. induction ncs as [|[m b] ncs IH]; [done|].
    cbn [assoc_get] in Hn. destruct (String.eqb_spec m n) as [->|Hne].
    + injection Hn as ->. left.
    + right. by apply IH.
  - apply get_col_set_cols_ne. by apply assoc_get_None.
Qed.

Section Forma.

Context `{B : Bibliotecas} `{G : BibliotecasGerador}.

Lemma calendario_previsao_set_cols (ds : list timestamp) (df : DataFrame) :
  calendario_previsao ds df = set_cols (colunas_calendario ds) df.
Proof. reflexivity. Qed.

Lemma sem_historico_set_cols (df : DataFrame) :
  sem_historico df = set_cols (colunas_zero (nlinhas df)) df.
Proof. reflexivity. Qed.

Lemma codificar_previsao_inr (encoders : gmap string LabelEncoder)
    (df : DataFrame) (c : string) :
  codificar_previsao encoders df c
  = inr (set_col (c +:+ "_enc") (coluna_enc encoders df c) df).
Proof.
  unfold codificar_previsao, coluna_enc.
  destruct (get_col c df) as [vals|]; [|done].
  destruct (encoders !! c) as [enc|]; [|done].
  rewrite mapE_codigo. cbn [bindE]. by rewrite list_fmap_compose.
Qed.

Lemma coluna_enc_set_col (encoders : gmap string LabelEncoder) (df : DataFrame)
    (m c : string) (v : column) :
  m ≠ c → coluna_enc encoders (set_col m v df) c = coluna_enc encoders df c.
Proof. intros Hne. unfold coluna_enc. by rewrite get_col_set_col_ne. Qed.

Lemma codificar_todas_previsao (encoders : gmap string LabelEncoder) (df : DataFrame) :
  foldE (codificar_previsao encoders) df campos_previsao
  = inr (set_cols (colunas_codificadas encoders df) df).
Proof.
  unfold campos_previsao, colunas_codificadas, campos_previsao, set_cols.
  cbn [foldE fmap list_fmap foldl fst snd].
  rewrite !codificar_previsao_inr. cbn [bindE].
  rewrite !codificar_previsao_inr. cbn [bindE].
  rewrite !codificar_previsao_inr. cbn [bindE].
  rewrite !codificar_previsao_inr. cbn [bindE].
  rewrite !coluna_enc_set_col by (by intros [=]). done.
Qed.

(** The generator in closed form, once its three input columns are read and
    the dates are parsed. *)
Lemma gerador_forma (g : modulo) (df : DataFrame)
    (datas horarios cm clima : column) (ds : list timestamp) :
  get_col "data" df = Some datas →
  get_col "horario" df = Some horarios →
  get_col "condicao_metereologica" df = Some cm →
  mapE aplicar_simplificar_gerador cm = inr clima →
  datas_validas ((λ c, from_option CData CNaN (to_datetime_Ymd c)) <$> datas) = inr ds →
  _criar_features_para_previsao g df
  = try _ <- com_linhas ds;
    foldE (preencher (quadro_codificado (g_encoders g)
                        (quadro_preparado datas horarios clima ds df)))
          (DataFrame_vazio (g_feature_names g)) (g_feature_names g).
Proof.
  intros Hd Hh Hc Hcl Hds. unfold _criar_features_para_previsao.
  unfold col at 1. rewrite Hd. cbn [bindE].
  unfold col at 1. rewrite get_col_set_col_ne, Hh by (by intros [=]). cbn [bindE].
  unfold col at 1. rewrite !get_col_set_col_ne, Hc by (by intros [=]). cbn [bindE].
  rewrite Hcl. cbn [bindE]. rewrite Hds. cbn [bindE].
  destruct (com_linhas ds) as [e|[]]; [done|]. cbn [bindE].
  fold campos_previsao. rewrite codificar_todas_previsao. cbn [bindE].
  unfold quadro_codificado, quadro_preparado, colunas_preparadas.
  rewrite calendario_previsao_set_cols, sem_historico_set_cols.
  rewrite !set_cols_app. done.
Qed.

(** What the generator needs to get to the assembly of the matrix. *)
Lemma gerador_inr (g : modulo) (df X : DataFrame) :
  _criar_features_para_previsao g df = inr X →
  ∃ datas horarios cm clima ds,
    get_col "data" df = Some datas ∧
    get_col "horario" df = Some horarios ∧
    get_col "condicao_metereologica" df = Some cm ∧
    mapE aplicar_simplificar_gerador cm = inr clima ∧
    datas_validas ((λ c, from_option CData CNaN (to_datetime_Ymd c)) <$> datas) = inr ds ∧
    com_linhas ds = inr ().
Proof.
  unfold _criar_features_para_previsao.
  unfold col at 1. destruct (get_col "data" df) as [datas|] eqn:Hd; [|done].
  cbn [bindE].
  unfold col at 1. rewrite get_col_set_col_ne by (by intros [=]).
  destruct (get_col "horario" df) as [horarios|] eqn:Hh; [|done]. cbn [bindE].
  unfold col at 1. rewrite !get_col_set_col_ne by (by intros [=]).
  destruct (get_col "condicao_metereologica" df) as [cm|] eqn:Hc; [|done].
  cbn [bindE].
  destruct (mapE aplicar_simplificar_gerador cm) as [e|clima] eqn:Hcl; [done|].
  cbn [bindE].
  destruct (datas_validas _) as [e|ds] eqn:Hds; [done|]. cbn [bindE].
  destruct (com_linhas ds) as [e|[]] eqn:Hl; [done|].
  intros _. by exists datas, horarios, cm, clima, ds.
Qed.

End Forma.

(** ** What the generator's matrix does not depend on *)

Lemma concordam_set_cols (fora : list string) (ncs : list (string * column))
    (df1 df2 : DataFrame) :
  NoDup ncs.*1 → concordam fora df1 df2 →
  concordam fora (set_cols ncs df1) (set_cols ncs df2).
Proof.
  intros Hnd [Hn Hc]. split; [by rewrite !nlinhas_set_cols|].
  intros c Hf. rewrite !get_col_set_cols by done.
  destruct (assoc_get c ncs); [done|]. by apply Hc.
Qed.

Section Independencia.

Context `{B : Bibliotecas} `{G : BibliotecasGerador}.

Lemma colunas_preparadas_nomes (datas horarios clima : column)
    (ds : list timestamp) (n : nat) :
  (colunas_preparadas datas horarios clima ds n).*1 = nomes_preparadas.
Proof. reflexivity. Qed.

Lemma nomes_preparadas_NoDup : NoDup nomes_preparadas.
Proof. decide_nomes. Qed.

Lemma colunas_codificadas_nomes (encoders : gmap string LabelEncoder) (df : DataFrame) :
  (colunas_codificadas encoders df).*1
  = ["uf_enc"; "municipio_enc"; "tipo_acidente_enc"; "condicao_metereologica_enc"].
Proof. reflexivity. Qed.

Lemma colunas_codificadas_NoDup (encoders : gmap string LabelEncoder) (df : DataFrame) :
  NoDup (colunas_codificadas encoders df).*1.
Proof. rewrite colunas_codificadas_nomes. decide_nomes. Qed.

Lemma NoDup_quadro_preparado (datas horarios clima : column) (ds : list timestamp)
    (df : DataFrame) :
  NoDup (columns df) →
  NoDup (columns (quadro_preparado datas horarios clima ds df)).
Proof.
  intros Hnd. unfold quadro_preparado. rewrite columns_fillna0.
  by apply NoDup_set_cols.
Qed.

(** Two prepared frames differ at most in the hour and in the weather. *)
Lemma concordam_preparado (datas h1 h2 c1 c2 : column) (ds : list timestamp)
    (df1 df2 : DataFrame) :
  concordam ["horario"; "condicao_metereologica"; "hora"] df1 df2 →
  concordam ["horario"; "condicao_metereologica"; "hora"]
    (quadro_preparado datas h1 c1 ds df1) (quadro_preparado datas h2 c2 ds df2).
Proof.
  intros [Hn Hc]. split; [done|]. intros c Hf.
  unfold quadro_preparado. rewrite !get_col_fillna0. f_equal.
  rewrite !get_col_set_cols
    by (rewrite colunas_preparadas_nomes; apply nomes_preparadas_NoDup).
  rewrite Hn, (Hc c Hf).
  rewrite !not_elem_of_cons in Hf. destruct Hf as (_ & Hcm & Hh & _).
  unfold colunas_preparadas. cbn [app assoc_get].
  destruct (String.eqb_spec "data" c); [done|].
  destruct (String.eqb_spec "hora" c) as [<-|_]; [done|].
  destruct (String.eqb_spec "condicao_metereologica" c) as [<-|_]; done.
Qed.

Lemma colunas_codificadas_concordam (encoders : gmap string LabelEncoder)
    (df1 df2 : DataFrame) :
  encoders !! "condicao_metereologica" = None →
  concordam ["horario"; "condicao_metereologica"; "hora"] df1 df2 →
  colunas_codificadas encoders df1 = colunas_codificadas encoders df2.
Proof.
  intros He [Hn Hc]. unfold colunas_codificadas, campos_previsao.
  cbn [fmap list_fmap]. unfold coluna_enc. rewrite He, Hn.
  rewrite !(Hc "uf"), !(Hc "municipio"), !(Hc "tipo_acidente")
    by (rewrite !not_elem_of_cons; repeat split; (by intros [=]) || apply not_elem_of_nil).
  repeat f_equal.
  by destruct (get_col "condicao_metereologica" df1),
              (get_col "condicao_metereologica" df2).
Qed.

(** What [df[c]] is in the two frames the matrices are assembled from. *)
Lemma vista_codificado (encoders : gmap string LabelEncoder) (df1 df2 : DataFrame)
    (c : string) :
  encoders !! "condicao_metereologica" = None →
  NoDup (columns df1) → NoDup (columns df2) →
  concordam ["horario"; "condicao_metereologica"; "hora"] df1 df2 →
  c ∉ ["horario"; "condicao_metereologica"; "hora"] →
  vista c (quadro_codificado encoders df1) = vista c (quadro_codificado encoders df2).
Proof.
  intros He Hnd1 Hnd2 Hco Hc. unfold quadro_codificado.
  rewrite !vista_rename by ((by intros [=]) || by apply NoDup_set_cols).
  rewrite (colunas_codificadas_concordam _ _ _ He Hco).
  pose proof (concordam_set_cols _ (colunas_codificadas encoders df2) _ _
                (colunas_codificadas_NoDup _ _) Hco) as [_ Hget].
  rewrite !(Hget "condicao_metereologica_enc"), !(Hget "clima_enc"), (Hget c);
    [done|done|..];
    rewrite !not_elem_of_cons; repeat split; (by intros [=]) || apply not_elem_of_nil.
Qed.

Lemma aplicar_simplificar_gerador_textos (txt : list string) :
  mapE aplicar_simplificar_gerador (CStr <$> txt)
  = inr (CStr ∘ Gerador._simplificar_clima <$> txt).
Proof.
  induction txt as [|s txt IH]; [done|].
  rewrite !fmap_cons. cbn [mapE aplicar_simplificar_gerador bindE]. by rewrite IH.
Qed.

(** Two frames that differ in the hour and in the weather only give the same
    matrix or the same exception. *)
Lemma gerador_independente (g : modulo) (df1 df2 : DataFrame)
    (h1 h2 : column) (t1 t2 : list string) :
  g_encoders g !! "condicao_metereologica" = None →
  NoDup (g_feature_names g) →
  (∀ c, c ∈ g_feature_names g →
        c ∉ ["horario"; "condicao_metereologica"; "hora"]) →
  NoDup (columns df1) → NoDup (columns df2) →
  concordam ["horario"; "condicao_metereologica"; "hora"] df1 df2 →
  get_col "horario" df1 = Some h1 → get_col "horario" df2 = Some h2 →
  get_col "condicao_metereologica" df1 = Some (CStr <$> t1) →
  get_col "condicao_metereologica" df2 = Some (CStr <$> t2) →
  _criar_features_para_previsao g df1 = _criar_features_para_previsao g df2.
Proof.
  intros He Hnd Hfora Hnd1 Hnd2 Hco Hh1 Hh2 Hc1 Hc2.
  assert (Hd : get_col "data" df1 = get_col "data" df2).
  { apply Hco. rewrite !not_elem_of_cons.
    repeat split; (by intros [=]) || apply not_elem_of_nil. }
  destruct (get_col "data" df1) as [datas|] eqn:Hd1; symmetry in Hd.
  2:{ unfold _criar_features_para_previsao, col. by rewrite Hd1, Hd. }
  destruct (datas_validas ((λ c, from_option CData CNaN (to_datetime_Ymd c)) <$> datas))
    as [e|ds] eqn:Hds.
  { unfold _criar_features_para_previsao.
    unfold col at 1. rewrite Hd1. cbn [bindE].
    unfold col at 1. rewrite get_col_set_col_ne, Hh1 by (by intros [=]). cbn [bindE].
    unfold col at 1. rewrite !get_col_set_col_ne, Hc1 by (by intros [=]). cbn [bindE].
    rewrite aplicar_simplificar_gerador_textos. cbn [bindE]. rewrite Hds. cbn [bindE].
    unfold col at 1. rewrite Hd. cbn [bindE].
    unfold col at 1. rewrite get_col_set_col_ne, Hh2 by (by intros [=]). cbn [bindE].
    unfold col at 1. rewrite !get_col_set_col_ne, Hc2 by (by intros [=]). cbn [bindE].
    rewrite aplicar_simplificar_gerador_textos. cbn [bindE]. by rewrite Hds. }
  rewrite (gerador_forma g df1 _ _ _ _ _ Hd1 Hh1 Hc1
             (aplicar_simplificar_gerador_textos t1) Hds).
  rewrite (gerador_forma g df2 _ _ _ _ _ Hd Hh2 Hc2
             (aplicar_simplificar_gerador_textos t2) Hds).
  destruct (com_linhas ds) as [e|[]]; [done|]. cbn [bindE].
  apply montar_vista.
  - intros c Hc. by apply rotuladas_vazio.
  - intros c Hc. apply vista_codificado; [done| | | |by apply Hfora].
    + by apply NoDup_quadro_preparado.
    + by apply NoDup_quadro_preparado.
    + by apply concordam_preparado.
Qed.

(** X12.  The predictions of the generator do not depend on the hour or on
    the weather of the rows.  For a module whose registry has no encoder
    under the key "condicao_metereologica" and whose feature names are
    distinct and name none of the columns "horario", "hora" and
    "condicao_metereologica" (a model trained and saved by [treinar] and
    [salvar_modelo] is one), two input frames that agree on every other
    column, with any hours and any weather texts, give the same matrix or
    the same exception, and so the same answer of every regressor. *)
Theorem gerador_ignora_clima_e_hora (g : modulo) (df1 df2 : DataFrame)
    (h1 h2 : column) (t1 t2 : list string) :
  g_encoders g !! "condicao_metereologica" = None →
  NoDup (g_feature_names g) →
  (∀ c, c ∈ g_feature_names g →
        c ∉ ["horario"; "condicao_metereologica"; "hora"]) →
  NoDup (columns df1) → NoDup (columns df2) →
  concordam ["horario"; "condicao_metereologica"; "hora"] df1 df2 →
  get_col "horario" df1 = Some h1 → get_col "horario" df2 = Some h2 →
  get_col "condicao_metereologica" df1 = Some (CStr <$> t1) →
  get_col "condicao_metereologica" df2 = Some (CStr <$> t2) →
  _criar_features_para_previsao g df1 = _criar_features_para_previsao g df2 ∧
  ∀ m, (try X <- _criar_features_para_previsao g df1; lgbm_predict m X)
       = (try X <- _criar_features_para_previsao g df2; lgbm_predict m X).
Proof.
  intros He Hnd Hfora Hnd1 Hnd2 Hco Hh1 Hh2 Hc1 Hc2.
  pose proof (gerador_independente g df1 df2 h1 h2 t1 t2
                He Hnd Hfora Hnd1 Hnd2 Hco Hh1 Hh2 Hc1 Hc2) as Hmesma.
  split; [exact Hmesma|]. intros m. by rewrite Hmesma.
Qed.

End Independencia.

(** ** The columns of the generator's matrix *)

Lemma assoc_get_elem_of {A} (n : string) (a : A) (l : list (string * A)) :
  NoDup l.*1 → (n, a) ∈ l → assoc_get n l = Some a.
Proof.
  induction l as [|[m b] l IH]; [by rewrite elem_of_nil|].
  rewrite fmap_cons, NoDup_cons, elem_of_cons. cbn [fst assoc_get].
  intros [Hm Hnd] [[= -> ->]|Hin].
  - by rewrite String.eqb_refl.
  - destruct (String.eqb_spec m n) as [->|_]; [|by apply IH].
    exfalso. apply Hm. apply list_elem_of_fmap. by exists (n, a).
Qed.

Lemma get_col_atribuir (c n : string) (v : column) (X : DataFrame) :
  get_col c (atribuir n v X)
  = if String.eqb n c then (λ _, v) <$> get_col c X else get_col c X.
Proof.
  unfold get_col, atribuir. cbn [colunas].
  induction (colunas X) as [|[m s] l IH].
  { by destruct (String.eqb n c). }
  rewrite fmap_cons. cbn [fst].
  destruct (String.eqb_spec m n) as [->|Hmn]; cbn [assoc_get].
  - destruct (String.eqb_spec n c) as [->|Hnc]; [done|]. exact IH.
  - destruct (String.eqb_spec m c) as [->|Hmc].
    + by rewrite (proj2 (String.eqb_neq n c)) by done.
    + exact IH.
Qed.

Lemma bem_formado_get_col (c : string) (s : column) (df : DataFrame) :
  bem_formado df → get_col c df = Some s → length s = nlinhas df.
Proof.
  intros [_ Hl]. unfold get_col. induction Hl as [|[m v] l Hv Hl IH]; [done|].
  cbn [assoc_get]. destruct (String.eqb m c); [|exact IH]. by intros [= <-].
Qed.

Lemma bem_formado_set_col (n : string) (v : column) (df : DataFrame) :
  bem_formado df → length v = nlinhas df → bem_formado (set_col n v df).
Proof.
  intros [Hnd Hl] Hv. split; [by apply NoDup_set_col|].
  unfold set_col. cbn [colunas nlinhas].
  induction Hl as [|[m s] l Hs Hl IH]; cbn [assoc_set].
  - by repeat constructor.
  - destruct (String.eqb m n); constructor; done.
Qed.

Lemma bem_formado_set_cols (ncs : list (string * column)) (df : DataFrame) :
  bem_formado df →
  Forall (λ nc : string * column, length nc.2 = nlinhas df) ncs →
  bem_formado (set_cols ncs df).
Proof.
  revert df. induction ncs as [|[n c] ncs IH]; intros df Hbf Hl; [done|].
  apply Forall_cons in Hl as [Hc Hl]. apply IH.
  - by apply bem_formado_set_col.
  - done.
Qed.

Lemma bem_formado_fillna0 (df : DataFrame) :
  bem_formado df → bem_formado (fillna0 df).
Proof.
  intros [Hnd Hl]. split; [by rewrite columns_fillna0|].
  unfold fillna0. cbn [colunas nlinhas]. rewrite Forall_fmap.
  eapply Forall_impl; [exact Hl|]. intros [m s] Hs. simpl in *.
  by rewrite length_fmap.
Qed.

Lemma fillna0_cnum_Z (zs : list Z) : fillna0_cell <$> (cnum_Z <$> zs) = cnum_Z <$> zs.
Proof. rewrite <- list_fmap_compose. by apply list_fmap_ext. Qed.

Lemma fillna0_replicate_zero (n : nat) :
  fillna0_cell <$> replicate n czero = replicate n czero.
Proof. by rewrite fmap_replicate. Qed.

Section Matriz.

Context `{B : Bibliotecas} `{G : BibliotecasGerador}.

(** The column a turn of the loop of lines 92-96 gives to the label [c]. *)
Lemma tomar_indice_id (n : nat) (X : DataFrame) :
  nlinhas X = n → tomar_indice n X = X.
Proof.
  intros <-. unfold tomar_indice. by destruct (nlinhas X).
Qed.

Lemma preencher_valor (df X : DataFrame) (c : string) (n : nat) :
  nlinhas X = n →
  (vista c df = None ∨ ∃ s, vista c df = Some (Some s) ∧ length s = n) →
  preencher df X c
  = inr (atribuir c (match vista c df with
                     | Some (Some s) => s
                     | _ => replicate n czero
                     end) X).
Proof.
  intros HX Hv. unfold vista, preencher in *.
  destruct (rotuladas c df) as [|s [|s' vs]]; cbn [vista_de] in *.
  - by rewrite HX.
  - destruct Hv as [[=]|(s0 & [= <-] & Hs)].
    unfold atribuir_serie. rewrite tomar_indice_id; [done|]. by rewrite Hs.
  - by destruct Hv as [[=]|(s0 & [=] & _)].
Qed.

Lemma montar_passos (df : DataFrame) (n : nat) (l : list string) (X : DataFrame) :
  nlinhas X = n →
  (∀ c, c ∈ l → vista c df = None ∨ ∃ s, vista c df = Some (Some s) ∧ length s = n) →
  ∃ X', foldE (preencher df) X l = inr X' ∧ nlinhas X' = n ∧ columns X' = columns X ∧
    (∀ c, c ∉ l → get_col c X' = get_col c X) ∧
    (∀ c, c ∈ l → c ∈ columns X →
          get_col c X' = Some (match vista c df with
                               | Some (Some s) => s
                               | _ => replicate n czero
                               end)).
Proof.
  revert X. induction l as [|c l IH]; intros X HX Hv.
  { exists X. repeat split; try done. intros c Hc. by apply elem_of_nil in Hc. }
  cbn [foldE]. rewrite (preencher_valor df X c n HX) by (apply Hv; left).
  cbn [bindE].
  set (v := match vista c df with Some (Some s) => s | _ => replicate n czero end).
  destruct (IH (atribuir c v X)) as (X' & Hf & Hn & Hcols & Hfora & Hdentro).
  { done. }
  { intros c' Hc'. apply Hv. by right. }
  exists X'. split; [done|]. split; [done|].
  split; [by rewrite Hcols, columns_atribuir|].
  split.
  - intros c' Hc'. rewrite not_elem_of_cons in Hc'. destruct Hc' as [Hne Hc'].
    rewrite (Hfora c' Hc'), get_col_atribuir.
    by rewrite (proj2 (String.eqb_neq c c')) by done.
  - intros c' Hc' Hin. destruct (decide (c' ∈ l)) as [Hl|Hl].
    + apply Hdentro; [done|]. by rewrite columns_atribuir.
    + apply elem_of_cons in Hc' as [->|Hc']; [|done].
      rewrite (Hfora c Hl), get_col_atribuir, String.eqb_refl.
      apply get_col_is_Some in Hin as [s0 ->]. done.
Qed.

Lemma columns_DataFrame_vazio (nomes : list string) :
  columns (DataFrame_vazio nomes) = nomes.
Proof.
  unfold columns, DataFrame_vazio. cbn [colunas]. rewrite <- list_fmap_compose.
  etrans; [|apply list_fmap_id]. by apply list_fmap_ext.
Qed.

(** The matrix, when the first feature is a column of the frame. *)
Lemma montar_inr (df : DataFrame) (n : nat) (c0 : string) (s0 : column)
    (resto : list string) :
  NoDup (c0 :: resto) →
  vista c0 df = Some (Some s0) → length s0 = n →
  (∀ c, c ∈ resto →
        vista c df = None ∨ ∃ s, vista c df = Some (Some s) ∧ length s = n) →
  ∃ X, foldE (preencher df) (DataFrame_vazio (c0 :: resto)) (c0 :: resto) = inr X ∧
    nlinhas X = n ∧ columns X = c0 :: resto ∧
    ∀ c, c ∈ c0 :: resto →
         get_col c X = Some (match vista c df with
                             | Some (Some s) => s
                             | _ => replicate n czero
                             end).
Proof.
  intros Hnd Hv0 Hs0 Hv. apply NoDup_cons in Hnd as [Hc0 Hnd].
  cbn [foldE]. unfold preencher at 1. unfold vista in Hv0.
  destruct (rotuladas c0 df) as [|s [|s' vs]] eqn:Hr; cbn [vista_de] in Hv0; try done.
  injection Hv0 as ->. cbn [bindE].
  set (X1 := atribuir_serie c0 s0 (DataFrame_vazio (c0 :: resto))).
  assert (Hn1 : nlinhas X1 = n).
  { unfold X1, atribuir_serie, atribuir, tomar_indice, DataFrame_vazio.
    cbn [nlinhas]. rewrite Hs0. by destruct n. }
  assert (Hc1 : columns X1 = c0 :: resto).
  { unfold X1, atribuir_serie.
    by rewrite columns_atribuir, columns_tomar_indice, columns_DataFrame_vazio. }
  destruct (montar_passos df n resto X1 Hn1 Hv) as (X & Hf & Hn & Hcols & Hfora & Hdentro).
  exists X. split; [done|]. split; [done|]. split; [by rewrite Hcols|].
  intros c [->|Hc]%elem_of_cons.
  - rewrite (Hfora c0 Hc0). unfold vista. rewrite Hr. cbn [vista_de].
    unfold X1, atribuir_serie. rewrite get_col_atribuir, String.eqb_refl.
    assert (Hin : c0 ∈ columns (tomar_indice (length s0) (DataFrame_vazio (c0 :: resto)))).
    { rewrite columns_tomar_indice, columns_DataFrame_vazio. left. }
    by apply get_col_is_Some in Hin as [s1 ->].
  - apply Hdentro; [done|]. rewrite Hc1. by right.
Qed.

(** A frame of several columns cannot be assigned to one column of the
    matrix. *)
Lemma montar_sem_ambiguos (df : DataFrame) (l : list string) (X X' : DataFrame) :
  (∀ c, c ∈ l → length (rotuladas c X) = 1%nat) →
  foldE (preencher df) X l = inr X' →
  ∀ c, c ∈ l → vista c df ≠ Some None.
Proof.
  revert X. induction l as [|c l IH]; intros X HX Hf c' Hc'.
  { by apply elem_of_nil in Hc'. }
  cbn [foldE] in Hf. destruct (preencher df X c) as [e|X1] eqn:H1; [done|].
  cbn [bindE] in Hf. apply elem_of_cons in Hc' as [->|Hc'].
  - unfold preencher in H1. unfold vista.
    destruct (rotuladas c df) as [|s [|s' vs]]; cbn [vista_de]; try done.
    rewrite HX in H1 by left. done.
  - apply (IH X1); [|done..].
    intros c0 Hc0. rewrite length_rotuladas, (columns_preencher _ _ _ _ H1),
      <- length_rotuladas. apply HX. by right.
Qed.

Lemma datas_validas_Forall2 (datas : column) (ds : list timestamp) :
  datas_validas ((λ c, from_option CData CNaN (to_datetime_Ymd c)) <$> datas) = inr ds
  ↔ Forall2 (λ c d, to_datetime_Ymd c = Some d) datas ds.
Proof.
  revert ds. induction datas as [|c datas IH]; intros ds.
  - split; [intros [= <-]; constructor|]. by intros ->%Forall2_nil_inv_l.
  - rewrite fmap_cons. unfold datas_validas in *. cbn [mapE].
    destruct (to_datetime_Ymd c) as [d|] eqn:Hd; cbn [from_option bindE].
    + destruct (mapE _ _) as [e|ds'] eqn:Hm; cbn [bindE].
      * split; [done|]. intros (d' & ds' & _ & Hds & ->)%Forall2_cons_inv_l.
        by apply IH in Hds.
      * split.
        -- intros [= <-]. constructor; [done|]. by apply IH.
        -- intros (d' & ds'' & Hd' & Hds & ->)%Forall2_cons_inv_l.
           rewrite Hd in Hd'. injection Hd' as <-.
           apply IH in Hds. by injection Hds as ->.
    + split; [done|]. intros (d' & ds' & Hd' & _)%Forall2_cons_inv_l. congruence.
Qed.

Lemma aplicar_simplificar_gerador_inr (cm clima : column) :
  mapE aplicar_simplificar_gerador cm = inr clima →
  ∃ txt, cm = CStr <$> txt ∧ clima = CStr ∘ Gerador._simplificar_clima <$> txt.
Proof.
  revert clima. induction cm as [|c cm IH]; intros clima.
  { intros [= <-]. by exists []. }
  cbn [mapE]. destruct c as [|s| |]; try done. cbn [aplicar_simplificar_gerador bindE].
  destruct (mapE aplicar_simplificar_gerador cm) as [e|cl] eqn:Hm; [done|].
  intros [= <-]. destruct (IH cl eq_refl) as (txt & -> & ->). by exists (s :: txt).
Qed.

End Matriz.

Section MatrizGerador.

Context `{B : Bibliotecas} `{G : BibliotecasGerador}.

Lemma colunas_calendario_length (ds : list timestamp) :
  Forall (λ nc : string * column, length nc.2 = length ds) (colunas_calendario ds).
Proof.
  unfold colunas_calendario.
  repeat constructor; cbn [snd]; rewrite ?length_fmap, ?length_zip_with, ?length_fmap; lia.
Qed.

Lemma colunas_calendario_fillna0 (ds : list timestamp) :
  Forall (λ nc : string * column, fillna0_cell <$> nc.2 = nc.2) (colunas_calendario ds).
Proof.
  unfold colunas_calendario.
  repeat constructor; cbn [snd]; rewrite <- ?list_fmap_compose;
    by apply list_fmap_ext.
Qed.

Lemma colunas_calendario_nomes (ds : list timestamp) :
  (colunas_calendario ds).*1
  = ["ano"; "mes"; "dia_semana"; "dia_ano"; "semana"; "fim_semana"; "feriado";
     "feriado_fim_semana"].
Proof. reflexivity. Qed.

Lemma colunas_zero_length (n : nat) :
  Forall (λ nc : string * column, length nc.2 = n) (colunas_zero n).
Proof.
  unfold colunas_zero. rewrite Forall_fmap. apply Forall_forall. intros x _.
  apply length_replicate.
Qed.

Lemma bem_formado_preparado (datas horarios clima : column) (ds : list timestamp)
    (df : DataFrame) :
  bem_formado df →
  length datas = nlinhas df → length horarios = nlinhas df →
  length clima = nlinhas df → length ds = nlinhas df →
  bem_formado (quadro_preparado datas horarios clima ds df).
Proof.
  intros Hbf H1 H2 H3 H4. unfold quadro_preparado.
  apply bem_formado_fillna0, bem_formado_set_cols; [done|].
  unfold colunas_preparadas. rewrite !Forall_app. split; [|split].
  - repeat constructor; cbn [snd]; rewrite ?length_fmap; done.
  - eapply Forall_impl; [apply colunas_calendario_length|].
    intros nc Hnc. cbn beta in *. congruence.
  - apply colunas_zero_length.
Qed.

Lemma coluna_enc_length (encoders : gmap string LabelEncoder) (df : DataFrame)
    (c : string) :
  bem_formado df → length (coluna_enc encoders df c) = nlinhas df.
Proof.
  intros Hbf. unfold coluna_enc.
  destruct (get_col c df) as [vals|] eqn:Hv; [|apply length_replicate].
  destruct (encoders !! c); [|apply length_replicate].
  rewrite length_fmap. by eapply bem_formado_get_col.
Qed.

Lemma bem_formado_codificado (encoders : gmap string LabelEncoder) (df : DataFrame) :
  bem_formado df → bem_formado (set_cols (colunas_codificadas encoders df) df).
Proof.
  intros Hbf. apply bem_formado_set_cols; [done|].
  unfold colunas_codificadas. rewrite Forall_fmap. apply Forall_forall.
  intros c _. by apply coluna_enc_length.
Qed.

Lemma get_col_codificado_fora (encoders : gmap string LabelEncoder) (df : DataFrame)
    (c : string) :
  c ∉ ["uf_enc"; "municipio_enc"; "tipo_acidente_enc"; "condicao_metereologica_enc"] →
  get_col c (set_cols (colunas_codificadas encoders df) df) = get_col c df.
Proof. intros Hc. by apply get_col_set_cols_ne. Qed.

Lemma get_col_codificado_dentro (encoders : gmap string LabelEncoder) (df : DataFrame)
    (c : string) :
  c ∈ campos_previsao →
  get_col (c +:+ "_enc") (set_cols (colunas_codificadas encoders df) df)
  = Some (coluna_enc encoders df c).
Proof.
  intros Hc. apply get_col_set_cols_in; [apply colunas_codificadas_NoDup|].
  unfold colunas_codificadas. apply list_elem_of_fmap. by exists c.
Qed.

Lemma get_col_preparado_dentro (datas horarios clima : column) (ds : list timestamp)
    (df : DataFrame) (n : string) (c : column) :
  (n, c) ∈ colunas_preparadas datas horarios clima ds (nlinhas df) →
  get_col n (quadro_preparado datas horarios clima ds df) = Some (fillna0_cell <$> c).
Proof.
  intros Hin. unfold quadro_preparado. rewrite get_col_fillna0.
  rewrite (get_col_set_cols_in n c); [done| |done].
  rewrite colunas_preparadas_nomes. apply nomes_preparadas_NoDup.
Qed.

Lemma get_col_preparado_fora (datas horarios clima : column) (ds : list timestamp)
    (df : DataFrame) (n : string) :
  n ∉ nomes_preparadas →
  get_col n (quadro_preparado datas horarios clima ds df)
  = (λ c : list cell, fillna0_cell <$> c) <$> get_col n df.
Proof.
  intros Hn. unfold quadro_preparado. rewrite get_col_fillna0.
  by rewrite get_col_set_cols_ne.
Qed.

(** What [df[c]] is in the frame the matrix is assembled from, when the
    input has no column "clima_enc". *)
Lemma vista_quadro_codificado (encoders : gmap string LabelEncoder) (df : DataFrame)
    (c : string) :
  NoDup (columns df) → get_col "clima_enc" df = None →
  c ≠ "condicao_metereologica_enc" →
  vista c (quadro_codificado encoders df)
  = Some <$> (if decide (c = "clima_enc")
              then Some (coluna_enc encoders df "condicao_metereologica")
              else get_col c (set_cols (colunas_codificadas encoders df) df)).
Proof.
  intros Hnd Hb Hc. unfold quadro_codificado.
  rewrite vista_rename by ((by intros [=]) || by apply NoDup_set_cols).
  rewrite decide_False by done. destruct (decide (c = "clima_enc")) as [->|_]; [|done].
  rewrite (get_col_codificado_dentro _ _ "condicao_metereologica") by decide_nomes.
  rewrite get_col_codificado_fora by decide_nomes. by rewrite Hb.
Qed.

Lemma vista_quadro_codificado_ambigua (encoders : gmap string LabelEncoder)
    (df : DataFrame) :
  NoDup (columns df) → is_Some (get_col "clima_enc" df) →
  vista "clima_enc" (quadro_codificado encoders df) = Some None.
Proof.
  intros Hnd [s Hb]. unfold quadro_codificado.
  rewrite vista_rename by ((by intros [=]) || by apply NoDup_set_cols).
  rewrite decide_False by (by intros [=]). rewrite decide_True by done.
  rewrite (get_col_codificado_dentro _ _ "condicao_metereologica") by decide_nomes.
  rewrite get_col_codificado_fora by decide_nomes. by rewrite Hb.
Qed.

(** The labels of the stages do not clash. *)
Lemma nomes_gerador :
  Forall (λ c, c ≠ "condicao_metereologica_enc") features ∧
  (∃ resto, features = "ano" :: resto) ∧
  "clima_enc" ∈ features ∧
  ("clima_enc" ∉ nomes_preparadas) ∧
  Forall (λ n, n ∈ features ∧ n ≠ "clima_enc" ∧
               n ∉ ["uf_enc"; "municipio_enc"; "tipo_acidente_enc";
                    "condicao_metereologica_enc"])
    (["ano"; "mes"; "dia_semana"; "dia_ano"; "semana"; "fim_semana"; "feriado";
      "feriado_fim_semana"] ++ nomes_historico ++ nao_calculadas) ∧
  Forall (λ c, c ∈ campos_previsao ∧ (c ∉ nomes_preparadas) ∧
               c +:+ "_enc" ∈ features ∧ c +:+ "_enc" ≠ "clima_enc")
    ["uf"; "municipio"; "tipo_acidente"] ∧
  Forall (λ n, n ∉ nomes_preparadas) nao_calculadas.
Proof.
  split; [decide_nomes|]. split; [by eexists|]. split; [decide_nomes|].
  split; [decide_nomes|]. split; [decide_nomes|]. split; decide_nomes.
Qed.

Local Opaque features nomes_historico nomes_preparadas.

(** The matrix of a model with the 27 features and no encoder under the key
    "condicao_metereologica", once the generator has read its columns. *)
Lemma gerador_matriz_nucleo (g : modulo) (df : DataFrame)
    (datas horarios : column) (txt : list string) (ds : list timestamp) :
  g_feature_names g = features →
  g_encoders g !! "condicao_metereologica" = None →
  bem_formado df →
  get_col "data" df = Some datas →
  get_col "horario" df = Some horarios →
  get_col "condicao_metereologica" df = Some (CStr <$> txt) →
  Forall2 (λ c d, to_datetime_Ymd c = Some d) datas ds →
  get_col "clima_enc" df = None →
  (0 < nlinhas df)%nat →
  ∃ X, _criar_features_para_previsao g df = inr X ∧
    columns X = features ∧ nlinhas X = nlinhas df ∧
    (∀ n c, (n, c) ∈ colunas_calendario ds → get_col n X = Some c) ∧
    (∀ n, n ∈ nomes_historico → get_col n X = Some (replicate (nlinhas df) czero)) ∧
    get_col "clima_enc" X = Some (replicate (nlinhas df) czero) ∧
    (∀ c, c ∈ ["uf"; "municipio"; "tipo_acidente"] →
       get_col (c +:+ "_enc") X = Some (coluna_enc (g_encoders g) (fillna0 df) c)) ∧
    (∀ n, n ∈ nao_calculadas →
       get_col n X = Some (match get_col n df with
                           | Some v => fillna0_cell <$> v
                           | None => replicate (nlinhas df) czero
                           end)).
Proof.
  intros Hf He Hbf Hd Hh Hc Hds Hb Hlin.
  pose proof Hds as Hds'. apply datas_validas_Forall2 in Hds'.
  rewrite (gerador_forma g df _ _ _ _ _ Hd Hh Hc
             (aplicar_simplificar_gerador_textos txt) Hds'), Hf.
  assert (Hcl : com_linhas ds = inr ()).
  { apply Forall2_length in Hds.
    rewrite (bem_formado_get_col _ _ _ Hbf Hd) in Hds.
    destruct ds; [simpl in Hds; lia|done]. }
  rewrite Hcl. cbn [bindE]. clear Hcl.
  set (clima := CStr ∘ Gerador._simplificar_clima <$> txt).
  set (Df := quadro_preparado datas horarios clima ds df).
  set (encs := g_encoders g) in *.
  assert (Hl1 : length datas = nlinhas df) by by eapply bem_formado_get_col.
  assert (Hl2 : length horarios = nlinhas df) by by eapply bem_formado_get_col.
  assert (Hl3 : length clima = nlinhas df).
  { unfold clima. rewrite length_fmap, <- (length_fmap CStr).
    by eapply bem_formado_get_col. }
  assert (Hl4 : length ds = nlinhas df).
  { rewrite <- Hl1. symmetry. by eapply Forall2_length. }
  assert (Hbf1 : bem_formado Df) by by apply bem_formado_preparado.
  assert (Hbf2 : bem_formado (set_cols (colunas_codificadas encs Df) Df))
    by by apply bem_formado_codificado.
  assert (Hn : nlinhas Df = nlinhas df) by done.
  destruct nomes_gerador as (Hfa & [resto Hfe] & Hclima & Hcp & Hnomes & Hcampos & Hnc).
  rewrite Forall_forall in Hfa. rewrite !Forall_app, !Forall_forall in Hnomes.
  destruct Hnomes as (Hcal & Hhist & Hncal).
  rewrite Forall_forall in Hcampos. rewrite Forall_forall in Hnc.
  assert (Hb1 : get_col "clima_enc" Df = None).
  { unfold Df. rewrite get_col_preparado_fora by done. by rewrite Hb. }
  assert (Hvista : ∀ c, c ∈ features →
            vista c (quadro_codificado encs Df)
            = Some <$> (if decide (c = "clima_enc")
                        then Some (coluna_enc encs Df "condicao_metereologica")
                        else get_col c (set_cols (colunas_codificadas encs Df) Df))).
  { intros c Hin. apply vista_quadro_codificado; [apply Hbf1|done|by apply Hfa]. }
  assert (Hcond : ∀ c, c ∈ features →
            vista c (quadro_codificado encs Df) = None ∨
            ∃ s, vista c (quadro_codificado encs Df) = Some (Some s) ∧
                 length s = nlinhas df).
  { intros c Hin. rewrite (Hvista c Hin). destruct (decide (c = "clima_enc")).
    - right. eexists. split; [done|]. by rewrite coluna_enc_length.
    - destruct (get_col c _) as [s|] eqn:Hs; [right|by left].
      exists s. split; [done|]. by apply (bem_formado_get_col _ _ _ Hbf2) in Hs. }
  assert (Hano : vista "ano" (quadro_codificado encs Df)
                 = Some (Some (cnum_Z ∘ year <$> ds))).
  { destruct (Hcal "ano") as (Hin & Hne & Hco); [left|].
    rewrite Hvista by done. rewrite decide_False by done.
    rewrite get_col_codificado_fora by done.
    unfold Df. rewrite (get_col_preparado_dentro _ _ _ _ _ "ano" (cnum_Z ∘ year <$> ds)).
    - cbn [fmap option_fmap option_map]. do 2 f_equal.
      rewrite <- list_fmap_compose. by apply list_fmap_ext.
    - unfold colunas_preparadas, colunas_calendario.
      apply elem_of_app. right. apply elem_of_app. left. left. }
  destruct (montar_inr (quadro_codificado encs Df) (nlinhas df) "ano"
              (cnum_Z ∘ year <$> ds) resto) as (X & HX & HnX & Hcols & Hget).
  { rewrite <- Hfe. apply nomes_disjuntos. }
  { done. }
  { by rewrite length_fmap. }
  { intros c Hin. apply Hcond. rewrite Hfe. by right. }
  rewrite <- Hfe in HX, Hcols, Hget.
  exists X. split; [done|]. split; [done|]. split; [done|].
  assert (Hget' : ∀ c, c ∈ features → c ≠ "clima_enc" →
            get_col c X
            = Some (default (replicate (nlinhas df) czero)
                      (get_col c (set_cols (colunas_codificadas encs Df) Df)))).
  { intros c Hin Hne. rewrite (Hget c Hin), (Hvista c Hin), decide_False by done.
    by destruct (get_col c _). }
  split; [|split; [|split; [|split]]].
  - intros n c Hin.
    assert (Hn8 : n ∈ (colunas_calendario ds).*1).
    { apply list_elem_of_fmap. by exists (n, c). }
    rewrite colunas_calendario_nomes in Hn8.
    destruct (Hcal n Hn8) as (Hnf & Hne & Hco).
    rewrite Hget', get_col_codificado_fora by done.
    unfold Df. rewrite (get_col_preparado_dentro _ _ _ _ _ n c).
    + cbn [default]. f_equal.
      pose proof (colunas_calendario_fillna0 ds) as Hfi.
      rewrite Forall_forall in Hfi. apply (Hfi (n, c) Hin).
    + unfold colunas_preparadas. apply elem_of_app. right.
      apply elem_of_app. by left.
  - intros n Hin. destruct (Hhist n Hin) as (Hnf & Hne & Hco).
    rewrite Hget', get_col_codificado_fora by done.
    unfold Df.
    rewrite (get_col_preparado_dentro _ _ _ _ _ n (replicate (nlinhas df) czero)).
    + cbn [default]. by rewrite fillna0_replicate_zero.
    + unfold colunas_preparadas. apply elem_of_app. right.
      apply elem_of_app. right. unfold colunas_zero.
      apply list_elem_of_fmap. by exists n.
  - rewrite Hget, Hvista, decide_True by done.
    cbn [fmap option_fmap option_map]. f_equal.
    unfold coluna_enc. rewrite He, Hn.
    by destruct (get_col "condicao_metereologica" Df).
  - intros c Hin. destruct (Hcampos c Hin) as (Hc4 & Hcp' & Hcf & Hcne).
    rewrite Hget', get_col_codificado_dentro by done. cbn [default]. f_equal.
    unfold coluna_enc. rewrite Hn. unfold Df.
    by rewrite get_col_preparado_fora, get_col_fillna0.
  - intros n Hin. destruct (Hncal n Hin) as (Hnf & Hne & Hco).
    rewrite Hget', get_col_codificado_fora by done.
    unfold Df. rewrite get_col_preparado_fora by by apply Hnc.
    by destruct (get_col n df).
Qed.

Local Transparent features nomes_historico nomes_preparadas.

(** X13.  The matrix the generator builds for a model with the 27 features
    of [treinar] and no encoder under the key "condicao_metereologica", from
    a well-formed frame.  When it is returned, the input has the columns
    "data", "horario" and "condicao_metereologica", the weather cells are
    text, every date parses, the input has no column "clima_enc" and it has
    at least one row (without rows the generator raises the TypeError of
    line 68); the matrix has the 27 columns and a row per input row; its
    eight calendar columns are computed from the dates; every lag, rolling mean and rolling
    deviation is 0; "clima_enc" is 0 in every row, whatever the weather; the
    codes of the state, the city and the type come from the registry (0 when
    the column or the encoder is missing); and the mean hour and the four
    cyclic features, which the generator never computes, are 0 unless the
    input frame brings columns of those names.  Conversely the generator
    returns on every such input. *)
Theorem gerador_matriz (g : modulo) (df : DataFrame) :
  g_feature_names g = features →
  g_encoders g !! "condicao_metereologica" = None →
  bem_formado df →
  (∀ X, _criar_features_para_previsao g df = inr X →
     ∃ datas horarios txt ds,
       get_col "data" df = Some datas ∧
       get_col "horario" df = Some horarios ∧
       get_col "condicao_metereologica" df = Some (CStr <$> txt) ∧
       Forall2 (λ c d, to_datetime_Ymd c = Some d) datas ds ∧
       get_col "clima_enc" df = None ∧
       (0 < nlinhas df)%nat ∧
       columns X = features ∧ nlinhas X = nlinhas df ∧
       (∀ n c, (n, c) ∈ colunas_calendario ds → get_col n X = Some c) ∧
       (∀ n, n ∈ nomes_historico →
          get_col n X = Some (replicate (nlinhas df) czero)) ∧
       get_col "clima_enc" X = Some (replicate (nlinhas df) czero) ∧
       (∀ c, c ∈ ["uf"; "municipio"; "tipo_acidente"] →
          get_col (c +:+ "_enc") X
          = Some (coluna_enc (g_encoders g) (fillna0 df) c)) ∧
       (∀ n, n ∈ nao_calculadas →
          get_col n X = Some (match get_col n df with
                              | Some v => fillna0_cell <$> v
                              | None => replicate (nlinhas df) czero
                              end))) ∧
  (∀ datas horarios txt ds,
     get_col "data" df = Some datas →
     get_col "horario" df = Some horarios →
     get_col "condicao_metereologica" df = Some (CStr <$> txt) →
     Forall2 (λ c d, to_datetime_Ymd c = Some d) datas ds →
     get_col "clima_enc" df = None →
     (0 < nlinhas df)%nat →
     ∃ X, _criar_features_para_previsao g df = inr X) ∧
  (get_col "data" df = Some [] → is_Some (get_col "horario" df) →
   get_col "condicao_metereologica" df = Some [] →
   _criar_features_para_previsao g df = inl TypeError).
Proof.
  intros Hf He Hbf. split; [|split].
  - intros X HX.
    destruct (gerador_inr g df X HX)
      as (datas & horarios & cm & clima & ds & Hd & Hh & Hc & Hcl & Hds & Hlin).
    destruct (aplicar_simplificar_gerador_inr _ _ Hcl) as (txt & -> & ->).
    assert (Hpos : (0 < nlinhas df)%nat).
    { rewrite <- (bem_formado_get_col _ _ _ Hbf Hd).
      apply mapE_length in Hds as Hlen. rewrite length_fmap in Hlen.
      rewrite <- Hlen. destruct ds; [done|simpl; lia]. }
    assert (Hb : get_col "clima_enc" df = None).
    { destruct (get_col "clima_enc" df) as [s|] eqn:Hb; [exfalso|done].
      rewrite (gerador_forma g df _ _ _ _ _ Hd Hh Hc Hcl Hds), Hf, Hlin in HX.
      cbn [bindE] in HX.
      destruct nomes_gerador as (_ & _ & Hclima & Hcp & _).
      assert (Hum : ∀ c, c ∈ features →
                length (rotuladas c (DataFrame_vazio features)) = 1%nat).
      { intros c Hin. apply rotuladas_vazio; [apply nomes_disjuntos|done]. }
      apply (montar_sem_ambiguos _ _ _ _ Hum HX "clima_enc" Hclima).
      apply vista_quadro_codificado_ambigua.
      - apply NoDup_quadro_preparado, Hbf.
      - rewrite get_col_preparado_fora by done. by rewrite Hb. }
    apply datas_validas_Forall2 in Hds.
    destruct (gerador_matriz_nucleo g df datas horarios txt ds Hf He Hbf Hd Hh Hc Hds
                Hb Hpos)
      as (X' & HX' & Hrest).
    rewrite HX in HX'. injection HX' as <-.
    by exists datas, horarios, txt, ds.
  - intros datas horarios txt ds Hd Hh Hc Hds Hb Hpos.
    destruct (gerador_matriz_nucleo g df datas horarios txt ds Hf He Hbf Hd Hh Hc Hds
                Hb Hpos)
      as (X & HX & _).
    by exists X.
  - intros Hd [horarios Hh] Hc.
    by rewrite (gerador_forma g df [] horarios [] [] [] Hd Hh Hc eq_refl eq_refl).
Qed.

End MatrizGerador.

(** ** The import of the generator *)

Section Importar.

Context `{B : Bibliotecas} `{G : BibliotecasGerador}.

(** The keys of the registry after a training. *)
Lemma treinar_chaves (fs : gmap string arquivo) (arq : string) (p0 p : predictor) :
  treinar fs arq p0 = (inr (), p) →
  (∀ c, c ∈ categoricas → is_Some (encoders p !! c)) ∧
  (∀ c, c ∉ categoricas → encoders p !! c = encoders p0 !! c).
Proof.
  intros Ht.
  destruct (treinar_retorna _ _ _ _ Ht)
    as (js & dados & d & serie & X & p1 & _ & _ & _ & Hcf & Ha & _ & _ & _ & _ & Hreg).
  pose proof (ajustar_e_avaliar_estado _ _ _ _ _ Ha) as (He & _).
  apply _criar_features_encoders in Hcf as [Hfora _].
  split.
  - intros c Hc. rewrite He. by apply Hreg.
  - intros c Hc. rewrite He. by rewrite Hfora.
Qed.

Lemma salvar_modelo_treinado (nome_arq : string) (p : predictor)
    (fs : gmap string arquivo) :
  treinado p = true →
  salvar_modelo nome_arq (p, fs)
  = (inr (), (p, <[nome_arq := APickle (blob_de p)]> fs)).
Proof.
  intros Ht. unfold salvar_modelo, bind, gets, modify, raise. cbn [fst snd].
  by rewrite Ht.
Qed.

(** X11.  The dashboard after a training.  When [treinar] returns on a new
    predictor, [salvar_modelo] writes "modelo_acidentes.pkl" and the
    generator's module imports it: its regressor and its registry are the
    predictor's, its feature names are the 27 features, its registry has an
    encoder exactly for "uf", "municipio", "tipo_acidente" and "clima", so
    none under the key "condicao_metereologica" that the generator looks up;
    and the accuracy [get_statistics] reports is the constant 89, since the
    saved dict has no key "r2". *)
Theorem importar_gerador_treinado (fs : gmap string arquivo) (arq : string)
    (p : predictor) :
  treinar fs arq __init__ = (inr (), p) →
  ∃ fs' g,
    salvar_modelo "modelo_acidentes.pkl" (p, fs) = (inr (), (p, fs')) ∧
    importar_gerador fs' = inr g ∧
    g_modelo g = Some (modelo p) ∧ g_encoders g = encoders p ∧
    g_feature_names g = features ∧
    (∀ c, is_Some (g_encoders g !! c) ↔ c ∈ categoricas) ∧
    g_encoders g !! "condicao_metereologica" = None ∧
    precisao g = inr 89.
Proof.
  intros Ht.
  destruct (treinar_inr _ _ _ _ Ht) as [Htr Hf].
  destruct (treinar_chaves _ _ _ _ Ht) as [Hdentro Hfora].
  eexists _, _. split; [by apply salvar_modelo_treinado|].
  unfold importar_gerador. rewrite lookup_insert_eq. cbn [blob_de item b_modelo
    b_encoders b_features bindE].
  split; [reflexivity|]. cbn [g_modelo g_carregado g_encoders g_feature_names
    fmap option_fmap option_map snd].
  split; [done|]. split; [done|]. split; [done|]. split; [|split].
  - intros c. split; [|apply Hdentro].
    intros Hs. destruct (decide (c ∈ categoricas)) as [|Hn]; [done|].
    rewrite (Hfora c Hn) in Hs. by destruct Hs.
  - rewrite Hfora; [done|]. decide_nomes.
  - reflexivity.
Qed.

(** X14.  The generator's import is stricter than the page's loader.  On a
    pickled dict the page's [load_model] always returns a predictor; the
    import of data_generator.py returns only when the dict has the three
    keys "modelo", "encoders" and "features", and then both read the same
    regressor, registry and feature names; otherwise the import raises
    KeyError on the first missing key and the dashboard does not start. *)
Theorem importar_gerador_estrito (fs : gmap string arquivo) (data : blob) :
  fs !! "modelo_acidentes.pkl" = Some (APickle data) →
  ∃ p, load_model fs "modelo_acidentes.pkl" = Some p ∧
    match importar_gerador fs with
    | inr g =>
        b_modelo data = g_modelo g ∧ b_encoders data = Some (g_encoders g) ∧
        b_features data = Some (g_feature_names g) ∧
        g_model_data g = Some data ∧
        g_modelo g = Some (modelo p) ∧ g_encoders g = encoders p ∧
        g_feature_names g = feature_names p
    | inl e =>
        (b_modelo data = None ∧ e = KeyError "modelo") ∨
        (is_Some (b_modelo data) ∧ b_encoders data = None ∧
         e = KeyError "encoders") ∨
        (is_Some (b_modelo data) ∧ is_Some (b_encoders data) ∧
         b_features data = None ∧ e = KeyError "features")
    end.
Proof.
  intros Hfs. unfold load_model, importar_gerador. rewrite Hfs.
  eexists. split; [reflexivity|].
  destruct (b_modelo data) as [m|]; cbn [item bindE]; [|by left].
  destruct (b_encoders data) as [e|]; cbn [item bindE]; [|right; left; eauto].
  destruct (b_features data) as [f|]; cbn [item bindE]; [|right; right; eauto 6].
  by repeat split.
Qed.

End Importar.

(** * Properties of the dashboard's data *)

Lemma mapX_length {A C} (f : A → excecao + C) (l : list A) (ys : list C) :
  mapX f l = inr ys → length ys = length l.
Proof.
  revert ys. induction l as [|a l IH]; intros ys; [by intros [= <-]|].
  cbn [mapX]. destruct (f a) as [e|b]; [done|]. cbn [bindX].
  destruct (mapX f l) as [e|bs]; [done|]. cbn [bindX].
  intros [= <-]. cbn [length]. f_equal. by apply IH.
Qed.

Lemma ciclico_inr {A} (i : nat) (l : list A) :
  l ≠ [] → ∃ x, ciclico i l = inr x ∧ x ∈ l.
Proof.
  destruct l as [|x l]; [done|]. intros _. eexists. split; [done|].
  apply list_elem_of_In, nth_In. apply Nat.mod_upper_bound. done.
Qed.

(** The sum of a column of integers never raises. *)
Lemma soma_onde_inteiros (mascara : list bool) (zs : list Z) :
  ∃ q, soma_onde mascara (cnum_Z <$> zs) = inr q.
Proof.
  revert mascara. induction zs as [|z zs IH]; intros mascara.
  { exists 0%Q. by destruct mascara. }
  destruct mascara as [|b mascara]; [by exists 0%Q|].
  destruct (IH mascara) as (q & Hq).
  rewrite fmap_cons. cbn [soma_onde cnum_Z bindE]. rewrite Hq. cbn [bindE].
  by eexists.
Qed.

Lemma int64_limites (z : Z) : - 2 ^ 63 ≤ int64 z < 2 ^ 63.
Proof.
  unfold int64. pose proof (Z.mod_pos_bound (z + 2 ^ 63) (2 ^ 64)). lia.
Qed.

Section DadosPainel.

Context `{B : Bibliotecas} `{G : BibliotecasGerador}.

(** The frame of the simulated records, when there is one. *)
Lemma quadro_simulado_colunas (rs : list simulado) :
  rs ≠ [] →
  nlinhas (quadro_simulado rs) = length rs ∧
  columns (quadro_simulado rs)
  = ["data"; "horario"; "uf"; "municipio"; "tipo_acidente";
     "condicao_metereologica"; "latitude"; "longitude"; "dia_semana"; "mes"; "ano"] ∧
  get_col "data" (quadro_simulado rs) = Some (CStr ∘ strftime_Ymd ∘ s_data <$> rs) ∧
  get_col "horario" (quadro_simulado rs)
  = Some ((λ r, CStr (dois_digitos (s_hora r) +:+ ":00")) <$> rs) ∧
  get_col "condicao_metereologica" (quadro_simulado rs) = Some (CStr <$> (s_clima <$> rs)).
Proof.
  destruct rs as [|r rs]; [done|]. intros _. repeat split.
  unfold get_col. cbn. by rewrite <- list_fmap_compose.
Qed.

Lemma quadro_simulado_bem_formado (rs : list simulado) :
  bem_formado (quadro_simulado rs).
Proof.
  destruct rs as [|r rs].
  { split; [apply NoDup_nil_2|constructor]. }
  split; [decide_nomes|].
  unfold quadro_simulado. cbn [colunas nlinhas].
  repeat constructor; cbn [snd]; by rewrite ?length_fmap.
Qed.

(** What a call of the generator that returns has done. *)
Lemma generate_accident_data_inr (g : modulo) (o : opcoes) (today : timestamp)
    (n : nat) (df : DataFrame) :
  generate_accident_data g o today n = inr df →
  match g_modelo g with
  | None => df = {| nlinhas := 0; colunas := [] |}
  | Some modelo =>
      ∃ u m c rs X brutos ds,
        load_locations o = inr (u, m, c) ∧
        mapX (simular u m c today) (seq 0 n) = inr rs ∧
        rs ≠ [] ∧ length rs = n ∧
        _criar_features_para_previsao g (quadro_simulado rs) = inr X ∧
        lgbm_predict modelo X = inr brutos ∧
        length brutos = n ∧
        to_datetime_auto (CStr ∘ strftime_Ymd ∘ s_data <$> rs) = inr ds ∧
        df = set_col "data" (from_option CData CNaN <$> ds)
               (set_col "num_acidentes"
                  (cnum_Z <$> (astype_int ∘ arredonda_clip <$> brutos))
                  (quadro_simulado rs))
  end.
Proof.
  unfold generate_accident_data. destruct (g_modelo g) as [modelo|]; [|by intros [= <-]].
  destruct (load_locations o) as [e|[[u m] c]]; [done|]. cbn [elevar bindX].
  destruct (mapX _ _) as [e|rs] eqn:Hrs; [done|]. cbn [bindX].
  destruct (_criar_features_para_previsao g (quadro_simulado rs)) as [e|X] eqn:HX; [done|].
  cbn [elevar bindX].
  destruct (lgbm_predict modelo X) as [e|brutos] eqn:Hp; [done|]. cbn [elevar bindX].
  unfold atribuir_previsoes. destruct (decide _) as [Hlen|]; [|done]. cbn [elevar bindX].
  assert (Hne : rs ≠ []).
  { intros ->. unfold _criar_features_para_previsao, col in HX. by cbn in HX. }
  destruct (quadro_simulado_colunas rs Hne) as (Hn & _ & Hd & _).
  unfold col. rewrite get_col_set_col_ne, Hd by (by intros [=]). cbn [elevar bindX].
  destruct (to_datetime_auto _) as [e|ds] eqn:Hds; [done|]. cbn [elevar bindX].
  intros [= <-]. apply mapX_length in Hrs as Hl. rewrite length_seq in Hl.
  exists u, m, c, rs, X, brutos, ds. repeat split; try done.
  rewrite length_fmap, Hn in Hlen. congruence.
Qed.

(** The records generated from two lists of weather options differ in the
    weather only. *)
Lemma simular_clima (u : list string) (m : gmap string (list string))
    (c1 c2 : list string) (today : timestamp) (i : nat) :
  c1 ≠ [] → c2 ≠ [] →
  match simular u m c1 today i, simular u m c2 today i with
  | inr r1, inr r2 => sem_clima r1 = sem_clima r2
  | inl e1, inl e2 => e1 = e2
  | _, _ => False
  end.
Proof.
  intros H1 H2. unfold simular.
  destruct (ciclico i (take 5 u)) as [e|uf]; [done|]. cbn [bindX].
  destruct (item uf (m !! uf)) as [e|ms]; [done|]. cbn [elevar bindX].
  destruct (ciclico_inr i (take 3 c1)) as (w1 & -> & _); [by destruct c1|].
  destruct (ciclico_inr i (take 3 c2)) as (w2 & -> & _); [by destruct c2|].
  cbn [bindX]. by destruct (coordenadas uf i).
Qed.

Lemma mapX_simular_clima (u : list string) (m : gmap string (list string))
    (c1 c2 : list string) (today : timestamp) (l : list nat) :
  c1 ≠ [] → c2 ≠ [] →
  match mapX (simular u m c1 today) l, mapX (simular u m c2 today) l with
  | inr rs1, inr rs2 => sem_clima <$> rs1 = sem_clima <$> rs2
  | inl e1, inl e2 => e1 = e2
  | _, _ => False
  end.
Proof.
  intros H1 H2. induction l as [|i l IH]; [done|]. cbn [mapX].
  pose proof (simular_clima u m c1 c2 today i H1 H2) as Hi.
  destruct (simular u m c1 today i) as [e1|r1], (simular u m c2 today i) as [e2|r2];
    try done; cbn [bindX].
  destruct (mapX (simular u m c1 today) l) as [e1|rs1],
           (mapX (simular u m c2 today) l) as [e2|rs2]; try done; cbn [bindX].
  rewrite !fmap_cons. by f_equal.
Qed.

Lemma quadro_simulado_concordam (rs1 rs2 : list simulado) :
  sem_clima <$> rs1 = sem_clima <$> rs2 →
  concordam ["condicao_metereologica"] (quadro_simulado rs1) (quadro_simulado rs2).
Proof.
  intros Hrs.
  assert (Hcol : ∀ (A : Type) (f : timestamp * nat * string * string * cell * cell → A),
            f ∘ sem_clima <$> rs1 = f ∘ sem_clima <$> rs2).
  { intros A f. by rewrite !list_fmap_compose, Hrs. }
  destruct rs1 as [|r1 rs1], rs2 as [|r2 rs2]; try done.
  split.
  { cbn [quadro_simulado nlinhas]. by rewrite <- (length_fmap sem_clima), Hrs, length_fmap. }
  intros c Hc. rewrite not_elem_of_cons in Hc. destruct Hc as [Hc _].
  unfold get_col, quadro_simulado. cbn [colunas assoc_get].
  destruct (String.eqb "data" c);
    [f_equal; exact (Hcol _ (λ t, CStr (strftime_Ymd t.1.1.1.1.1)))|].
  destruct (String.eqb "horario" c);
    [f_equal; exact (Hcol _ (λ t, CStr (dois_digitos t.1.1.1.1.2 +:+ ":00")))|].
  destruct (String.eqb "uf" c); [f_equal; exact (Hcol _ (λ t, CStr t.1.1.1.2))|].
  destruct (String.eqb "municipio" c); [f_equal; exact (Hcol _ (λ t, CStr t.1.1.2))|].
  destruct (String.eqb "tipo_acidente" c);
    [f_equal; exact (Hcol _ (λ t, CStr "Colisão"))|].
  destruct (String.eqb_spec "condicao_metereologica" c) as [Heq|_];
    [by destruct Hc|].
  destruct (String.eqb "latitude" c); [f_equal; exact (Hcol _ (λ t, t.1.2))|].
  destruct (String.eqb "longitude" c); [f_equal; exact (Hcol _ (λ t, t.2))|].
  destruct (String.eqb "dia_semana" c);
    [f_equal; exact (Hcol _ (λ t, CStr (strftime_A t.1.1.1.1.1)))|].
  destruct (String.eqb "mes" c);
    [f_equal; exact (Hcol _ (λ t, cnum_Z (month t.1.1.1.1.1)))|].
  destruct (String.eqb "ano" c);
    [f_equal; exact (Hcol _ (λ t, cnum_Z (year t.1.1.1.1.1)))|].
  reflexivity.
Qed.

End DadosPainel.

Lemma concordam_set_col (fora : list string) (n : string) (v : column)
    (df1 df2 : DataFrame) :
  concordam fora df1 df2 → concordam fora (set_col n v df1) (set_col n v df2).
Proof.
  intros [Hn Hc]. split; [done|]. intros c Hf.
  rewrite !get_col_set_col. destruct (String.eqb n c); [done|]. by apply Hc.
Qed.

Lemma concordam_mono (fora1 fora2 : list string) (df1 df2 : DataFrame) :
  fora1 ⊆ fora2 → concordam fora1 df1 df2 → concordam fora2 df1 df2.
Proof.
  intros Hsub [Hn Hc]. split; [done|]. intros c Hf. apply Hc.
  intros Hin. by apply Hf, Hsub.
Qed.

Lemma concordam_refl (fora : list string) (df : DataFrame) : concordam fora df df.
Proof. by split. Qed.

Lemma concordam_trans (fora : list string) (df1 df2 df3 : DataFrame) :
  concordam fora df1 df2 → concordam fora df2 df3 → concordam fora df1 df3.
Proof.
  intros [Hn1 Hc1] [Hn2 Hc2]. split; [congruence|].
  intros c Hc. by rewrite Hc1, Hc2.
Qed.

Lemma concordam_set_col_fora (fora : list string) (n : string) (v : column)
    (df : DataFrame) :
  n ∈ fora → concordam fora df (set_col n v df).
Proof.
  intros Hn. split; [done|]. intros c Hc.
  rewrite get_col_set_col_ne; [done|]. by intros ->.
Qed.

Section Gerar.

Context `{B : Bibliotecas} `{G : BibliotecasGerador}.

(** The frame a call of the generator with a model returns. *)
Lemma generate_accident_data_quadro (g : modulo) (o : opcoes) (today : timestamp)
    (n : nat) (df : DataFrame) (modelo : regressor) :
  g_modelo g = Some modelo →
  generate_accident_data g o today n = inr df →
  ∃ rs X brutos ds,
    (0 < n)%nat ∧ length rs = n ∧ length brutos = n ∧ length ds = n ∧
    lgbm_predict modelo X = inr brutos ∧
    nlinhas df = n ∧ empty df = false ∧
    columns df = ["data"; "horario"; "uf"; "municipio"; "tipo_acidente";
                  "condicao_metereologica"; "latitude"; "longitude";
                  "dia_semana"; "mes"; "ano"; "num_acidentes"] ∧
    get_col "data" df = Some (from_option CData CNaN <$> ds) ∧
    get_col "mes" df = Some (cnum_Z ∘ month ∘ s_data <$> rs) ∧
    get_col "ano" df = Some (cnum_Z ∘ year ∘ s_data <$> rs) ∧
    get_col "num_acidentes" df
    = Some (cnum_Z <$> (astype_int ∘ arredonda_clip <$> brutos)).
Proof.
  intros Hm Hg. apply generate_accident_data_inr in Hg. rewrite Hm in Hg.
  destruct Hg as (u & m & c & rs & X & brutos & ds
                  & _ & _ & Hne & Hl & _ & Hp & Hlb & Hds & ->).
  apply to_datetime_auto_shape in Hds. rewrite length_fmap in Hds.
  exists rs, X, brutos, ds.
  destruct rs as [|r rs]; [done|].
  split; [simpl in Hl; lia|]. split; [done|]. split; [done|].
  split; [congruence|]. split; [done|].
  split; [done|]. split.
  { reflexivity. }
  repeat split.
Qed.

(** X15.  What [generate_accident_data] returns.  Without a model it is the
    empty frame, whatever the selection files.  With a model a call that
    returns was asked for at least one record (with [num_records = 0] the
    frame has no column and the generator raises KeyError "data"); the frame
    has one row per record and the eleven columns of the records followed by
    "num_acidentes"; each count is a raw output of the regressor, rounded,
    raised to 0 if negative and converted to int64: a non-negative integer
    whenever the rounded output is below 2^63, the least int64 otherwise. *)
Theorem generate_accident_data_resultado (g : modulo) (o : opcoes)
    (today : timestamp) (n : nat) :
  (g_modelo g = None →
   generate_accident_data g o today n = inr {| nlinhas := 0; colunas := [] |}) ∧
  (is_Some (g_modelo g) → (∃ x, load_locations o = inr x) →
   generate_accident_data g o today 0 = inl (Excecao (KeyError "data"))) ∧
  (∀ df modelo, g_modelo g = Some modelo →
     generate_accident_data g o today n = inr df →
     (0 < n)%nat ∧ nlinhas df = n ∧
     columns df = ["data"; "horario"; "uf"; "municipio"; "tipo_acidente";
                   "condicao_metereologica"; "latitude"; "longitude";
                   "dia_semana"; "mes"; "ano"; "num_acidentes"] ∧
     ∃ X brutos zs,
       lgbm_predict modelo X = inr brutos ∧
       get_col "num_acidentes" df = Some (cnum_Z <$> zs) ∧
       length zs = n ∧
       Forall2 (λ r z,
                  z = astype_int (Z.max 0 (np_round r)) ∧
                  (np_round r < 2 ^ 63 → z = Z.max 0 (np_round r) ∧ 0 ≤ z) ∧
                  (2 ^ 63 ≤ np_round r → z = - 2 ^ 63)) brutos zs).
Proof.
  split; [|split].
  - intros Hm. unfold generate_accident_data. by rewrite Hm.
  - intros [modelo Hm] [[[u m] c] Hl]. unfold generate_accident_data.
    by rewrite Hm, Hl.
  - intros df modelo Hm Hg.
    destruct (generate_accident_data_quadro _ _ _ _ _ _ Hm Hg)
      as (rs & X & brutos & ds & Hn & _ & Hlb & _ & Hp & Hnl & _ & Hcols & _ & _
          & _ & Hnum).
    split; [done|]. split; [done|]. split; [done|].
    exists X, brutos, (astype_int ∘ arredonda_clip <$> brutos).
    split; [done|]. split; [done|]. split; [by rewrite length_fmap|].
    apply Forall2_fmap_r, Forall_Forall2_diag, Forall_forall. intros r _.
    cbn [compose]. split; [done|]. split.
    + intros Hr. by apply astype_int_clip.
    + intros Hr. apply astype_int_nao_cabe. unfold arredonda_clip. lia.
Qed.

End Gerar.

Section Estatisticas.

Context `{B : Bibliotecas} `{G : BibliotecasGerador}.

Lemma load_locations_clima (o1 o2 : opcoes) (c1 c2 : list string) :
  o_uf_options o1 = o_uf_options o2 →
  o_municipios_por_uf o1 = o_municipios_por_uf o2 →
  o_condicoes o1 = Lido c1 → o_condicoes o2 = Lido c2 →
  match load_locations o1, load_locations o2 with
  | inr (u1, m1, c1'), inr (u2, m2, c2') =>
      u1 = u2 ∧ m1 = m2 ∧ c1' = c1 ∧ c2' = c2
  | inl e1, inl e2 => e1 = e2
  | _, _ => False
  end.
Proof.
  intros Hu Hm H1 H2. unfold load_locations. rewrite Hu, Hm, H1, H2.
  destruct (json_load (o_uf_options o2)) as [e|u]; [done|]. cbn [bindE].
  destruct (json_load (o_municipios_por_uf o2)) as [e|m]; [done|]. by cbn.
Qed.

(** X16.  The counts of the dashboard do not depend on the weather options.
    For a module whose encoders have no entry for the weather and whose
    features name neither the hour nor the weather, two sets of selection files that differ only in
    the list of weather conditions (neither list empty) give, for the same
    clock and the same number of records, the same exception or two frames
    that agree in every column but "condicao_metereologica": the same
    predicted counts, row by row. *)
Theorem generate_accident_data_sem_clima (g : modulo) (o1 o2 : opcoes)
    (c1 c2 : list string) (today : timestamp) (n : nat) :
  g_encoders g !! "condicao_metereologica" = None →
  NoDup (g_feature_names g) →
  (∀ c, c ∈ g_feature_names g →
        c ∉ ["horario"; "condicao_metereologica"; "hora"]) →
  o_uf_options o1 = o_uf_options o2 →
  o_municipios_por_uf o1 = o_municipios_por_uf o2 →
  o_condicoes o1 = Lido c1 → o_condicoes o2 = Lido c2 →
  c1 ≠ [] → c2 ≠ [] →
  match generate_accident_data g o1 today n, generate_accident_data g o2 today n with
  | inr df1, inr df2 =>
      concordam ["condicao_metereologica"] df1 df2 ∧
      get_col "num_acidentes" df1 = get_col "num_acidentes" df2
  | inl e1, inl e2 => e1 = e2
  | _, _ => False
  end.
Proof.
  intros He Hnd Hfora Hu Hm H1 H2 Hc1 Hc2. unfold generate_accident_data.
  destruct (g_modelo g) as [modelo|]; [|by split].
  pose proof (load_locations_clima o1 o2 c1 c2 Hu Hm H1 H2) as Hl.
  destruct (load_locations o1) as [e1|[[u1 m1] c1']],
           (load_locations o2) as [e2|[[u2 m2] c2']]; try done.
  { cbv beta iota in Hl. by rewrite Hl. }
  destruct Hl as (<- & <- & -> & ->). cbn [elevar bindX].
  pose proof (mapX_simular_clima u1 m1 c1 c2 today (seq 0 n) Hc1 Hc2) as Hrs.
  destruct (mapX (simular u1 m1 c1 today) (seq 0 n)) as [e1|rs1],
           (mapX (simular u1 m1 c2 today) (seq 0 n)) as [e2|rs2]; try done.
  cbn [bindX].
  pose proof (quadro_simulado_concordam rs1 rs2 Hrs) as Hco.
  assert (Hmesma : _criar_features_para_previsao g (quadro_simulado rs1)
                   = _criar_features_para_previsao g (quadro_simulado rs2)).
  { destruct rs1 as [|r1 rs1], rs2 as [|r2 rs2]; try done.
    destruct (quadro_simulado_colunas (r1 :: rs1)) as (_ & _ & _ & Hh1 & Ht1); [done|].
    destruct (quadro_simulado_colunas (r2 :: rs2)) as (_ & _ & _ & Hh2 & Ht2); [done|].
    eapply gerador_independente; try done.
    - apply quadro_simulado_bem_formado.
    - apply quadro_simulado_bem_formado.
    - eapply concordam_mono; [|exact Hco].
      intros x ->%list_elem_of_singleton. right. left. }
  rewrite Hmesma.
  destruct (_criar_features_para_previsao g (quadro_simulado rs2)) as [ex|X]; [done|].
  cbn [elevar bindX].
  destruct (lgbm_predict modelo X) as [ex|brutos]; [done|]. cbn [elevar bindX].
  unfold atribuir_previsoes. destruct Hco as [Hn Hcols]. rewrite Hn.
  destruct (decide _); [|done]. cbn [elevar bindX].
  unfold col. rewrite !get_col_set_col_ne by (by intros [=]).
  rewrite (Hcols "data") by (rewrite not_elem_of_cons; split;
                              [by intros [=]|apply not_elem_of_nil]).
  destruct (get_col "data" (quadro_simulado rs2)) as [datas|]; [|done].
  cbn [elevar bindX].
  destruct (to_datetime_auto datas) as [ex|ds]; [done|]. cbn [elevar bindX].
  assert (Hfim : concordam ["condicao_metereologica"]
            (set_col "data" (from_option CData CNaN <$> ds)
               (set_col "num_acidentes"
                  (cnum_Z <$> (astype_int ∘ arredonda_clip <$> brutos))
                  (quadro_simulado rs1)))
            (set_col "data" (from_option CData CNaN <$> ds)
               (set_col "num_acidentes"
                  (cnum_Z <$> (astype_int ∘ arredonda_clip <$> brutos))
                  (quadro_simulado rs2)))).
  { by do 2 apply concordam_set_col. }
  split; [exact Hfim|]. apply Hfim.
  rewrite not_elem_of_cons. split; [by intros [=]|apply not_elem_of_nil].
Qed.

(** X17.  Where [generate_accident_data] stops when its inputs are not what
    it expects, for a module with a model and at least one record asked
    for: a selection file that is missing or is not JSON stops it with the
    exception of [load_locations]; an empty list of states, or an empty list
    of weather conditions, stops it with ZeroDivisionError; a state without
    an entry in the cities file stops it with KeyError on that state. *)
Theorem generate_accident_data_erros (g : modulo) (o : opcoes) (today : timestamp)
    (n : nat) (modelo : regressor) :
  g_modelo g = Some modelo →
  (∀ e, load_locations o = inl e →
        generate_accident_data g o today (S n) = inl (Excecao e)) ∧
  (∀ u m c, load_locations o = inr (u, m, c) →
     match u with
     | [] => generate_accident_data g o today (S n) = inl ZeroDivisionError
     | uf :: _ =>
         match m !! uf with
         | None => generate_accident_data g o today (S n) = inl (Excecao (KeyError uf))
         | Some _ =>
             c = [] → generate_accident_data g o today (S n) = inl ZeroDivisionError
         end
     end).
Proof.
  intros Hm. unfold generate_accident_data. rewrite Hm. split.
  - intros e ->. done.
  - intros u m c ->. cbn [elevar bindX]. rewrite <- cons_seq. cbn [mapX].
    assert (Hc0 : ∀ (A : Type) (x : A) (l : list A), ciclico 0 (x :: l) = inr x).
    { intros A x l. unfold ciclico. by rewrite Nat.Div0.mod_0_l. }
    destruct u as [|uf u]; [done|].
    destruct (m !! uf) as [ms|] eqn:Hms.
    + intros ->. unfold simular. cbn [take]. rewrite Hc0. cbn [bindX].
      by rewrite Hms.
    + unfold simular. cbn [take]. rewrite Hc0. cbn [bindX]. by rewrite Hms.
Qed.

(** X18.  What [get_statistics] returns.  Without a model every figure is 0.
    With a model the two sums are int64 and there are at most 1000 alerts;
    the accuracy is 89 when the pickled dict has no key "r2" (the dict
    [salvar_modelo] writes has none), and is the rounded percentage of that
    key otherwise, the product taken in double precision: it is never one of
    the scores of the training. *)
Theorem get_statistics_resultado (g : modulo) (o : opcoes)
    (t_gerar t_mes t_ano t_hoje : timestamp) (e : estatisticas) :
  get_statistics g o t_gerar t_mes t_ano t_hoje = inr e →
  match g_carregado g with
  | None =>
      e = {| accidents_this_month := 0; model_accuracy := 0;
             predictions_today := 0; active_alerts := 0 |}
  | Some (model_data, _) =>
      - 2 ^ 63 ≤ accidents_this_month e < 2 ^ 63 ∧
      - 2 ^ 63 ≤ predictions_today e < 2 ^ 63 ∧
      0 ≤ active_alerts e ≤ 1000 ∧
      match b_r2 model_data with
      | None => model_accuracy e = 89
      | Some r2 => round_100 r2 = inr (model_accuracy e)
      end
  end.
Proof.
  unfold get_statistics.
  destruct (generate_accident_data g o t_gerar 1000) as [ex|df] eqn:Hg; [done|].
  cbn [bindX].
  destruct (g_carregado g) as [[model_data modelo]|] eqn:Hcar.
  2:{ unfold generate_accident_data, g_modelo in Hg. rewrite Hcar in Hg.
      injection Hg as <-. by intros [= <-]. }
  assert (Hm : g_modelo g = Some modelo) by (unfold g_modelo; by rewrite Hcar).
  destruct (generate_accident_data_quadro _ _ _ _ _ _ Hm Hg)
    as (rs & X & brutos & ds & _ & _ & Hlb & _ & _ & _ & -> & _ & Hdata & Hmes
        & Hano & Hnum).
  unfold col. rewrite Hmes, Hano, Hnum, Hdata. cbn [elevar bindX].
  destruct (soma_onde_inteiros
              (zip_with andb (igual_Z (month t_mes) <$> (cnum_Z ∘ month ∘ s_data <$> rs))
                 (igual_Z (year t_ano) <$> (cnum_Z ∘ year ∘ s_data <$> rs)))
              (astype_int ∘ arredonda_clip <$> brutos))
    as (q1 & ->).
  cbn [elevar bindX].
  destruct (soma_onde_inteiros
              ((λ c, match c with
                     | CData d => bool_decide (strftime_Ymd d = strftime_Ymd t_hoje)
                     | _ => false
                     end) <$> (from_option CData CNaN <$> ds))
              (astype_int ∘ arredonda_clip <$> brutos))
    as (q2 & ->).
  cbn [elevar bindX].
  unfold precisao. rewrite Hcar.
  assert (Hal : 0 ≤ Z.of_nat (length (filter (λ c, maior_Z 5 c = true)
                        (cnum_Z <$> (astype_int ∘ arredonda_clip <$> brutos))))
                ≤ 1000).
  { split; [lia|].
    pose proof (length_filter (λ c, maior_Z 5 c = true)
                  (cnum_Z <$> (astype_int ∘ arredonda_clip <$> brutos))) as H.
    rewrite !length_fmap in H. lia. }
  destruct (b_r2 model_data) as [r2|].
  - destruct (round_100 r2) as [ex|acc]; [done|]. cbn [elevar bindX].
    intros [= <-]. cbn. split; [apply int64_limites|].
    split; [apply int64_limites|]. split; [exact Hal|done].
  - cbn [elevar bindX]. intros [= <-]. cbn. split; [apply int64_limites|].
    split; [apply int64_limites|]. split; [exact Hal|done].
Qed.

End Estatisticas.

(** * Properties of the page *)



(** X19.  The selections of the page.  [load_options] returns what
    [load_locations] returns whenever the latter returns; and when the file
    of the weather conditions cannot be read, the options the page offers
    are the six classes of the predictor's normalizer, each of which the
    normalizer keeps as it is. *)
Theorem load_options_padrao (o : opcoes) :
  (∀ r, load_locations o = inr r → load_options o = r) ∧
  ((∀ c, o_condicoes o ≠ Lido c) →
   (load_options o).2 = classes_clima ∧
   ∀ c, c ∈ (load_options o).2 → Preditor._simplificar_clima c = c).
Proof.
  split.
  - intros [[u m] c]. unfold load_locations, load_options.
    destruct (json_load (o_uf_options o)) as [e|u']; [done|]. cbn [bindE].
    destruct (json_load (o_municipios_por_uf o)) as [e|m']; [done|]. cbn [bindE].
    destruct (json_load (o_condicoes o)) as [e|c']; [done|]. cbn [bindE].
    by intros [= -> -> ->].
  - intros Hc. assert (H2 : (load_options o).2 = classes_clima).
    { unfold load_options. cbn [snd]. destruct (o_condicoes o) as [| |c]; try done.
      by destruct (Hc c). }
    split; [done|]. rewrite H2. apply simplificar_clima_ponto_fixo.
Qed.

Section Pagina.

Context `{B : Bibliotecas} `{G : BibliotecasGerador}.


Local Opaque ajustar_e_avaliar _criar_features _processar_dados frame_de.


Local Transparent ajustar_e_avaliar _criar_features _processar_dados frame_de.


Lemma df_input_colunas (p : predictor) (hoje : timestamp) (uf municipio : cell)
    (horario_obj : hora_do_dia) (condicao : cell) :
  nlinhas (df_input p hoje uf municipio horario_obj condicao) = 1%nat ∧
  get_col "tipo_acidente" (df_input p hoje uf municipio horario_obj condicao)
  = Some [CStr (tipo_default p)].
Proof. done. Qed.

Local Opaque _criar_features prever_features.

(** X21.  The number the page shows.  A press of the button either reports
    the exception [prever] raised on the one-row frame of the selections, or
    shows a number that is not negative: [prever] returned an array of
    exactly one element, so the read of its last element never fails, and
    the number is that element, unless the regressor's output was beyond
    int64 and the element is the least int64, which [max(0, ...)] turns
    into 0. *)
Theorem prever_acidentes_resultado (hoje : timestamp) (uf municipio : cell)
    (horario_obj : hora_do_dia) (condicao : cell) (p p' : predictor)
    (r : excecao + Z) :
  prever_acidentes hoje uf municipio horario_obj condicao p = (r, p') →
  match r with
  | inr z =>
      0 ≤ z ∧
      ∃ y, prever (df_input p hoje uf municipio horario_obj condicao) p
           = (inr [y], p') ∧
           z = Z.max 0 y ∧ (y = z ∨ (y = - 2 ^ 63 ∧ z = 0))
  | inl (Excecao e) =>
      prever (df_input p hoje uf municipio horario_obj condicao) p = (inl e, p')
  | inl _ => False
  end.
Proof.
  unfold prever_acidentes.
  destruct (prever _ p) as [[e|ys] p1] eqn:Hp.
  { by intros [= <- <-]. }
  destruct (prever_inr _ _ _ _ Hp) as (_ & X & brutos & HX & Hb & ->).
  apply prever_features_colunas in HX as (_ & Hn & _).
  apply lgbm_predict_shape in Hb. rewrite Hn in Hb. cbn [df_input nlinhas] in Hb.
  destruct brutos as [|b [|b' brutos]]; try done.
  cbn [fmap list_fmap last compose]. intros [= <- <-].
  split; [lia|]. eexists. split; [reflexivity|]. split; [done|].
  destruct (Z.lt_ge_cases (np_round b) (2 ^ 63)) as [Hr|Hr].
  - left. destruct (astype_int_clip b Hr) as [_ H0]. lia.
  - right. rewrite astype_int_nao_cabe by (unfold arredonda_clip; lia).
    split; [done|]. lia.
Qed.

Local Transparent prever_features.

Lemma nomes_pagina :
  "tipo_acidente_enc" ∈ features ∧ "tipo_acidente" ∈ categoricas ∧
  ("tipo_acidente" ∉ nomes_calendario) ∧ ("tipo_acidente" ∉ nomes_historico).
Proof. repeat split; decide_nomes. Qed.

Local Opaque categoricas features.

(** X22.  The type of accident never varies the page's prediction.  The page
    gives [prever] the first class of the registered encoder of
    "tipo_acidente", so in the matrix of every prediction of the page the
    code of the type is 0: the first class when there is an encoder, and the
    only class of the encoder [prever] fits on "DESCONHECIDO" when there is
    none.  It is -1 only for a registered encoder without classes. *)
Theorem pagina_tipo_acidente (hoje : timestamp) (uf municipio : cell)
    (horario_obj : hora_do_dia) (condicao : cell) (p p' : predictor)
    (X : DataFrame) :
  prever_features (df_input p hoje uf municipio horario_obj condicao) p = (inr X, p') →
  "tipo_acidente_enc" ∈ feature_names p →
  get_col "tipo_acidente_enc" X
  = Some [cnum_Z match encoders p !! "tipo_acidente" with
                 | Some enc => match classes_ enc with [] => -1 | _ => 0 end
                 | None => 0
                 end].
Proof.
  intros HX Hin. destruct nomes_pagina as (Hn1 & Hn2 & Hn3 & Hn4).
  apply prever_features_inr in HX as (di & cm & clima & Xi & y & _ & _ & _ & Hcf & Hsel).
  apply select_inr in Hsel as (_ & _ & Hsel). destruct (Hsel _ Hin) as [-> _].
  apply _criar_features_inr in Hcf
    as (datas & ds & ncs & df4 & _ & _ & Hncs & _ & Hf & Hsel4 & _).
  apply select_inr in Hsel4 as (_ & _ & Hsel4).
  destruct (Hsel4 "tipo_acidente_enc" Hn1) as [-> _].
  destruct categoricas_ok as (Hc1 & Hc2 & Hc3).
  apply codificar_todas_inr in Hf as (_ & _ & _ & Hres); [|done..].
  specialize (Hres "tipo_acidente" Hn2).
  unfold resultado_enc in Hres.
  rewrite get_col_antes in Hres by done.
  unfold frame_de_previsao in Hres.
  rewrite !get_col_set_col_ne in Hres by (by intros [=]).
  rewrite (proj2 (df_input_colunas _ _ _ _ _ _)) in Hres.
  cbn [fmap option_fmap option_map list_fmap fillna0_cell] in Hres.
  unfold tipo_default in *.
  destruct (encoders p !! "tipo_acidente") as [enc|] eqn:He.
  - destruct Hres as (_ & cods & Hcods & Hg).
    etrans; [exact Hg|]. f_equal. cbn [mapE] in Hcods.
    destruct (classes_ enc) as [|c cs] eqn:Hcl.
    + unfold codificar_valor, em_classes in Hcods. rewrite Hcl in Hcods.
      cbn in Hcods. by injection Hcods as <-.
    + unfold codificar_valor, em_classes, transform in Hcods. rewrite Hcl in Hcods.
      rewrite bool_decide_eq_true_2 in Hcods by left.
      cbn [indice] in Hcods. rewrite decide_True in Hcods by done.
      cbn [bindE] in Hcods. by injection Hcods as <-.
  - destruct Hres as (txt & cods & Htxt & _ & Hcods & Hg).
    etrans; [exact Hg|]. f_equal. destruct txt as [|t [|t' txt]]; try done.
    injection Htxt as <-. cbn [mapE transform] in Hcods.
    assert (Hfit : classes_ (fit ["DESCONHECIDO"]) = ["DESCONHECIDO"]) by reflexivity.
    rewrite Hfit in Hcods. cbn [indice] in Hcods.
    rewrite decide_True in Hcods by done. cbn [bindE] in Hcods.
    by injection Hcods as <-.
Qed.

Local Transparent _criar_features categoricas features.

End Pagina.

(** * Closed examples of the generator, the dashboard and the page *)

Import CasosGerador.

Example gerador_ex :
  (_criar_features_para_previsao modulo_ex entrada_gerador
   = _criar_features_para_previsao modulo_ex entrada_gerador_noite) ∧
  match _criar_features_para_previsao modulo_ex entrada_gerador with
  | inr X =>
      get_col "uf_enc" X = Some [cnum_Z 1; cnum_Z (-1)] ∧
      get_col "clima_enc" X = Some [czero; czero] ∧
      get_col "hora_media" X = Some [czero; czero]
  | inl _ => False
  end.
Proof. by vm_compute. Qed.

Example generate_accident_data_ex :
  match generate_accident_data modulo_ex opcoes_ex hoje_ex 3 with
  | inr df =>
      get_col "horario" df = Some [CStr "00:00"; CStr "04:00"; CStr "08:00"] ∧
      get_col "uf" df = Some [CStr "PE"; CStr "BA"; CStr "PE"] ∧
      get_col "num_acidentes" df = Some [cnum_Z 2; cnum_Z 2; cnum_Z 2]
  | inl _ => False
  end.
Proof. by vm_compute. Qed.

Example escolher_data_ex : escolher_data_automatica treinado_ex hoje_ex = "05/01/2023".
Proof. by vm_compute. Qed.

Lemma treinado_ex_run :
  treinar arquivos "datatran_consolidado.json" __init__ = (inr (), treinado_ex).
Proof.
  assert (H1 : (treinar arquivos "datatran_consolidado.json" __init__).1 = inr ())
    by (vm_compute; reflexivity).
  rewrite <- H1. apply surjective_pairing.
Defined.

Lemma modulo_ex_sem_clima : g_encoders modulo_ex !! "condicao_metereologica" = None.
Proof. vm_compute. reflexivity. Defined.

Lemma modulo_ex_nomes :
  ∀ c, c ∈ g_feature_names modulo_ex →
       c ∉ ["horario"; "condicao_metereologica"; "hora"].
Proof. apply Forall_forall. decide_nomes. Defined.

(** [importar_gerador_treinado] on the training of the examples. *)
Lemma importar_gerador_treinado_ex :
  treinar arquivos "datatran_consolidado.json" __init__ = (inr (), treinado_ex) ∧
  ∃ fs' g,
    salvar_modelo "modelo_acidentes.pkl" (treinado_ex, arquivos)
    = (inr (), (treinado_ex, fs')) ∧
    importar_gerador fs' = inr g ∧
    g_feature_names g = features ∧
    g_encoders g !! "condicao_metereologica" = None ∧
    precisao g = inr 89.
Proof.
  split; [exact treinado_ex_run|].
  destruct (importar_gerador_treinado arquivos "datatran_consolidado.json"
              treinado_ex treinado_ex_run)
    as (fs' & g & Hs & Hi & _ & _ & Hf & _ & He & Hp).
  exists fs', g. split; [exact Hs|]. split; [exact Hi|]. split; [exact Hf|].
  split; [exact He | exact Hp].
Defined.

(** [gerador_ignora_clima_e_hora] on two frames that differ in the hour and
    in the weather. *)
Lemma gerador_ignora_clima_e_hora_ex :
  g_encoders modulo_ex !! "condicao_metereologica" = None ∧
  NoDup (g_feature_names modulo_ex) ∧
  concordam ["horario"; "condicao_metereologica"; "hora"]
    entrada_gerador entrada_gerador_noite ∧
  _criar_features_para_previsao modulo_ex entrada_gerador
  = _criar_features_para_previsao modulo_ex entrada_gerador_noite.
Proof.
  assert (Hnd : NoDup (g_feature_names modulo_ex)) by decide_nomes.
  assert (Hnd1 : NoDup (columns entrada_gerador)) by decide_nomes.
  assert (Hnd2 : NoDup (columns entrada_gerador_noite)) by decide_nomes.
  assert (Hco : concordam ["horario"; "condicao_metereologica"; "hora"]
                  entrada_gerador entrada_gerador_noite).
  { eapply concordam_trans.
    - apply (concordam_set_col_fora _ "horario" [CStr "23:00"; CStr "20:00"]).
      decide_nomes.
    - apply (concordam_set_col_fora _ "condicao_metereologica"). decide_nomes. }
  split; [exact modulo_ex_sem_clima|]. split; [exact Hnd|]. split; [exact Hco|].
  exact (proj1 (gerador_ignora_clima_e_hora modulo_ex entrada_gerador
                  entrada_gerador_noite
                  [CStr "08:00"; CStr "12:00"] [CStr "23:00"; CStr "20:00"]
                  ["Chuva"; "Sol"] ["Nublado"; "Garoa"]
                  modulo_ex_sem_clima Hnd modulo_ex_nomes Hnd1 Hnd2 Hco
                  eq_refl eq_refl eq_refl eq_refl)).
Defined.

Lemma entrada_gerador_bem_formado : bem_formado entrada_gerador.
Proof. split; [decide_nomes|]. repeat constructor. Defined.

(** [gerador_matriz] on the two rows of the examples. *)
Lemma gerador_matriz_ex :
  g_feature_names modulo_ex = features ∧
  g_encoders modulo_ex !! "condicao_metereologica" = None ∧
  bem_formado entrada_gerador ∧
  ∃ X, _criar_features_para_previsao modulo_ex entrada_gerador = inr X ∧
    columns X = features ∧ nlinhas X = 2%nat ∧
    get_col "clima_enc" X = Some [czero; czero] ∧
    ∀ n, n ∈ nomes_historico → get_col n X = Some [czero; czero].
Proof.
  split; [reflexivity|]. split; [exact modulo_ex_sem_clima|].
  split; [exact entrada_gerador_bem_formado|].
  destruct (gerador_matriz modulo_ex entrada_gerador eq_refl modulo_ex_sem_clima
              entrada_gerador_bem_formado) as (Hida & Hvolta & _).
  destruct (Hvolta [CStr "2023-01-05"; CStr "2023-01-06"]
              [CStr "08:00"; CStr "12:00"] ["Chuva"; "Sol"]
              [Timestamp 2023 1 5; Timestamp 2023 1 6]) as [X HX].
  { reflexivity. } { reflexivity. } { reflexivity. }
  { repeat constructor. } { reflexivity. } { cbn. lia. }
  destruct (Hida X HX)
    as (datas & horarios & txt & ds & _ & _ & _ & _ & _ & _ & Hcols & Hn & _ & Hh
        & Hc & _).
  exists X. split; [exact HX|]. split; [exact Hcols|]. split; [exact Hn|].
  split; [exact Hc | exact Hh].
Defined.

(** [importar_gerador_estrito] on the pickle without encoders, which the page
    loads and the generator refuses. *)
Lemma importar_gerador_estrito_ex :
  arquivos_parcial !! "modelo_acidentes.pkl" = Some (APickle blob_sem_encoders) ∧
  importar_gerador arquivos_parcial = inl (KeyError "encoders") ∧
  ∃ p, load_model arquivos_parcial "modelo_acidentes.pkl" = Some p.
Proof.
  assert (H : arquivos_parcial !! "modelo_acidentes.pkl"
              = Some (APickle blob_sem_encoders)) by reflexivity.
  split; [exact H|]. split; [reflexivity|].
  destruct (importar_gerador_estrito arquivos_parcial blob_sem_encoders H)
    as (p & Hp & _).
  exists p. exact Hp.
Defined.

(** [generate_accident_data_sem_clima] on two lists of weather options. *)
Lemma generate_accident_data_sem_clima_ex :
  g_encoders modulo_ex !! "condicao_metereologica" = None ∧
  o_condicoes opcoes_ex = Lido ["Chuva"; "Sol"] ∧
  o_condicoes opcoes_ex_nublado = Lido ["Nublado"] ∧
  match generate_accident_data modulo_ex opcoes_ex hoje_ex 3,
        generate_accident_data modulo_ex opcoes_ex_nublado hoje_ex 3 with
  | inr df1, inr df2 =>
      concordam ["condicao_metereologica"] df1 df2 ∧
      get_col "num_acidentes" df1 = get_col "num_acidentes" df2
  | inl e1, inl e2 => e1 = e2
  | _, _ => False
  end.
Proof.
  assert (Hnd : NoDup (g_feature_names modulo_ex)) by decide_nomes.
  split; [exact modulo_ex_sem_clima|]. split; [reflexivity|]. split; [reflexivity|].
  apply (generate_accident_data_sem_clima modulo_ex opcoes_ex opcoes_ex_nublado
           ["Chuva"; "Sol"] ["Nublado"] hoje_ex 3
           modulo_ex_sem_clima Hnd modulo_ex_nomes eq_refl eq_refl eq_refl eq_refl);
    discriminate.
Defined.

(** [generate_accident_data_erros] on selection files without any state. *)
Lemma generate_accident_data_erros_ex :
  g_modelo modulo_ex = Some (modelo treinado_ex) ∧
  generate_accident_data modulo_ex opcoes_sem_uf hoje_ex 1 = inl ZeroDivisionError.
Proof.
  assert (Hm : g_modelo modulo_ex = Some (modelo treinado_ex)) by reflexivity.
  split; [exact Hm|].
  exact (proj2 (generate_accident_data_erros modulo_ex opcoes_sem_uf hoje_ex 0
                  (modelo treinado_ex) Hm) [] ∅ ["Chuva"] eq_refl).
Defined.

(** [get_statistics_resultado] on the thousand records of the examples. *)
Lemma get_statistics_resultado_ex :
  get_statistics modulo_ex opcoes_ex hoje_ex hoje_ex hoje_ex hoje_ex
  = inr {| accidents_this_month := 680; model_accuracy := 89;
           predictions_today := 68; active_alerts := 0 |} ∧
  0 ≤ 0 ≤ 1000 ∧ 89 = 89.
Proof.
  assert (H : get_statistics modulo_ex opcoes_ex hoje_ex hoje_ex hoje_ex hoje_ex
              = inr {| accidents_this_month := 680; model_accuracy := 89;
                       predictions_today := 68; active_alerts := 0 |})
    by (vm_compute; reflexivity).
  split; [exact H|].
  destruct (get_statistics_resultado modulo_ex opcoes_ex hoje_ex hoje_ex hoje_ex
              hoje_ex _ H) as (_ & _ & H3 & H4).
  split; [exact H3 | exact H4].
Defined.

(** The accuracy of a pickled dict with the key "r2": the double nearest to
    0.155 is below 0.155, its product by 100 in double precision is 15.5,
    and 15.5 rounds to 16. *)
Example round_100_ex :
  (round_100 (Some (CNum (5584463537939415 # 36028797018963968))),
   np_round ((5584463537939415 # 36028797018963968) * 100),
   round_100 (Some (CNum (5134103575202365 # 18014398509481984))),
   round_100 (Some (CNum 1)), round_100 (Some (CNum (-1 # 2))))
  = (inr 16, 15, inr 28, inr 100, inr (-50)).
Proof. vm_compute. reflexivity. Qed.


(** [prever_acidentes_resultado] on a press of the button. *)
Lemma prever_acidentes_resultado_ex :
  let r := prever_acidentes hoje_ex (CStr "PE") (CStr "RECIFE") meio_dia (CStr "Bom")
             treinado_ex in
  r = (inr 2, r.2) ∧
  0 ≤ 2 ∧
  ∃ y, prever (df_input treinado_ex hoje_ex (CStr "PE") (CStr "RECIFE") meio_dia
                 (CStr "Bom")) treinado_ex = (inr [y], r.2) ∧
       2 = Z.max 0 y ∧ (y = 2 ∨ (y = - 2 ^ 63 ∧ 2 = 0)).
Proof.
  intros r.
  assert (H1 : r.1 = inr 2) by (vm_compute; reflexivity).
  assert (H : r = (inr 2, r.2)) by (rewrite <- H1; apply surjective_pairing).
  split; [exact H|].
  exact (prever_acidentes_resultado hoje_ex (CStr "PE") (CStr "RECIFE") meio_dia
           (CStr "Bom") treinado_ex r.2 (inr 2) H).
Defined.

(** [pagina_tipo_acidente] on the same press of the button: the code of the
    type is 0. *)
Lemma pagina_tipo_acidente_ex :
  let df := df_input treinado_ex hoje_ex (CStr "PE") (CStr "RECIFE") meio_dia
              (CStr "Bom") in
  "tipo_acidente_enc" ∈ feature_names treinado_ex ∧
  ∃ X, (prever_features df treinado_ex).1 = inr X ∧
       get_col "tipo_acidente_enc" X
       = Some [cnum_Z match encoders treinado_ex !! "tipo_acidente" with
                      | Some enc => match classes_ enc with [] => -1 | _ => 0 end
                      | None => 0
                      end].
Proof.
  intros df.
  assert (Hin : "tipo_acidente_enc" ∈ feature_names treinado_ex) by decide_nomes.
  split; [exact Hin|].
  destruct (prever_features df treinado_ex) as [[e|X] p'] eqn:HX.
  - exfalso. assert (H1 : (prever_features df treinado_ex).1 ≠ inl e).
    { vm_compute. discriminate. }
    apply H1. rewrite HX. reflexivity.
  - exists X. split; [reflexivity|].
    exact (pagina_tipo_acidente hoje_ex (CStr "PE") (CStr "RECIFE") meio_dia
             (CStr "Bom") treinado_ex p' X HX Hin).
Defined.
